(** * Storefront engines: catalog queries and the persisted cart

    A shallow embedding of the catalog query engine ([ProductAPI]: search,
    filter, sort, paginate, lookup by id, related and featured products,
    price range and facets, the composite search, loading and the cache),
    of the cart ([Cart]: mutation, reconciliation against the catalog,
    import/export, storage) and of the handlers that call the cart
    ([CartManager], [UIManager.handleCheckout],
    [GoogleStoreApp.handleAddToCart]), followed by the properties proved
    about them.

    Conventions of the embedding:
    - JavaScript numbers that hold counts and indices (quantity, stock,
      popularity, page, perPage, array indices) are integers in [Z];
      money (price, subtotal, tax, total) and ratings are IEEE-754 binary64
      values, Rocq's primitive [float], with the operations of the machine.
      What is stated about a quantity is therefore stated for carts and
      calls whose quantities are integers: the cart tests the range of a
      quantity, never that it is whole, so [addItem(p, 1.5)] stores 1.5
      and [addItem(p, NaN)] stores NaN;
    - strings are sequences of code units below 256; whitespace ([\s],
      [trim]) and letter case ([toLowerCase]) are those JavaScript gives
      to these code units;
    - [new Date()] is an integer number of milliseconds passed to every
      operation that reads the clock, one reading per call; an ISO-8601
      string stands for the instant it denotes;
    - a value that JavaScript code may find missing ([undefined], [null], a
      field of the wrong shape) is an [option]. *)

From Stdlib Require Import ZArith List Bool String Ascii Lia.
From Stdlib Require Import Sorting.Permutation Sorting.Sorted.
From Stdlib Require Import Floats.PrimFloat Floats.SpecFloat Floats.FloatOps.
From Stdlib Require Import Floats.FloatAxioms.
From Stdlib Require Import Numbers.Cyclic.Int63.Uint63.
Import ListNotations.
Open Scope string_scope.
Open Scope list_scope.
Open Scope Z_scope.
Set Warnings "-inexact-float".

(* ================================================================= *)
(** ** JavaScript built-ins used by the two modules *)

Module JS.

(** *** Numbers *)

(** An integer as a binary64 number: the integer itself up to 2^53 in
    magnitude, the nearest binary64 number (ties to even) beyond. *)
Definition float_of_Z (z : Z) : float :=
  SF2Prim (binary_normalize prec emax z 0 false).

(** [Math.round]: the integer closest to [x], ties towards +infinity.
    A finite [x] is [+/- m * 2^e]; when [e >= 0] it is integral already,
    otherwise the result is the exact [floor (x + 1/2)], computed on
    integers, and a zero result keeps the sign of [x]. *)
Definition Math_round (x : float) : float :=
  match Prim2SF x with
  | S754_finite s m e =>
      if 0 <=? e then x
      else
        let num := if s then Z.neg m else Z.pos m in
        let n := (2 * num + 2 ^ (- e)) / 2 ^ (1 - e) in
        if n =? 0 then (if s then neg_zero else zero) else float_of_Z n
  | _ => x
  end.

(** [Math.max] on two numbers: NaN if either is NaN. *)
Definition Math_max (a b : float) : float :=
  if PrimFloat.is_nan a then a
  else if PrimFloat.is_nan b then b
  else if PrimFloat.ltb a b then b else a.

(** The result of a division of integers whose divisor may be zero:
    [Math.ceil(a / b)]. *)
Inductive Num : Type :=
| Int (z : Z)
| Infinity
| NegInfinity
| NaN.

Definition Math_ceil_div (a b : Z) : Num :=
  if b =? 0 then
    (if a =? 0 then NaN else if 0 <? a then Infinity else NegInfinity)
  else Int (- ((- a) / b)).

(** The sign of a comparator's result, which is all [Array.prototype.sort]
    looks at; NaN counts as zero. *)
Definition sign_of_float (v : float) : comparison :=
  if PrimFloat.ltb v 0%float then Lt
  else if PrimFloat.ltb 0%float v then Gt else Eq.

Definition sign_of_Z (v : Z) : comparison := v ?= 0.

(** *** Strings *)

(** The whitespace of [\s] and of [trim] among the code units below 256:
    TAB, LF, VT, FF, CR, SPACE and the no-break space U+00A0. *)
Definition is_ws (c : ascii) : bool :=
  let n := nat_of_ascii c in
  ((9 <=? n) && (n <=? 13) || (n =? 32) || (n =? 160))%nat.

(** [toLowerCase] on one code unit below 256: the letters A to Z, and
    U+00C0 to U+00DE except the sign U+00D7, move up by 32. *)
Definition lower_char (c : ascii) : ascii :=
  let n := nat_of_ascii c in
  if ((65 <=? n) && (n <=? 90)
      || (192 <=? n) && (n <=? 222) && negb (n =? 215))%nat
  then ascii_of_nat (n + 32) else c.

Fixpoint toLowerCase (s : string) : string :=
  match s with
  | EmptyString => EmptyString
  | String c s' => String (lower_char c) (toLowerCase s')
  end.

Fixpoint trimStart (s : string) : string :=
  match s with
  | EmptyString => EmptyString
  | String c s' => if is_ws c then trimStart s' else s
  end.

Fixpoint trimEnd (s : string) : string :=
  match s with
  | EmptyString => EmptyString
  | String c s' =>
      match trimEnd s' with
      | EmptyString => if is_ws c then EmptyString else String c EmptyString
      | r => String c r
      end
  end.

Definition trim (s : string) : string := trimEnd (trimStart s).

(** [s.split(/\s+/)]: [cur] is the piece being read, [in_ws] tells that the
    previous character belonged to a separator.  A separator at either end
    yields an empty piece there, as in JavaScript. *)
Fixpoint split_ws_from (in_ws : bool) (cur : string) (s : string) : list string :=
  match s with
  | EmptyString => [cur]
  | String c s' =>
      if is_ws c then
        (if in_ws then split_ws_from true cur s'
         else cur :: split_ws_from true EmptyString s')
      else split_ws_from false (cur ++ String c EmptyString)%string s'
  end.

Definition split_ws (s : string) : list string :=
  split_ws_from false EmptyString s.

(** [s.split(sep)] for a separator of one character. *)
Fixpoint split_from (sep : ascii) (cur : string) (s : string) : list string :=
  match s with
  | EmptyString => [cur]
  | String c s' =>
      if Ascii.eqb c sep then cur :: split_from sep EmptyString s'
      else split_from sep (cur ++ String c EmptyString)%string s'
  end.

Definition split (sep : ascii) (s : string) : list string :=
  split_from sep EmptyString s.

(** [parts.join(sep)]. *)
Fixpoint join (sep : string) (parts : list string) : string :=
  match parts with
  | [] => EmptyString
  | [p] => p
  | p :: rest => (p ++ sep ++ join sep rest)%string
  end.

Fixpoint startsWith (s t : string) : bool :=
  match t, s with
  | EmptyString, _ => true
  | String _ _, EmptyString => false
  | String a t', String b s' => Ascii.eqb a b && startsWith s' t'
  end.

(** [s.includes(t)]. *)
Fixpoint includes (s t : string) : bool :=
  startsWith s t
  || match s with
     | EmptyString => false
     | String _ s' => includes s' t
     end.

(** *** Arrays *)

(** [l.slice(start, end)]: a negative bound counts from the end of the
    array, and both bounds are clamped to [0 .. length]. *)
Definition slice {A : Type} (l : list A) (start end_ : Z) : list A :=
  let len := Z.of_nat (List.length l) in
  let k := if start <? 0 then Z.max (len + start) 0 else Z.min start len in
  let final := if end_ <? 0 then Z.max (len + end_) 0 else Z.min end_ len in
  firstn (Z.to_nat (final - k)) (skipn (Z.to_nat k) l).

(** [l.findIndex(f)], [None] standing for -1. *)
Fixpoint findIndex {A : Type} (f : A -> bool) (l : list A) : option nat :=
  match l with
  | [] => None
  | x :: l' =>
      if f x then Some O
      else match findIndex f l' with
           | Some i => Some (S i)
           | None => None
           end
  end.

(** [l[i] = f(l[i])]: an assignment to fields of the element at index [i]. *)
Fixpoint update_at {A : Type} (i : nat) (f : A -> A) (l : list A) : list A :=
  match l, i with
  | [], _ => []
  | x :: l', O => f x :: l'
  | x :: l', S i' => x :: update_at i' f l'
  end.

(** [l.splice(i, 1)]: the array without its element at index [i]. *)
Fixpoint remove_at {A : Type} (i : nat) (l : list A) : list A :=
  match l, i with
  | [], _ => []
  | _ :: l', O => l'
  | x :: l', S i' => x :: remove_at i' l'
  end.

(** [l.sort(comparefn)].  The language requires the sort to be stable and
    leaves the algorithm open; this is the stable insertion sort, which
    places an element after every earlier element it does not precede. *)
Section Sort.
Context {A : Type}.
Variable comparefn : A -> A -> comparison.

Fixpoint insert (x : A) (l : list A) : list A :=
  match l with
  | [] => [x]
  | y :: l' =>
      match comparefn x y with
      | Gt => y :: insert x l'
      | _ => x :: y :: l'
      end
  end.

Definition sort (l : list A) : list A := fold_right insert [] l.
End Sort.

(** [Math.floor]: the largest integer not above [x], as exact integer
    arithmetic on the mantissa and exponent of a finite [x]. *)
Definition Math_floor (x : float) : float :=
  match Prim2SF x with
  | S754_finite s m e =>
      if 0 <=? e then x
      else
        let num := if s then Z.neg m else Z.pos m in
        let n := num / 2 ^ (- e) in
        if n =? 0 then zero else float_of_Z n
  | _ => x
  end.

(** One step of [Math.min(...args)]: NaN wins, then the smaller number, and
    -0 counts as smaller than +0. *)
Definition min2 (lowest number : float) : float :=
  if PrimFloat.is_nan lowest then lowest
  else if PrimFloat.is_nan number then number
  else if PrimFloat.ltb number lowest then number
  else if PrimFloat.is_zero number && PrimFloat.is_zero lowest
          && PrimFloat.get_sign number then number
  else lowest.

Definition max2 (highest number : float) : float :=
  if PrimFloat.is_nan highest then highest
  else if PrimFloat.is_nan number then number
  else if PrimFloat.ltb highest number then number
  else if PrimFloat.is_zero number && PrimFloat.is_zero highest
          && negb (PrimFloat.get_sign number) then number
  else highest.

(** [Math.min(...args)] and [Math.max(...args)]. *)
Definition Math_min_spread (args : list float) : float :=
  fold_left min2 args infinity.

Definition Math_max_spread (args : list float) : float :=
  fold_left max2 args neg_infinity.

(** *** A plain object used as a table of counters

    [{}] has no property of its own but inherits those of
    [Object.prototype] (functions such as [constructor] and [toString], and
    the accessor [__proto__]); which names those are belongs to the host. *)
Section Counters.
Variable inherited : string -> bool.

(** The own properties, in creation order (enumeration would put names
    that are array indices first; only lookups are made here). *)
Definition Table : Type := list (string * Num).

Definition own (o : Table) (k : string) : option Num :=
  option_map snd (find (fun kv => String.eqb (fst kv) k) o).

(** [o[k]] as a condition: an own number is truthy unless it is 0 or NaN;
    an inherited function or object is truthy; a missing property is not. *)
Definition truthyAt (o : Table) (k : string) : bool :=
  match own o k with
  | Some (Int z) => negb (z =? 0)
  | Some NaN => false
  | Some _ => true
  | None => inherited k
  end.

Fixpoint assign (o : Table) (k : string) (v : Num) : Table :=
  match o with
  | [] => [(k, v)]
  | (k', v') :: o' =>
      if String.eqb k' k then (k', v) :: o' else (k', v') :: assign o' k v
  end.

(** [o[k] = v]: through the inherited [__proto__] accessor a number is
    dropped; any other name becomes, or stays, an own property. *)
Definition put (o : Table) (k : string) (v : Num) : Table :=
  if String.eqb k "__proto__" && inherited k then o else assign o k v.

(** [o[k]++]: what is read is converted to a number (NaN for a function,
    an object or undefined), and one more is written back. *)
Definition increment (o : Table) (k : string) : Table :=
  let old := match own o k with Some v => v | None => NaN end in
  let new := match old with Int z => Int (z + 1) | other => other end in
  put o k new.
End Counters.

End JS.

(* ================================================================= *)
(** ** The catalog and its query engine (api.js) *)

(** A product after normalization ([processProducts]). *)
Module Product.
Record t : Type := mk {
  id : string;
  name : string;
  description : string;
  category : string;
  price : float;
  rating : float;
  stock : Z;
  popularity : Z;
  images : list string;
  specs : list (string * string);   (* in insertion order *)
  inStock : bool;
  isNew : bool;
  onSale : bool
}.
End Product.

Module ProductAPI.

Definition ITEMS_PER_PAGE : Z := 12.

(** [getProductById]: the first product of the collection with that id,
    [None] for [null]. *)
Definition getProductById (products : list Product.t) (productId : string)
  : option Product.t :=
  find (fun product => String.eqb (Product.id product) productId) products.

(** *** Search *)

(** [query.toLowerCase().trim().split(/\s+/)]. *)
Definition searchTerms (query : string) : list string :=
  JS.split_ws (JS.trim (JS.toLowerCase query)).

(** [Object.values(product.specs)]. *)
Definition specValues (product : Product.t) : list string :=
  map snd (Product.specs product).

Definition searchableText (product : Product.t) : string :=
  JS.toLowerCase
    (JS.join " "
       ([Product.name product;
         Product.description product;
         Product.category product]
        ++ JS.split " "%char (JS.join " " (specValues product)))).

(** The predicate of the [filter] call: every term occurs in the text. *)
Definition matchesTerms (terms : list string) (product : Product.t) : bool :=
  forallb (fun term => JS.includes (searchableText product) term) terms.

Definition searchProducts (products : list Product.t) (query : string)
  : list Product.t :=
  if String.eqb query "" || String.eqb (JS.trim query) "" then products
  else filter (matchesTerms (searchTerms query)) products.

(** *** Sort *)

Section Sorting.
(** [String.prototype.localeCompare] is the host's collation. *)
Variable localeCompare : string -> string -> Z.

Definition byPrice (a b : Product.t) : comparison :=
  JS.sign_of_float (PrimFloat.sub (Product.price a) (Product.price b)).

Definition byRating (a b : Product.t) : comparison :=
  JS.sign_of_float (PrimFloat.sub (Product.rating a) (Product.rating b)).

Definition byName (a b : Product.t) : comparison :=
  JS.sign_of_Z (localeCompare (Product.name a) (Product.name b)).

Definition byPopularity (a b : Product.t) : comparison :=
  JS.sign_of_Z (Product.popularity a - Product.popularity b).

(** The [switch (sortBy)]. *)
Definition comparator (sortBy : string) : Product.t -> Product.t -> comparison :=
  if String.eqb sortBy "price" then byPrice
  else if String.eqb sortBy "rating" then byRating
  else if String.eqb sortBy "name" then byName
  else byPopularity.

(** [sortBy] and [order] default to ['popularity'] and ['desc'] when they
    are not given. *)
Definition sortProducts (products : list Product.t)
    (sortBy order : option string) : list Product.t :=
  let sortBy := match sortBy with Some k => k | None => "popularity" end in
  let order := match order with Some o => o | None => "desc" end in
  let sorted := JS.sort (comparator sortBy) products in
  if String.eqb order "desc" then rev sorted else sorted.
End Sorting.

(** *** Paginate *)

Module Page.
Record t : Type := mk {
  items : list Product.t;
  page : Z;
  perPage : Z;
  total : Z;
  totalPages : JS.Num;
  hasNext : bool;
  hasPrev : bool
}.
End Page.

(** [page] and [perPage] default to 1 and [ITEMS_PER_PAGE]. *)
Definition paginateProducts (products : list Product.t)
    (page perPage : option Z) : Page.t :=
  let page := match page with Some p => p | None => 1 end in
  let perPage := match perPage with Some n => n | None => ITEMS_PER_PAGE end in
  let startIndex := (page - 1) * perPage in
  let endIndex := startIndex + perPage in
  let items := JS.slice products startIndex endIndex in
  {| Page.items := items;
     Page.page := page;
     Page.perPage := perPage;
     Page.total := Z.of_nat (List.length products);
     Page.totalPages := JS.Math_ceil_div (Z.of_nat (List.length products)) perPage;
     Page.hasNext := endIndex <? Z.of_nat (List.length products);
     Page.hasPrev := 1 <? page |}.

(** *** Lookups by category and flag *)

Definition getProductsByCategory (products : list Product.t)
    (categoryId : string) : list Product.t :=
  filter (fun product => String.eqb (Product.category product) categoryId) products.

(** *** Filter *)

(** The [filters] object: a criterion that is [None] or false is not set. *)
Module Filters.
Record t : Type := mk {
  categories : option (list string);
  priceMin : option float;
  priceMax : option float;
  rating : option float;
  inStock : bool;
  isNew : bool;
  onSale : bool
}.
End Filters.

(** [filters.categories.includes(product.category)]. *)
Definition inCategories (categories : list string) (product : Product.t) : bool :=
  existsb (fun c => String.eqb c (Product.category product)) categories.

Definition filterProducts (products : list Product.t) (filters : Filters.t)
  : list Product.t :=
  let filtered := products in
  let filtered :=
    match Filters.categories filters with
    | Some categories =>
        if (0 <? List.length categories)%nat
        then filter (inCategories categories) filtered else filtered
    | None => filtered
    end in
  let filtered :=
    match Filters.priceMin filters with
    | Some priceMin =>
        filter (fun product => PrimFloat.leb priceMin (Product.price product)) filtered
    | None => filtered
    end in
  let filtered :=
    match Filters.priceMax filters with
    | Some priceMax =>
        filter (fun product => PrimFloat.leb (Product.price product) priceMax) filtered
    | None => filtered
    end in
  let filtered :=
    match Filters.rating filters with
    | Some rating =>
        filter (fun product => PrimFloat.leb rating (Product.rating product)) filtered
    | None => filtered
    end in
  let filtered :=
    if Filters.inStock filters then filter Product.inStock filtered else filtered in
  let filtered :=
    if Filters.isNew filters then filter Product.isNew filtered else filtered in
  let filtered :=
    if Filters.onSale filters then filter Product.onSale filtered else filtered in
  filtered.

(** *** Related and featured products *)

(** The comparator of [getRelatedProducts]: products of the category of
    [product] first, then by distance in price. *)
Definition byRelevance (product a b : Product.t) : comparison :=
  let sameA := String.eqb (Product.category a) (Product.category product) in
  let sameB := String.eqb (Product.category b) (Product.category product) in
  if sameA && negb sameB then Lt
  else if sameB && negb sameA then Gt
  else
    JS.sign_of_float
      (PrimFloat.sub
         (PrimFloat.abs (PrimFloat.sub (Product.price a) (Product.price product)))
         (PrimFloat.abs (PrimFloat.sub (Product.price b) (Product.price product)))).

(** The predicate of the [filter] of [getRelatedProducts]. *)
Definition isRelated (productId : string) (product p : Product.t) : bool :=
  negb (String.eqb (Product.id p) productId)
  && (String.eqb (Product.category p) (Product.category product)
      || PrimFloat.ltb
           (PrimFloat.abs (PrimFloat.sub (Product.price p) (Product.price product)))
           (PrimFloat.mul (Product.price product) 0.3%float)).

(** [getRelatedProducts(productId, limit = 6)]. *)
Definition getRelatedProducts (products : list Product.t) (productId : string)
    (limit : option Z) : list Product.t :=
  let limit := match limit with Some n => n | None => 6 end in
  match getProductById products productId with
  | None => []
  | Some product =>
      let related := filter (isRelated productId product) products in
      JS.slice (JS.sort (byRelevance product) related) 0 limit
  end.

Definition byPopularityDesc (a b : Product.t) : comparison :=
  JS.sign_of_Z (Product.popularity b - Product.popularity a).

(** [getFeaturedProducts(limit = 8)]. *)
Definition getFeaturedProducts (products : list Product.t) (limit : option Z)
  : list Product.t :=
  let limit := match limit with Some n => n | None => 8 end in
  JS.slice (JS.sort byPopularityDesc products) 0 limit.

(** *** Price range and facets *)

Module PriceRange.
Record t : Type := mk { min : float; max : float; average : float }.
End PriceRange.

(** [Math.round(x * 100) / 100]. *)
Definition round2 (x : float) : float :=
  PrimFloat.div (JS.Math_round (PrimFloat.mul x 100%float)) 100%float.

Definition getPriceRange (products : list Product.t) : PriceRange.t :=
  if (List.length products =? 0)%nat then PriceRange.mk 0%float 0%float 0%float
  else
    let prices := map Product.price products in
    let min := JS.Math_min_spread prices in
    let max := JS.Math_max_spread prices in
    let average :=
      PrimFloat.div (fold_left (fun sum price => PrimFloat.add sum price) prices 0%float)
        (JS.float_of_Z (Z.of_nat (List.length prices))) in
    PriceRange.mk min max (round2 average).

(** [ratingCounts]: the object [{ 1: 0, 2: 0, 3: 0, 4: 0, 5: 0 }]. *)
Module RatingCounts.
Record t : Type := mk { r1 : Z; r2 : Z; r3 : Z; r4 : Z; r5 : Z }.
End RatingCounts.

(** [ratingCounts[ratingFloor]++] for a [ratingFloor] between 1 and 5. *)
Definition bumpRating (ratingFloor : float) (rc : RatingCounts.t) : RatingCounts.t :=
  let '(RatingCounts.mk r1 r2 r3 r4 r5) := rc in
  if PrimFloat.eqb ratingFloor 1%float then RatingCounts.mk (r1 + 1) r2 r3 r4 r5
  else if PrimFloat.eqb ratingFloor 2%float then RatingCounts.mk r1 (r2 + 1) r3 r4 r5
  else if PrimFloat.eqb ratingFloor 3%float then RatingCounts.mk r1 r2 (r3 + 1) r4 r5
  else if PrimFloat.eqb ratingFloor 4%float then RatingCounts.mk r1 r2 r3 (r4 + 1) r5
  else if PrimFloat.eqb ratingFloor 5%float then RatingCounts.mk r1 r2 r3 r4 (r5 + 1)
  else rc.   (* not reached: an integer between 1 and 5 is one of the five *)

Module Facets.
Record t : Type := mk {
  categories : JS.Table;
  priceRange : PriceRange.t;
  ratingCounts : RatingCounts.t;
  totalProducts : Z;
  inStockCount : Z
}.
End Facets.

Section FacetsOf.
Variable inherited : string -> bool.

(** The category part of one turn of the [forEach]. *)
Definition countCategory (categories : JS.Table) (product : Product.t) : JS.Table :=
  let categories :=
    if negb (JS.truthyAt inherited categories (Product.category product))
    then JS.put inherited categories (Product.category product) (JS.Int 0)
    else categories in
  JS.increment inherited categories (Product.category product).

(** The rating part. *)
Definition countRating (ratingCounts : RatingCounts.t) (product : Product.t)
  : RatingCounts.t :=
  let ratingFloor := JS.Math_floor (Product.rating product) in
  if PrimFloat.leb 1%float ratingFloor && PrimFloat.leb ratingFloor 5%float
  then bumpRating ratingFloor ratingCounts else ratingCounts.

Definition getSearchFacets (products : list Product.t) : Facets.t :=
  let priceRange := getPriceRange products in
  let (categories, ratingCounts) :=
    fold_left
      (fun acc product =>
         (countCategory (fst acc) product, countRating (snd acc) product))
      products ([], RatingCounts.mk 0 0 0 0 0) in
  Facets.mk categories priceRange ratingCounts
    (Z.of_nat (List.length products))
    (Z.of_nat (List.length (filter Product.inStock products))).
End FacetsOf.

(** *** The composite search *)

(** [searchParams].  [page] and [perPage] hold what [parseInt] reads from
    the parameter, [None] when it reads no number. *)
Module SearchParams.
Record t : Type := mk {
  query : option string;
  categories : option (list string);
  priceMin : option float;
  priceMax : option float;
  rating : option float;
  inStock : bool;
  isNew : bool;
  onSale : bool;
  sortBy : option string;
  sortOrder : option string;
  page : option Z;
  perPage : option Z
}.
End SearchParams.

Module SearchResult.
Record t : Type := mk {
  paginated : Page.t;
  filters : Filters.t;
  searchParams : SearchParams.t;
  facets : Facets.t
}.
End SearchResult.

(** [s || d] on an optional string: the empty string is falsy too. *)
Definition orString (s : option string) (d : string) : string :=
  match s with
  | Some v => if String.eqb v "" then d else v
  | None => d
  end.

(** [parseInt(x) || d]: NaN and 0 are falsy. *)
Definition orNumber (n : option Z) (d : Z) : Z :=
  match n with
  | Some v => if v =? 0 then d else v
  | None => d
  end.

Section Composite.
Variable localeCompare : string -> string -> Z.
Variable inherited : string -> bool.

(** The [filters] object [advancedSearch] builds. *)
Definition filtersOf (searchParams : SearchParams.t) : Filters.t :=
  Filters.mk (SearchParams.categories searchParams)
    (SearchParams.priceMin searchParams) (SearchParams.priceMax searchParams)
    (SearchParams.rating searchParams)
    (SearchParams.inStock searchParams) (SearchParams.isNew searchParams)
    (SearchParams.onSale searchParams).

(** [advancedSearch(searchParams)] once [loadProducts] has returned, on the
    products it left in [this.products]. *)
Definition advancedSearch (products : list Product.t)
    (searchParams : SearchParams.t) : SearchResult.t :=
  let found :=
    match SearchParams.query searchParams with
    | Some query =>
        if String.eqb query "" then products else searchProducts products query
    | None => products
    end in
  let filters := filtersOf searchParams in
  let filtered := filterProducts found filters in
  let sortBy := orString (SearchParams.sortBy searchParams) "popularity" in
  let sortOrder := orString (SearchParams.sortOrder searchParams) "desc" in
  let sorted := sortProducts localeCompare filtered (Some sortBy) (Some sortOrder) in
  let page := orNumber (SearchParams.page searchParams) 1 in
  let perPage := orNumber (SearchParams.perPage searchParams) ITEMS_PER_PAGE in
  let paginated := paginateProducts sorted (Some page) (Some perPage) in
  SearchResult.mk paginated filters searchParams
    (getSearchFacets inherited sorted).
End Composite.

(** *** Loading the catalog and its cache *)

Module Category.
Record t : Type := mk { id : string; name : string }.
End Category.

(** The object kept under [CACHE_KEY]; a field that is missing is [None]. *)
Module CacheData.
Record t : Type := mk {
  products : option (list Product.t);
  categories : option (list Category.t);
  timestamp : option Z
}.
End CacheData.

(** What [localStorage] holds under [CACHE_KEY]: nothing, the empty
    string, a text that is not JSON, the text [null], or the text of an
    object with some of the three fields. *)
Inductive CacheEntry : Type :=
| NoEntry
| EmptyEntry
| Unparsable
| ParsedNull
| Parsed (data : CacheData.t).

Definition CACHE_DURATION : Z := 24 * 60 * 60 * 1000.

(** What [loadProducts] can throw: the rejection of [fetch] or of
    [response.json()], a response that is not ok, a body without an array
    of products, and the TypeError of reading a field of [null]. *)
Inductive LoadError : Type :=
| FetchError (message : string)
| HttpError (status : Z)
| InvalidStructureError
| NullCacheError.

(** The instance.  [products] and [categories] are [None] when an
    assignment from the cache has left them undefined. *)
Module Instance.
Record t : Type := mk {
  products : option (list Product.t);
  categories : option (list Category.t);
  isLoading : bool;
  error : option LoadError;
  lastFetch : option Z;
  cache : option CacheData.t
}.
End Instance.

(** [loadCache()] at time [now]: the value returned and what storage holds
    afterwards.  Only an entry that is too old is removed. *)
Definition loadCache (now : Z) (entry : CacheEntry)
  : option CacheData.t * CacheEntry :=
  match entry with
  | NoEntry | EmptyEntry => (None, entry)
  | Unparsable => (None, entry)
  | ParsedNull => (None, entry)
  | Parsed data =>
      match CacheData.timestamp data with
      | Some timestamp =>
          if CACHE_DURATION <? now - timestamp then (None, NoEntry)
          else (Some data, entry)
      | None => (Some data, entry)
      end
  end.

(** The constructor. *)
Definition create (now : Z) (entry : CacheEntry) : Instance.t * CacheEntry :=
  let (cache, entry) := loadCache now entry in
  (Instance.mk (Some []) (Some []) false None None cache, entry).

(** [updateCache()]: the entry written; storage is taken to accept it. *)
Definition updateCache (now : Z) (api : Instance.t) : CacheEntry :=
  Parsed (CacheData.mk (Instance.products api) (Instance.categories api) (Some now)).

Definition isCacheValid (now : Z) (api : Instance.t) : bool :=
  match Instance.cache api with
  | Some data =>
      match CacheData.timestamp data with
      | Some timestamp => now - timestamp <? CACHE_DURATION
      | None => false
      end
  | None => false
  end.

(** How the request of [loadProducts] ends: [fetch] or [response.json()]
    rejects; the response is not ok; or the body is read, [products]
    being what [processProducts] makes of [data.products] when that is an
    array and [categories] being [data.categories] when there are any. *)
Inductive Fetched : Type :=
| Rejected (message : string)
| NotOk (status : Z)
| Body (products : option (list Product.t)) (categories : option (list Category.t)).

Inductive Loaded : Type :=
| Resolved (products : option (list Product.t))
| Threw (error : LoadError).

(** The [catch] and [finally] of [loadProducts]. *)
Definition loadFailed (error : LoadError) (api : Instance.t) : Loaded * Instance.t :=
  match Instance.cache api with
  | None =>
      (Threw NullCacheError,
       Instance.mk (Instance.products api) (Instance.categories api) false
         (Some error) (Instance.lastFetch api) None)
  | Some data =>
      match CacheData.products data with
      | Some cached =>
          (Resolved (Some cached),
           Instance.mk (Some cached) (CacheData.categories data) false
             (Some error) (Instance.lastFetch api) (Some data))
      | None =>
          (Threw error,
           Instance.mk (Instance.products api) (Instance.categories api) false
             (Some error) (Instance.lastFetch api) (Some data))
      end
  end.

(** [loadProducts(forceRefresh = false)] called at time [now]; [fetched] is
    how the request ends, should one be made, and [fetchedAt] the time at
    which it does. *)
Definition loadProducts (forceRefresh : bool) (now fetchedAt : Z)
    (fetched : Fetched) (api : Instance.t) (entry : CacheEntry)
  : Loaded * Instance.t * CacheEntry :=
  if negb forceRefresh && isCacheValid now api then
    match Instance.cache api with
    | Some data =>
        (Resolved (CacheData.products data),
         Instance.mk (CacheData.products data) (CacheData.categories data)
           (Instance.isLoading api) (Instance.error api) (Instance.lastFetch api)
           (Instance.cache api),
         entry)
    | None => (Resolved (Instance.products api), api, entry)   (* not reached *)
    end
  else
    match fetched with
    | Rejected message => (loadFailed (FetchError message) api, entry)
    | NotOk status => (loadFailed (HttpError status) api, entry)
    | Body None _ => (loadFailed InvalidStructureError api, entry)
    | Body (Some processed) categories =>
        let categories := match categories with Some l => l | None => [] end in
        let api :=
          Instance.mk (Some processed) (Some categories) true None
            (Instance.lastFetch api) (Instance.cache api) in
        let entry := updateCache fetchedAt api in
        (Resolved (Some processed),
         Instance.mk (Some processed) (Some categories) false None
           (Some fetchedAt) (Instance.cache api),
         entry)
    end.

End ProductAPI.

(* ================================================================= *)
(** ** The cart (cart.js) *)

(** The product fields a line item caches when it is created. *)
Module Snapshot.
Record t : Type := mk {
  id : string;
  name : string;
  price : float;
  images : list string;
  category : string;
  inStock : bool
}.
End Snapshot.

(** A line item.  [product] is the cached snapshot; it is [None] on a line
    that came from outside (merge, import, storage) without one. *)
Module CartItem.
Record t : Type := mk {
  id : string;
  quantity : Z;
  addedAt : Z;
  updatedAt : Z;
  product : option Snapshot.t
}.

Definition setQuantity (q now : Z) (item : t) : t :=
  mk (id item) q (addedAt item) now (product item).

Definition setDates (now : Z) (item : t) : t :=
  mk (id item) (quantity item) now now (product item).
End CartItem.

(** The entries of a validation report. *)
Module InvalidEntry.
Record t : Type := mk { id : string; name : string; reason : string }.
End InvalidEntry.

Module OutOfStockEntry.
Record t : Type := mk { id : string; name : string; currentQuantity : Z }.
End OutOfStockEntry.

Module UpdatedEntry.
Record t : Type :=
  mk { id : string; name : string; oldQuantity : Z; newQuantity : Z }.
End UpdatedEntry.

Module Validation.
Record t : Type := mk {
  isValid : bool;
  invalidItems : list InvalidEntry.t;
  outOfStockItems : list OutOfStockEntry.t;
  updatedItems : list UpdatedEntry.t
}.
End Validation.

(** What [exportCart] returns and [importCart] reads.  [items] is [None]
    when the field is absent or is not an array. *)
Module Blob.
Record t : Type := mk {
  items : option (list CartItem.t);
  exportedAt : option Z;
  version : option string
}.
End Blob.

(** The product a line is joined with: the live one, or the snapshot. *)
Inductive ProductRef : Type :=
| Live (p : Product.t)
| Cached (s : Snapshot.t).

Definition ref_price (r : ProductRef) : float :=
  match r with
  | Live p => Product.price p
  | Cached s => Snapshot.price s
  end.

Definition ref_inStock (r : ProductRef) : bool :=
  match r with
  | Live p => Product.inStock p
  | Cached s => Snapshot.inStock s
  end.

(** An element of [getCartItems]'s result: the line item's own fields, the
    product it was joined with, and the two computed fields. *)
Module CartRow.
Record t : Type := mk {
  item : CartItem.t;
  product : ProductRef;
  subtotal : float;
  inStock : bool
}.
End CartRow.

Module Summary.
Record t : Type := mk {
  subtotal : float;
  taxAmount : float;
  shippingCost : float;
  total : float;
  itemCount : Z;
  items : Z;
  freeShippingEligible : bool;
  freeShippingRemaining : float
}.
End Summary.

Module Cart.

(** [CART_CONFIG]. *)
Definition TAX_RATE : float := 0.08%float.
Definition SHIPPING_THRESHOLD : float := 50%float.
Definition SHIPPING_COST : float := 9.99%float.
Definition MAX_QUANTITY : Z := 10.

(** The errors the module throws, named after the taxonomy of the design
    and listed with the message each one carries in the code. *)
Inductive Error : Type :=
| InvalidInputError            (* 'Invalid product ID or quantity' *)
| ProductNotFoundError         (* 'Product not found' *)
| OutOfStockError              (* 'Product is out of stock' *)
| StockExceededError (stock : Z) (* 'Only ${stock} items available in stock' *)
| QuantityLimitError           (* 'Maximum quantity per item is 10' *)
| ItemNotFoundError            (* 'Item not found in cart' *)
| InvalidCartDataError         (* 'Invalid cart data' *)
| InvalidCartStructureError    (* 'Invalid cart data structure' *)
| JsonSyntaxError              (* thrown by JSON.parse *)
| NullReferenceError.          (* a field read on null *)

(** What [JSON.parse] yields on the stored text, as far as the cart looks at
    it.  [savedAt] is the instant [new Date(cartData.savedAt)] denotes,
    [None] for an invalid date. *)
Inductive CartData : Type :=
| Null
| Data (items : option (list CartItem.t)) (savedAt : option Z).

(** The entry of [localStorage] under [STORAGE_KEY]. *)
Inductive Stored : Type :=
| Absent                 (* getItem returns null *)
| EmptyText              (* the empty string *)
| BadText                (* a non-empty text that JSON.parse rejects *)
| Json (v : CartData).   (* a text that JSON.parse accepts, with its value *)

Inductive Event : Type :=
| Add (productId : string) (quantity : Z) (product : Product.t)
| Remove (productId : string) (removedItem : CartItem.t)
| Update (productId : string) (quantity : Z)
| Clear
| ValidationFailed (report : Validation.t)
| Merge
| Import.

(** The cart object together with what it acts on: its line items, the
    storage entry, and the events passed to [notifyListeners] so far, in
    order. *)
Record t : Type := mk {
  items : list CartItem.t;
  storage : Stored;
  notified : list Event
}.

Definition setItems (l : list CartItem.t) (c : t) : t :=
  mk l (storage c) (notified c).

(** A call either returns a value or throws; both leave a cart behind. *)
Inductive Outcome (A : Type) : Type :=
| Returned (v : A) (c : t)
| Thrown (e : Error) (c : t).
Arguments Returned {A} v c.
Arguments Thrown {A} e c.

(** [saveToStorage]: the write to [localStorage] is taken to succeed. *)
Definition saveToStorage (now : Z) (c : t) : t :=
  mk (items c) (Json (Data (Some (items c)) (Some now))) (notified c).

Definition notifyListeners (e : Event) (c : t) : t :=
  mk (items c) (storage c) (notified c ++ [e]).

Definition hasId (productId : string) (item : CartItem.t) : bool :=
  String.eqb (CartItem.id item) productId.

Definition getItemQuantity (c : t) (productId : string) : Z :=
  match find (hasId productId) (items c) with
  | Some item => CartItem.quantity item
  | None => 0
  end.

Definition snapshotOf (product : Product.t) : Snapshot.t :=
  Snapshot.mk (Product.id product) (Product.name product)
    (Product.price product) (Product.images product)
    (Product.category product) (Product.inStock product).

(** [addItem(productId, quantity = 1)]. *)
Definition addItem (products : list Product.t) (now : Z)
    (productId : string) (quantity : option Z) (c : t) : Outcome bool :=
  let quantity := match quantity with Some q => q | None => 1 end in
  if String.eqb productId "" || (quantity <? 1) then Thrown InvalidInputError c
  else
    match ProductAPI.getProductById products productId with
    | None => Thrown ProductNotFoundError c
    | Some product =>
        if negb (Product.inStock product) then Thrown OutOfStockError c
        else
          let currentQuantity := getItemQuantity c productId in
          let newQuantity := currentQuantity + quantity in
          if Product.stock product <? newQuantity
          then Thrown (StockExceededError (Product.stock product)) c
          else if MAX_QUANTITY <? newQuantity then Thrown QuantityLimitError c
          else
            let items' :=
              match JS.findIndex (hasId productId) (items c) with
              | Some existingItemIndex =>
                  JS.update_at existingItemIndex
                    (CartItem.setQuantity newQuantity now) (items c)
              | None =>
                  items c
                  ++ [CartItem.mk (Product.id product) quantity now now
                        (Some (snapshotOf product))]
              end in
            Returned true
              (notifyListeners (Add productId quantity product)
                 (saveToStorage now (setItems items' c)))
    end.

(** [removeItem(productId, quantity = null)]. *)
Definition removeItem (now : Z) (productId : string) (quantity : option Z)
    (c : t) : bool * t :=
  match JS.findIndex (hasId productId) (items c) with
  | None => (false, c)
  | Some itemIndex =>
      match nth_error (items c) itemIndex with
      | None => (false, c)   (* not reached: the index comes from findIndex *)
      | Some item =>
          let whole :=
            match quantity with
            | None => true
            | Some q => CartItem.quantity item <=? q
            end in
          if whole then
            (true,
             notifyListeners (Remove productId item)
               (saveToStorage now
                  (setItems (JS.remove_at itemIndex (items c)) c)))
          else
            let q := match quantity with Some q => q | None => 0 end in
            let left := CartItem.quantity item - q in
            (true,
             notifyListeners (Update productId left)
               (saveToStorage now
                  (setItems
                     (JS.update_at itemIndex (CartItem.setQuantity left now)
                        (items c)) c)))
      end
  end.

(** [updateItemQuantity(productId, quantity)]. *)
Definition updateItemQuantity (products : list Product.t) (now : Z)
    (productId : string) (quantity : Z) (c : t) : Outcome bool :=
  if String.eqb productId "" || (quantity <? 0) then Thrown InvalidInputError c
  else if MAX_QUANTITY <? quantity then Thrown QuantityLimitError c
  else
    match JS.findIndex (hasId productId) (items c) with
    | None => Thrown ItemNotFoundError c
    | Some itemIndex =>
        let overStock :=
          match ProductAPI.getProductById products productId with
          | Some product =>
              if Product.stock product <? quantity
              then Some (Product.stock product) else None
          | None => None
          end in
        match overStock with
        | Some stock => Thrown (StockExceededError stock) c
        | None =>
            if quantity =? 0 then
              let (r, c') := removeItem now productId None c in Returned r c'
            else
              Returned true
                (notifyListeners (Update productId quantity)
                   (saveToStorage now
                      (setItems
                         (JS.update_at itemIndex
                            (CartItem.setQuantity quantity now) (items c)) c)))
        end
    end.

(** The product [getCartItems] joins a line with: the live product, else
    the line's own snapshot, else nothing. *)
Definition resolve (products : list Product.t) (cartItem : CartItem.t)
  : option ProductRef :=
  match ProductAPI.getProductById products (CartItem.id cartItem) with
  | Some product => Some (Live product)
  | None =>
      match CartItem.product cartItem with
      | Some snapshot => Some (Cached snapshot)
      | None => None
      end
  end.

(** One turn of the loop of [getCartItems]. *)
Definition pushRow (products : list Product.t)
    (itemsWithProducts : list CartRow.t) (cartItem : CartItem.t)
  : list CartRow.t :=
  match resolve products cartItem with
  | Some product =>
      itemsWithProducts
      ++ [CartRow.mk cartItem product
            (PrimFloat.mul (JS.float_of_Z (CartItem.quantity cartItem))
               (ref_price product))
            (ref_inStock product)]
  | None => itemsWithProducts
  end.

Definition getCartItems (products : list Product.t) (c : t) : list CartRow.t :=
  fold_left (pushRow products) (items c) [].

(** [Math.round(x * 100) / 100]. *)
Definition round2 (x : float) : float :=
  PrimFloat.div (JS.Math_round (PrimFloat.mul x 100%float)) 100%float.

(** The subtotal before rounding: the [reduce] over the joined lines. *)
Definition rawSubtotal (rows : list CartRow.t) : float :=
  fold_left (fun sum item => PrimFloat.add sum (CartRow.subtotal item))
    rows 0%float.

Definition getCartSummary (products : list Product.t) (c : t) : Summary.t :=
  let items := getCartItems products c in
  let subtotal := rawSubtotal items in
  let itemCount :=
    fold_left (fun sum item => sum + CartItem.quantity (CartRow.item item))
      items 0 in
  let shippingCost :=
    if PrimFloat.leb SHIPPING_THRESHOLD subtotal then 0%float
    else SHIPPING_COST in
  let taxAmount := PrimFloat.mul subtotal TAX_RATE in
  let total := PrimFloat.add (PrimFloat.add subtotal shippingCost) taxAmount in
  {| Summary.subtotal := round2 subtotal;
     Summary.taxAmount := round2 taxAmount;
     Summary.shippingCost := round2 shippingCost;
     Summary.total := round2 total;
     Summary.itemCount := itemCount;
     Summary.items := Z.of_nat (List.length items);
     Summary.freeShippingEligible := PrimFloat.leb SHIPPING_THRESHOLD subtotal;
     Summary.freeShippingRemaining :=
       JS.Math_max 0%float (PrimFloat.sub SHIPPING_THRESHOLD subtotal) |}.

Definition clearCart (now : Z) (c : t) : t :=
  notifyListeners Clear (saveToStorage now (setItems [] c)).

(** *** Reconciliation against the catalog *)

(** [cartItem.product?.name || 'Unknown Product']. *)
Definition displayName (cartItem : CartItem.t) : string :=
  match CartItem.product cartItem with
  | Some snapshot =>
      if String.eqb (Snapshot.name snapshot) "" then "Unknown Product"
      else Snapshot.name snapshot
  | None => "Unknown Product"
  end.

(** The state of the loop of [validateCart]: the report and [validItems]. *)
Definition ValidationState : Type := (Validation.t * list CartItem.t)%type.

Definition validation0 : ValidationState :=
  (Validation.mk true [] [] [], []).

(** One turn of the loop. *)
Definition validateItem (products : list Product.t) (now : Z)
    (st : ValidationState) (cartItem : CartItem.t) : ValidationState :=
  let (validation, validItems) := st in
  match ProductAPI.getProductById products (CartItem.id cartItem) with
  | None =>
      (Validation.mk (Validation.isValid validation)
         (Validation.invalidItems validation
          ++ [InvalidEntry.mk (CartItem.id cartItem) (displayName cartItem)
                "Product no longer available"])
         (Validation.outOfStockItems validation)
         (Validation.updatedItems validation),
       validItems)
  | Some product =>
      if negb (Product.inStock product) then
        (Validation.mk (Validation.isValid validation)
           (Validation.invalidItems validation)
           (Validation.outOfStockItems validation
            ++ [OutOfStockEntry.mk (CartItem.id cartItem)
                  (Product.name product) (CartItem.quantity cartItem)])
           (Validation.updatedItems validation),
         validItems)
      else if Product.stock product <? CartItem.quantity cartItem then
        let validQuantity := Product.stock product in
        (Validation.mk (Validation.isValid validation)
           (Validation.invalidItems validation)
           (Validation.outOfStockItems validation)
           (Validation.updatedItems validation
            ++ [UpdatedEntry.mk (CartItem.id cartItem) (Product.name product)
                  (CartItem.quantity cartItem) validQuantity]),
         validItems ++ [CartItem.setQuantity validQuantity now cartItem])
      else (validation, validItems ++ [cartItem])
  end.

Definition validateCart (products : list Product.t) (now : Z) (c : t)
  : Validation.t * t :=
  let (validation, validItems) :=
    fold_left (validateItem products now) (items c) validation0 in
  let dropped :=
    (0 <? List.length (Validation.invalidItems validation))%nat
    || (0 <? List.length (Validation.outOfStockItems validation))%nat in
  let validation :=
    Validation.mk (if dropped then false else Validation.isValid validation)
      (Validation.invalidItems validation)
      (Validation.outOfStockItems validation)
      (Validation.updatedItems validation) in
  let c := saveToStorage now (setItems validItems c) in
  (validation,
   if negb (Validation.isValid validation)
   then notifyListeners (ValidationFailed validation) c else c).

(** *** Merge, export, import *)

(** One turn of the [forEach] of [mergeCart]. *)
Definition mergeItem (now : Z) (items : list CartItem.t) (newItem : CartItem.t)
  : list CartItem.t :=
  match JS.findIndex (hasId (CartItem.id newItem)) items with
  | Some existingIndex =>
      JS.update_at existingIndex
        (fun item =>
           CartItem.setQuantity
             (Z.max (CartItem.quantity item) (CartItem.quantity newItem))
             now item)
        items
  | None => items ++ [CartItem.setDates now newItem]
  end.

(** [mergeCart(cartData)]; [None] is an argument that is not an array. *)
Definition mergeCart (now : Z) (cartData : option (list CartItem.t)) (c : t)
  : t :=
  match cartData with
  | None => c
  | Some newItems =>
      notifyListeners Merge
        (saveToStorage now
           (setItems (fold_left (mergeItem now) newItems (items c)) c))
  end.

(** [exportCart()].  The object returned holds the array [this.items]
    itself, not a copy: [items] is what that array holds when the call
    returns, which is what an import reads as long as no other operation
    has touched the cart in between. *)
Definition exportCart (now : Z) (c : t) : Blob.t :=
  Blob.mk (Some (items c)) (Some now) (Some "1.0").

(** The [try] block of [importCart]; [None] is a falsy argument. *)
Definition importCart_try (now : Z) (cartData : option Blob.t) (c : t)
  : Outcome bool :=
  match cartData with
  | None => Thrown InvalidCartDataError c
  | Some blob =>
      match Blob.items blob with
      | None => Thrown InvalidCartDataError c
      | Some l =>
          Returned true
            (notifyListeners Import (saveToStorage now (setItems l c)))
      end
  end.

(** [importCart]: the [catch] clause logs the error and returns false. *)
Definition importCart (now : Z) (cartData : option Blob.t) (c : t)
  : Outcome bool :=
  match importCart_try now cartData c with
  | Returned r c' => Returned r c'
  | Thrown _ c' => Returned false c'
  end.

(** *** Storage *)

Definition MS_PER_DAY : Z := 1000 * 60 * 60 * 24.

(** [daysDiff > 30] with [daysDiff = (now - savedDate) / MS_PER_DAY]: the
    quotient exceeds 30 exactly when the difference exceeds 30 days of
    milliseconds; with an invalid date the comparison is false. *)
Definition expired (now : Z) (savedAt : option Z) : bool :=
  match savedAt with
  | Some savedDate => 30 * MS_PER_DAY <? now - savedDate
  | None => false
  end.

(** The [try] block of [loadFromStorage]. *)
Definition loadFromStorage_try (now : Z) (c : t) : Outcome unit :=
  match storage c with
  | Absent | EmptyText => Returned tt (setItems [] c)
  | BadText => Thrown JsonSyntaxError c
  | Json Null => Thrown NullReferenceError c
  | Json (Data None _) => Thrown InvalidCartStructureError c
  | Json (Data (Some l) savedAt) =>
      if expired now savedAt
      then Returned tt (saveToStorage now (setItems [] c))
      else Returned tt (setItems l c)
  end.

(** [loadFromStorage]: the [catch] clause resets the cart and saves it. *)
Definition loadFromStorage (now : Z) (c : t) : Outcome unit :=
  match loadFromStorage_try now c with
  | Returned r c' => Returned r c'
  | Thrown _ c' => Returned tt (saveToStorage now (setItems [] c'))
  end.

(** [new Cart()] over a given storage entry. *)
Definition create (now : Z) (stored : Stored) : Outcome unit :=
  loadFromStorage now (mk [] stored []).

(** [hasItem(productId)]. *)
Definition hasItem (c : t) (productId : string) : bool :=
  existsb (hasId productId) (items c).

(** [isEmpty()]. *)
Definition isEmpty (c : t) : bool := (List.length (items c) =? 0)%nat.

(** [getItemCount()]: the [reduce] over the quantities. *)
Definition getItemCount (c : t) : Z :=
  fold_left (fun sum item => sum + CartItem.quantity item) (items c) 0.

End Cart.

(* ================================================================= *)
(** ** The callers of the cart *)

(** What the user is shown.  [showNotification] and [showToast] take a
    message and a type; a message made from a caught error, or with a
    count in it, is kept as that error or that count.  What the callers
    write to the page itself (badge, sidebar, modal contents) is not part
    of the model. *)
Inductive Message : Type :=
| Text (text : string)
| OfError (error : Cart.Error)
| OfCount (before : string) (count : Z) (after : string).

Module Shown.
Record t : Type := mk { message : Message; type : string }.
End Shown.

Module CartManager.

(** The manager: its cart, [isInitialized], and the notifications shown so
    far.  Its one listener, [handleCartEvent] on ['*'], is registered by
    [initialize] just before [isInitialized] is set. *)
Record t : Type := mk {
  cart : Cart.t;
  isInitialized : bool;
  shown : list Shown.t
}.

Definition showNotification (message : Message) (type : string) (m : t) : t :=
  mk (cart m) (isInitialized m) (shown m ++ [Shown.mk message type]).

Definition handleValidationResults (validation : Validation.t) : list Shown.t :=
  (if (0 <? List.length (Validation.invalidItems validation))%nat
   then [Shown.mk
           (OfCount "" (Z.of_nat (List.length (Validation.invalidItems validation)))
              " item(s) removed from cart (no longer available)") "warning"]
   else [])
  ++ (if (0 <? List.length (Validation.outOfStockItems validation))%nat
      then [Shown.mk
              (OfCount ""
                 (Z.of_nat (List.length (Validation.outOfStockItems validation)))
                 " item(s) removed from cart (out of stock)") "warning"]
      else [])
  ++ (if (0 <? List.length (Validation.updatedItems validation))%nat
      then [Shown.mk
              (OfCount "Quantities updated for "
                 (Z.of_nat (List.length (Validation.updatedItems validation)))
                 " item(s) due to stock limitations") "info"]
      else []).

(** The notifications of [handleCartEvent(event, data)]. *)
Definition handleCartEvent (event : Cart.Event) : list Shown.t :=
  match event with
  | Cart.Add _ _ _ => [Shown.mk (Text "Item added to cart") "success"]
  | Cart.Remove _ _ => [Shown.mk (Text "Item removed from cart") "info"]
  | Cart.Clear => [Shown.mk (Text "Cart cleared") "info"]
  | Cart.ValidationFailed validation => handleValidationResults validation
  | _ => []
  end.

(** The events the cart passed to [notifyListeners] on its way from
    [before] to [after]. *)
Definition eventsSince (before after : Cart.t) : list Cart.Event :=
  skipn (List.length (Cart.notified before)) (Cart.notified after).

(** The manager once its cart has become [c]: the events of that step
    reach [handleCartEvent] if the listener is registered. *)
Definition afterCart (c : Cart.t) (m : t) : t :=
  mk c (isInitialized m)
    (shown m
     ++ if isInitialized m
        then flat_map handleCartEvent (eventsSince (cart m) c) else []).

(** [initialize()]: the cart is validated before the listener is added. *)
Definition initialize (products : list Product.t) (now : Z) (m : t) : t :=
  if isInitialized m then m
  else
    let (_, c) := Cart.validateCart products now (cart m) in
    mk c true (shown m).

(** [handleQuantityChange(productId, action)]. *)
Definition handleQuantityChange (products : list Product.t) (now : Z)
    (productId action : string) (m : t) : t :=
  let currentQuantity := Cart.getItemQuantity (cart m) productId in
  let newQuantity :=
    if String.eqb action "increase"
    then Z.min (currentQuantity + 1) Cart.MAX_QUANTITY
    else if String.eqb action "decrease"
    then Z.max (currentQuantity - 1) 1
    else currentQuantity in
  if negb (newQuantity =? currentQuantity) then
    match Cart.updateItemQuantity products now productId newQuantity (cart m) with
    | Cart.Returned _ c => afterCart c m
    | Cart.Thrown error c => showNotification (OfError error) "error" (afterCart c m)
    end
  else m.

(** [handleQuantityUpdate(productId, quantity)]. *)
Definition handleQuantityUpdate (products : list Product.t) (now : Z)
    (productId : string) (quantity : Z) (m : t) : t :=
  match Cart.updateItemQuantity products now productId quantity (cart m) with
  | Cart.Returned _ c => afterCart c m
  | Cart.Thrown error c => showNotification (OfError error) "error" (afterCart c m)
  end.

(** The ['change'] listener that [addCartItemEventListeners] puts on the
    quantity input of a line: [parsed] is what [parseInt(e.target.value)]
    reads, [None] when it reads no number, and [|| 1] replaces that and 0
    by 1. *)
Definition quantityInputChanged (products : list Product.t) (now : Z)
    (productId : string) (parsed : option Z) (m : t) : t :=
  let newQuantity :=
    match parsed with
    | Some n => if n =? 0 then 1 else n
    | None => 1
    end in
  handleQuantityUpdate products now productId newQuantity m.

(** [handleItemRemove(productId)]; [confirmed] is the answer to the
    [confirm] dialog. *)
Definition handleItemRemove (now : Z) (productId : string) (confirmed : bool)
    (m : t) : t :=
  if confirmed
  then afterCart (snd (Cart.removeItem now productId None (cart m))) m
  else m.
End CartManager.

Module UIManager.

(** [handleCheckout()]: the manager afterwards, the toasts shown, and
    whether the checkout form was opened. *)
Definition handleCheckout (products : list Product.t) (now : Z)
    (m : CartManager.t) : CartManager.t * list Shown.t * bool :=
  let cart := CartManager.cart m in
  if Cart.isEmpty cart
  then (m, [Shown.mk (Text "Your cart is empty") "warning"], false)
  else
    let (validation, c) := Cart.validateCart products now cart in
    let m := CartManager.afterCart c m in
    if negb (Validation.isValid validation)
    then (m, [Shown.mk (Text "Please review your cart before checkout") "warning"],
          false)
    else (m, [Shown.mk (Text "Proceeding to checkout...") "success"], true).
End UIManager.

Module GoogleStoreApp.

(** [handleAddToCart(productId)]: the manager afterwards and the toast. *)
Definition handleAddToCart (products : list Product.t) (now : Z)
    (productId : string) (m : CartManager.t) : CartManager.t * list Shown.t :=
  match Cart.addItem products now productId (Some 1) (CartManager.cart m) with
  | Cart.Returned _ c =>
      (CartManager.afterCart c m,
       [Shown.mk (Text "Product added to cart") "success"])
  | Cart.Thrown error c =>
      (CartManager.afterCart c m, [Shown.mk (OfError error) "error"])
  end.
End GoogleStoreApp.

(* ================================================================= *)
(** ** Fixtures used in the examples *)

Definition product (id : string) (price : float) (stock : Z) : Product.t :=
  Product.mk id id "" "phones" price 4%float stock 50 [] []
    (0 <? stock) false false.

Definition line (id : string) (quantity : Z) : CartItem.t :=
  CartItem.mk id quantity 0 0 None.

Definition sevenProducts : list Product.t :=
  [product "p1" 10%float 5; product "p2" 20%float 5; product "p3" 30%float 5;
   product "p4" 40%float 5; product "p5" 50%float 5; product "p6" 60%float 5;
   product "p7" 70%float 5].

(* ================================================================= *)
(** ** Vocabulary of the statements *)

(** [before a b l]: an occurrence of [a] in [l] is followed, later in [l],
    by an occurrence of [b]. *)
Inductive before {A : Type} (a b : A) : list A -> Prop :=
| before_here (l : list A) : In b l -> before a b (a :: l)
| before_later (x : A) (l : list A) : before a b l -> before a b (x :: l).

(** The comparator negated: [(a, b) => -comparefn(a, b)]. *)
Definition negated {A : Type} (comparefn : A -> A -> comparison)
  : A -> A -> comparison :=
  fun a b => CompOpp (comparefn a b).

(** The line subtotal [getCartItems] computes for a line item: its
    quantity times the price of the product it is joined with. *)
Definition lineSubtotal (products : list Product.t) (cartItem : CartItem.t)
  : float :=
  match Cart.resolve products cartItem with
  | Some r => PrimFloat.mul (JS.float_of_Z (CartItem.quantity cartItem))
                (ref_price r)
  | None => 0%float
  end.

(** The sum of the line subtotals, none of them rounded, added from left to
    right starting at 0. *)
Definition sumOfLines (products : list Product.t) (l : list CartItem.t)
  : float :=
  fold_left (fun sum cartItem => PrimFloat.add sum (lineSubtotal products cartItem))
    l 0%float.

(** The cart with these line items, nothing stored and no event so far. *)
Definition cartOf (l : list CartItem.t) : Cart.t := Cart.mk l Cart.Absent [].

(** The rows [getCartItems] builds from a list of line items. *)
Definition rowsOf (products : list Product.t) (l : list CartItem.t)
  : list CartRow.t :=
  fold_left (Cart.pushRow products) l [].

(** *** Reading a line item against the catalog *)

Definition liveProduct (products : list Product.t) (cartItem : CartItem.t)
  : option Product.t :=
  ProductAPI.getProductById products (CartItem.id cartItem).

(** The product of the line no longer exists in the catalog. *)
Definition missing (products : list Product.t) (cartItem : CartItem.t) : bool :=
  match liveProduct products cartItem with
  | None => true
  | Some _ => false
  end.

(** The product exists and is out of stock. *)
Definition soldOut (products : list Product.t) (cartItem : CartItem.t) : bool :=
  match liveProduct products cartItem with
  | Some p => negb (Product.inStock p)
  | None => false
  end.

(** The product exists and is in stock: the line is kept. *)
Definition keepable (products : list Product.t) (cartItem : CartItem.t) : bool :=
  match liveProduct products cartItem with
  | Some p => Product.inStock p
  | None => false
  end.

Definition liveName (products : list Product.t) (cartItem : CartItem.t) : string :=
  match liveProduct products cartItem with
  | Some p => Product.name p
  | None => ""
  end.

Definition liveStock (products : list Product.t) (cartItem : CartItem.t) : Z :=
  match liveProduct products cartItem with
  | Some p => Product.stock p
  | None => 0
  end.

(** The quantity of the line exceeds the current stock. *)
Definition overStock (products : list Product.t) (cartItem : CartItem.t) : bool :=
  liveStock products cartItem <? CartItem.quantity cartItem.

(** The line with its quantity brought down to the current stock. *)
Definition clamp (products : list Product.t) (now : Z) (cartItem : CartItem.t)
  : CartItem.t :=
  if overStock products cartItem
  then CartItem.setQuantity (liveStock products cartItem) now cartItem
  else cartItem.

Definition invalidEntry (cartItem : CartItem.t) : InvalidEntry.t :=
  InvalidEntry.mk (CartItem.id cartItem) (Cart.displayName cartItem)
    "Product no longer available".

Definition outOfStockEntry (products : list Product.t) (cartItem : CartItem.t)
  : OutOfStockEntry.t :=
  OutOfStockEntry.mk (CartItem.id cartItem) (liveName products cartItem)
    (CartItem.quantity cartItem).

Definition updatedEntry (products : list Product.t) (cartItem : CartItem.t)
  : UpdatedEntry.t :=
  UpdatedEntry.mk (CartItem.id cartItem) (liveName products cartItem)
    (CartItem.quantity cartItem) (liveStock products cartItem).

(** *** Outcomes *)

(** The error a call ends with, if it throws. *)
Definition thrown {A : Type} (o : Cart.Outcome A) : option Cart.Error :=
  match o with
  | Cart.Returned _ _ => None
  | Cart.Thrown e _ => Some e
  end.

(** The cart a call leaves behind. *)
Definition cartAfter {A : Type} (o : Cart.Outcome A) : Cart.t :=
  match o with
  | Cart.Returned _ c => c
  | Cart.Thrown _ c => c
  end.

(** The empty cart saved at [now]: what storage holds after a reset. *)
Definition emptySaved (now : Z) : Cart.Stored :=
  Cart.Json (Cart.Data (Some []) (Some now)).

(** The stored text is corrupted: it does not parse, or it parses to a value
    without an array of items. *)
Definition corrupted (stored : Cart.Stored) : Prop :=
  stored = Cart.BadText
  \/ stored = Cart.Json Cart.Null
  \/ exists savedAt, stored = Cart.Json (Cart.Data None savedAt).

(** The blob handed to [importCart] has the wrong shape: it is falsy, or
    its [items] field is absent or not an array. *)
Definition wrongShape (cartData : option Blob.t) : Prop :=
  match cartData with
  | None => True
  | Some blob => Blob.items blob = None
  end.

(** *** The invariant of the line items *)

(** A line's quantity is positive, at most [MAX_QUANTITY], and at most the
    stock of the live product when the catalog has it. *)
Definition lineOk (products : list Product.t) (cartItem : CartItem.t) : Prop :=
  1 <= CartItem.quantity cartItem <= Cart.MAX_QUANTITY
  /\ forall p, ProductAPI.getProductById products (CartItem.id cartItem) = Some p ->
               CartItem.quantity cartItem <= Product.stock p.

(** Every line is in bounds and no two lines have the same product id. *)
Definition cartOk (products : list Product.t) (l : list CartItem.t) : Prop :=
  Forall (lineOk products) l /\ NoDup (map CartItem.id l).

(** The quantity given to [removeItem] is [null] or not negative. *)
Definition removable (quantity : option Z) : Prop :=
  match quantity with
  | Some q => 0 <= q
  | None => True
  end.



(** *** Queries *)







(** *** Reading the cart *)

(** The quantity stored for a product id, if the cart has a line for it:
    that of the first such line. *)
Definition storedQuantity (l : list CartItem.t) (productId : string) : option Z :=
  option_map CartItem.quantity (find (Cart.hasId productId) l).

(** The sum of the quantities of a list of lines. *)
Definition totalQuantity (l : list CartItem.t) : Z :=
  fold_right (fun item sum => CartItem.quantity item + sum) 0 l.

(** The cart was saved at [now] with the line items it holds. *)
Definition persisted (now : Z) (c : Cart.t) : Prop :=
  Cart.storage c = Cart.Json (Cart.Data (Some (Cart.items c)) (Some now)).

(** [removeItem] deletes the whole line: no quantity is given, or the one
    given is at least the stored one. *)
Definition removesWhole (quantity : option Z) (stored : Z) : bool :=
  match quantity with
  | None => true
  | Some q => stored <=? q
  end.

(** The quantity a product has after one incoming line [x] was merged:
    the larger of the two when the cart had the product, else that of [x]. *)
Definition mergedWith (stored : option Z) (x : CartItem.t) : Z :=
  match stored with
  | Some q => Z.max q (CartItem.quantity x)
  | None => CartItem.quantity x
  end.

(** The line has a product to be shown with: live, or its own snapshot. *)
Definition resolvable (products : list Product.t) (cartItem : CartItem.t) : bool :=
  match Cart.resolve products cartItem with
  | Some _ => true
  | None => false
  end.

(** *** Filters, featured and related products *)

(** The criteria of [filters] that are set, as one test on a product; a
    criterion that is not set lets every product through. *)
Definition criteria (filters : ProductAPI.Filters.t) (p : Product.t) : bool :=
  match ProductAPI.Filters.categories filters with
  | Some (c :: categories) => ProductAPI.inCategories (c :: categories) p
  | _ => true
  end
  && match ProductAPI.Filters.priceMin filters with
     | Some priceMin => PrimFloat.leb priceMin (Product.price p)
     | None => true
     end
  && match ProductAPI.Filters.priceMax filters with
     | Some priceMax => PrimFloat.leb (Product.price p) priceMax
     | None => true
     end
  && match ProductAPI.Filters.rating filters with
     | Some rating => PrimFloat.leb rating (Product.rating p)
     | None => true
     end
  && (if ProductAPI.Filters.inStock filters then Product.inStock p else true)
  && (if ProductAPI.Filters.isNew filters then Product.isNew p else true)
  && (if ProductAPI.Filters.onSale filters then Product.onSale p else true).

(** The same, criterion by criterion. *)
Definition passes (filters : ProductAPI.Filters.t) (p : Product.t) : Prop :=
  (forall categories,
      ProductAPI.Filters.categories filters = Some categories ->
      categories <> [] -> In (Product.category p) categories)
  /\ (forall priceMin,
         ProductAPI.Filters.priceMin filters = Some priceMin ->
         PrimFloat.leb priceMin (Product.price p) = true)
  /\ (forall priceMax,
         ProductAPI.Filters.priceMax filters = Some priceMax ->
         PrimFloat.leb (Product.price p) priceMax = true)
  /\ (forall rating,
         ProductAPI.Filters.rating filters = Some rating ->
         PrimFloat.leb rating (Product.rating p) = true)
  /\ (ProductAPI.Filters.inStock filters = true -> Product.inStock p = true)
  /\ (ProductAPI.Filters.isNew filters = true -> Product.isNew p = true)
  /\ (ProductAPI.Filters.onSale filters = true -> Product.onSale p = true).

(** No criterion is set; an empty list of categories counts as not set. *)
Definition noCriteria (filters : ProductAPI.Filters.t) : Prop :=
  (ProductAPI.Filters.categories filters = None
   \/ ProductAPI.Filters.categories filters = Some [])
  /\ ProductAPI.Filters.priceMin filters = None
  /\ ProductAPI.Filters.priceMax filters = None
  /\ ProductAPI.Filters.rating filters = None
  /\ ProductAPI.Filters.inStock filters = false
  /\ ProductAPI.Filters.isNew filters = false
  /\ ProductAPI.Filters.onSale filters = false.

(** The sort key is none of ['price'], ['rating'], ['name']: the [switch]
    takes the popularity branch. *)
Definition sortsByPopularity (sortBy : option string) : Prop :=
  match sortBy with
  | Some k => k <> "price" /\ k <> "rating" /\ k <> "name"
  | None => True
  end.

(** The order asked for is ['desc'], which it is when none is given. *)
Definition descending (order : option string) : bool :=
  match order with
  | Some o => String.eqb o "desc"
  | None => true
  end.

Definition sameCategory (product p : Product.t) : Prop :=
  Product.category p = Product.category product.

(** The price of [p] is within 30% of the price of [product]. *)
Definition closeInPrice (product p : Product.t) : Prop :=
  PrimFloat.ltb
    (PrimFloat.abs (PrimFloat.sub (Product.price p) (Product.price product)))
    (PrimFloat.mul (Product.price product) 0.3%float) = true.

(** The items of page [k], of [perPage] products each. *)
Definition pageItems (products : list Product.t) (perPage : Z) (k : nat)
  : list Product.t :=
  ProductAPI.Page.items
    (ProductAPI.paginateProducts products (Some (Z.of_nat k)) (Some perPage)).

(** *** Prices as numbers *)

(** A binary64 value other than NaN. *)
Definition isNumber (x : float) : Prop := PrimFloat.is_nan x = false.

(** The number of products of a category. *)
Definition inCategory (products : list Product.t) (category : string) : Z :=
  Z.of_nat (List.length (ProductAPI.getProductsByCategory products category)).

(** The entry of a table of counters for a count [n]: none for 0. *)
Definition counted (n : Z) : option JS.Num :=
  if n =? 0 then None else Some (JS.Int n).

(** The sum of the five rating buckets. *)
Definition ratedProducts (rc : ProductAPI.RatingCounts.t) : Z :=
  ProductAPI.RatingCounts.r1 rc + ProductAPI.RatingCounts.r2 rc
  + ProductAPI.RatingCounts.r3 rc + ProductAPI.RatingCounts.r4 rc
  + ProductAPI.RatingCounts.r5 rc.

(** The names [Object.prototype] defines in every host. *)
Definition standardNames (k : string) : bool :=
  existsb (String.eqb k)
    ["constructor"; "toString"; "toLocaleString"; "valueOf"; "hasOwnProperty";
     "isPrototypeOf"; "propertyIsEnumerable"; "__proto__";
     "__defineGetter__"; "__defineSetter__"; "__lookupGetter__";
     "__lookupSetter__"].




(** *** What the callers show *)

(** The line can be sold as it stands: its product is live and in stock,
    and its quantity is within the stock. *)
Definition sellable (products : list Product.t) (cartItem : CartItem.t) : Prop :=
  keepable products cartItem = true
  /\ CartItem.quantity cartItem <= liveStock products cartItem.

Definition emptyCartToast : Shown.t :=
  Shown.mk (Text "Your cart is empty") "warning".

Definition reviewToast : Shown.t :=
  Shown.mk (Text "Please review your cart before checkout") "warning".

Definition errorShown (error : Cart.Error) : Shown.t :=
  Shown.mk (OfError error) "error".

(** The number of lines that pass a test. *)
Definition linesThat (test : CartItem.t -> bool) (l : list CartItem.t) : Z :=
  Z.of_nat (List.length (filter test l)).

(** The notification for [count] lines, if there are any. *)
Definition announced (before : string) (count : Z) (after type : string)
  : list Shown.t :=
  if 0 <? count then [Shown.mk (OfCount before count after) type] else [].

(** *** Loading the catalog *)

(** [loadProducts] makes a request: a refresh is forced or the cache of
    the instance is not valid. *)
Definition requests (forceRefresh : bool) (now : Z) (api : ProductAPI.Instance.t)
  : Prop :=
  forceRefresh = true \/ ProductAPI.isCacheValid now api = false.

(** The request does not end with a body that has an array of products. *)
Definition requestFails (fetched : ProductAPI.Fetched) : Prop :=
  match fetched with
  | ProductAPI.Body (Some _) _ => False
  | _ => True
  end.

(** The entry [updateCache] writes at [fetchedAt] after a request that
    brought [processed] and [categories]. *)
Definition writtenAt (fetchedAt : Z) (processed : list Product.t)
    (categories : option (list ProductAPI.Category.t)) : ProductAPI.CacheEntry :=
  ProductAPI.Parsed
    (ProductAPI.CacheData.mk (Some processed)
       (Some match categories with Some l => l | None => [] end)
       (Some fetchedAt)).

(** The three parts of what [loadProducts] gives back. *)
Definition loadedOf (r : ProductAPI.Loaded * ProductAPI.Instance.t * ProductAPI.CacheEntry)
  : ProductAPI.Loaded := fst (fst r).

Definition instanceOf (r : ProductAPI.Loaded * ProductAPI.Instance.t * ProductAPI.CacheEntry)
  : ProductAPI.Instance.t := snd (fst r).

Definition entryOf (r : ProductAPI.Loaded * ProductAPI.Instance.t * ProductAPI.CacheEntry)
  : ProductAPI.CacheEntry := snd r.



(** *** Rounding to two decimals *)

(** [n] is the integer nearest to the fraction [num / 2^k], the larger of
    the two when the fraction lies halfway between them. *)
Definition nearestInteger (num k n : Z) : Prop :=
  2 * n * 2 ^ k <= 2 * num + 2 ^ k < 2 * (n + 1) * 2 ^ k.

(** The integer [n] as a binary64 number; when it is 0 it has the sign of
    the number it was rounded from. *)
Definition signedInteger (negative : bool) (n : Z) : float :=
  if n =? 0 then (if negative then neg_zero else zero) else JS.float_of_Z n.

(** [r] is [x] rounded to two decimals: with [y] the product [x * 100] as
    the machine computes it, [r] is a whole number of hundredths, [n / 100],
    for the integer [n] nearest to [y].  When [y] has no fractional digits
    left (a finite [y] is [+/- m * 2^e], and [e >= 0] means it is a whole
    number, of magnitude 2^52 at least) or is not finite, [r] is [y / 100]. *)
Definition roundedToCents (x r : float) : Prop :=
  let y := PrimFloat.mul x 100%float in
  match Prim2SF y with
  | S754_finite s m e =>
      if 0 <=? e then r = PrimFloat.div y 100%float
      else
        exists n,
          nearestInteger (if s then Z.neg m else Z.pos m) (- e) n
          /\ r = PrimFloat.div (signedInteger s n) 100%float
  | _ => r = PrimFloat.div y 100%float
  end.

(** The ids of [incoming] that are not among [have], each once, in the
    order in which they first occur in [incoming]. *)
Fixpoint firstSeen (have incoming : list string) : list string :=
  match incoming with
  | [] => []
  | k :: rest =>
      if existsb (String.eqb k) have then firstSeen have rest
      else k :: firstSeen (have ++ [k]) rest
  end.

(** The quantity the listener of the quantity input passes on:
    [parseInt(e.target.value) || 1]. *)
Definition typedQuantity (parsed : option Z) : Z :=
  match parsed with
  | Some n => if n =? 0 then 1 else n
  | None => 1
  end.

(* ================================================================= *)
(** ** The built-ins on known values *)

Example Math_round_values :
  JS.Math_round 2.5%float = 3%float
  /\ JS.Math_round (-2.5)%float = (-2)%float
  /\ JS.Math_round 0.49999999999999994%float = 0%float
  /\ JS.Math_round 1e21%float = 1e21%float
  /\ Cart.round2 1.005%float = 1%float
  /\ Cart.round2 9.99%float = 9.99%float.
Proof. vm_compute. repeat split. Qed.

Example split_values :
  JS.split_ws "a  b" = ["a"; "b"]
  /\ JS.split_ws " a b " = [""; "a"; "b"; ""]
  /\ JS.split_ws "" = [""]
  /\ JS.split " "%char "x  y" = ["x"; ""; "y"]
  /\ JS.split " "%char "" = [""]
  /\ JS.join " " ["x"; ""; "y"] = "x  y"
  /\ JS.trim "  Pixel 8 " = "Pixel 8"
  /\ JS.toLowerCase "Pixel 8 PRO" = "pixel 8 pro".
Proof. vm_compute. repeat split. Qed.

Example includes_values :
  JS.includes "pixel 8 pro" "el 8" = true
  /\ JS.includes "pixel 8 pro" "" = true
  /\ JS.includes "pixel" "pixels" = false.
Proof. vm_compute. repeat split. Qed.

Example slice_values :
  JS.slice [1; 2; 3; 4; 5; 6; 7] 3 6 = [4; 5; 6]
  /\ JS.slice [1; 2; 3; 4; 5; 6; 7] 6 9 = [7]
  /\ JS.slice [1; 2; 3; 4; 5; 6; 7] 9 12 = []
  /\ JS.slice [1; 2; 3; 4; 5; 6; 7] (-3) 0 = []
  /\ JS.slice [1; 2; 3; 4; 5; 6; 7] (-6) (-3) = [2; 3; 4]
  /\ JS.Math_ceil_div 7 3 = JS.Int 3
  /\ JS.Math_ceil_div 7 0 = JS.Infinity
  /\ JS.Math_ceil_div 0 0 = JS.NaN.
Proof. vm_compute. repeat split. Qed.

(* ================================================================= *)
(** ** Facts about arrays and pagination *)

Section PaginateFacts.

Lemma slice_forward {A : Type} (l : list A) (start n : Z) :
  0 <= start -> 0 <= n ->
  JS.slice l start (start + n) = firstn (Z.to_nat n) (skipn (Z.to_nat start) l).
Proof.
  intros Hs Hn. unfold JS.slice.
  set (len := Z.of_nat (List.length l)).
  assert (Hlen : 0 <= len) by (unfold len; lia).
  destruct (Z.ltb_spec start 0) as [|_]; [lia|].
  destruct (Z.ltb_spec (start + n) 0) as [|_]; [lia|].
  destruct (Z_le_gt_dec len start) as [Hge|Hlt].
  - rewrite (skipn_all2 l) by (unfold len in Hge; lia).
    rewrite (skipn_all2 l) by (unfold len in Hge; lia).
    now rewrite !firstn_nil.
  - replace (Z.min start len) with start by lia.
    destruct (Z_le_gt_dec (start + n) len) as [Hin|Hout].
    + replace (Z.min (start + n) len - start) with n by lia. reflexivity.
    + replace (Z.min (start + n) len - start) with (len - start) by lia.
      assert (Hl : List.length (skipn (Z.to_nat start) l)
                   = Z.to_nat (len - start)).
      { rewrite length_skipn. unfold len. lia. }
      rewrite (firstn_all2 (n := Z.to_nat n)) by (rewrite Hl; lia).
      rewrite <- Hl. apply firstn_all.
Qed.

Lemma slice_past_end {A : Type} (l : list A) (start end_ : Z) :
  Z.of_nat (List.length l) <= start -> JS.slice l start end_ = [].
Proof.
  intros H. unfold JS.slice.
  destruct (Z.ltb_spec start 0) as [|_]; [lia|].
  rewrite skipn_all2 by lia. apply firstn_nil.
Qed.

Lemma slice_to_zero {A : Type} (l : list A) (start : Z) :
  JS.slice l start 0 = [].
Proof.
  unfold JS.slice. cbn [Z.ltb Z.compare].
  set (len := Z.of_nat (List.length l)).
  assert (Hlen : 0 <= len) by (unfold len; lia).
  set (k := if start <? 0 then Z.max (len + start) 0 else Z.min start len).
  assert (Hk : 0 <= k) by (unfold k; destruct (Z.ltb_spec start 0); lia).
  replace (Z.to_nat (Z.min 0 len - k)) with O by lia. reflexivity.
Qed.

Lemma ceil_div_bounds (a b : Z) :
  1 <= b ->
  exists n, JS.Math_ceil_div a b = JS.Int n /\ (n - 1) * b < a <= n * b.
Proof.
  intros Hb. unfold JS.Math_ceil_div.
  destruct (Z.eqb_spec b 0) as [|_]; [lia|].
  eexists; split; [reflexivity|].
  pose proof (Z.div_mod (- a) b ltac:(lia)) as Hdm.
  pose proof (Z.mod_pos_bound (- a) b ltac:(lia)) as Hm.
  nia.
Qed.
End PaginateFacts.

(* ================================================================= *)
(** ** Facts about the sort *)

Section SortFacts.
Context {A : Type}.
Variable comparefn : A -> A -> comparison.

Lemma in_insert (x z : A) (l : list A) :
  In z (JS.insert comparefn x l) <-> z = x \/ In z l.
Proof.
  induction l as [|y l IH]; cbn.
  - intuition congruence.
  - destruct (comparefn x y); cbn; rewrite ?IH; intuition congruence.
Qed.

Lemma in_sort (z : A) (l : list A) : In z (JS.sort comparefn l) <-> In z l.
Proof.
  induction l as [|x l IH]; cbn; [tauto|].
  rewrite in_insert, IH. intuition congruence.
Qed.



End SortFacts.

Lemma before_app_l {A : Type} (a b : A) (l m : list A) :
  before a b l -> before a b (l ++ m).
Proof.
  induction 1 as [l Hb | x l Hpre IH]; cbn.
  - apply before_here. apply in_or_app. now left.
  - now apply before_later.
Qed.

Lemma before_snoc {A : Type} (a b : A) (l : list A) :
  In a l -> before a b (l ++ [b]).
Proof.
  induction l as [|x l IH]; [intros []|].
  intros [->|Ha]; cbn.
  - apply before_here. apply in_or_app. right. now left.
  - apply before_later. now apply IH.
Qed.

Lemma before_rev {A : Type} (a b : A) (l : list A) :
  before a b l -> before b a (rev l).
Proof.
  induction 1 as [l Hb | x l Hpre IH]; cbn.
  - apply before_snoc. now apply in_rev in Hb.
  - now apply before_app_l.
Qed.

(* ================================================================= *)
(** ** Facts about strings and search *)

Section StringFacts.
Local Open Scope string_scope.






Lemma is_ws_lower_char (c : ascii) : JS.is_ws (JS.lower_char c) = JS.is_ws c.
Proof. destruct c as [[] [] [] [] [] [] [] []]; reflexivity. Qed.
















End StringFacts.

Lemma filter_twice {A : Type} (f g : A -> bool) (l : list A) :
  filter f (filter g l) = filter (fun x => g x && f x) l.
Proof.
  induction l as [|x l IH]; [reflexivity|].
  cbn. destruct (g x); cbn; [destruct (f x)|]; now rewrite IH.
Qed.

(* ================================================================= *)
(** ** Facts about the rows and the summary *)

Section SummaryFacts.
Variable products : list Product.t.

Lemma pushRow_from (l : list CartItem.t) (acc : list CartRow.t) :
  fold_left (Cart.pushRow products) l acc = acc ++ rowsOf products l.
Proof.
  unfold rowsOf. revert acc.
  induction l as [|x l IH]; intros acc; cbn.
  - now rewrite app_nil_r.
  - rewrite IH, (IH (Cart.pushRow products [] x)).
    unfold Cart.pushRow. destruct (Cart.resolve products x).
    + rewrite <- app_assoc. reflexivity.
    + reflexivity.
Qed.

Lemma rowsOf_cons (x : CartItem.t) (l : list CartItem.t) :
  rowsOf products (x :: l) = Cart.pushRow products [] x ++ rowsOf products l.
Proof. unfold rowsOf at 1. cbn. apply pushRow_from. Qed.

Lemma rowsOf_app (l1 l2 : list CartItem.t) :
  rowsOf products (l1 ++ l2) = rowsOf products l1 ++ rowsOf products l2.
Proof.
  induction l1 as [|x l1 IH]; [reflexivity|].
  cbn [app]. now rewrite !rowsOf_cons, IH, app_assoc.
Qed.

Lemma rowsOf_resolved (row : CartRow.t) (l : list CartItem.t) :
  In row (rowsOf products l) ->
  In (CartRow.item row) l
  /\ Cart.resolve products (CartRow.item row) = Some (CartRow.product row).
Proof.
  induction l as [|x l IH]; [intros []|].
  rewrite rowsOf_cons. intros H. apply in_app_or in H as [H|H].
  - unfold Cart.pushRow in H.
    destruct (Cart.resolve products x) eqn:Hx; [|destruct H].
    destruct H as [<-|[]]. cbn. auto.
  - destruct (IH H). split; [now right | assumption].
Qed.

Lemma rawSubtotal_from (l : list CartItem.t) (acc : float) :
  Forall (fun item => Cart.resolve products item <> None) l ->
  fold_left (fun sum row => PrimFloat.add sum (CartRow.subtotal row))
    (rowsOf products l) acc
  = fold_left
      (fun sum item => PrimFloat.add sum (lineSubtotal products item)) l acc.
Proof.
  intros Hall. revert acc.
  induction Hall as [|x l Hx _ IH]; intros acc; [reflexivity|].
  rewrite rowsOf_cons, fold_left_app, IH. cbn [fold_left].
  unfold Cart.pushRow, lineSubtotal.
  destruct (Cart.resolve products x); [reflexivity | congruence].
Qed.
End SummaryFacts.

Lemma round2_zero : Cart.round2 0%float = 0%float.
Proof. reflexivity. Qed.

Lemma round2_shipping : Cart.round2 Cart.SHIPPING_COST = 9.99%float.
Proof. reflexivity. Qed.

(** [Math.round] takes the nearest integer, the upper one on a tie. *)
Lemma nearest_quotient (num k : Z) :
  0 <= k -> nearestInteger num k ((2 * num + 2 ^ k) / 2 ^ (1 + k)).
Proof.
  intros Hk. unfold nearestInteger.
  assert (Hpow : 2 ^ (1 + k) = 2 * 2 ^ k) by (rewrite Z.pow_add_r by lia; reflexivity).
  assert (Hpos : 0 < 2 ^ k) by (apply Z.pow_pos_nonneg; lia).
  rewrite Hpow.
  pose proof (Z.div_mod (2 * num + 2 ^ k) (2 * 2 ^ k) ltac:(lia)) as Hdm.
  pose proof (Z.mod_pos_bound (2 * num + 2 ^ k) (2 * 2 ^ k) ltac:(lia)) as Hm.
  nia.
Qed.

Lemma round2_cents (x : float) : roundedToCents x (Cart.round2 x).
Proof.
  unfold roundedToCents, Cart.round2, JS.Math_round. cbv zeta.
  destruct (Prim2SF (PrimFloat.mul x 100%float)) as [s | s | | s m e];
    try reflexivity.
  destruct (Z.leb_spec 0 e) as [|He]; [reflexivity|].
  exists ((2 * (if s then Z.neg m else Z.pos m) + 2 ^ (- e)) / 2 ^ (1 - e)).
  split; [|reflexivity].
  replace (1 - e) with (1 + - e) by lia. apply nearest_quotient. lia.
Qed.

(* ================================================================= *)
(** ** Facts about reconciliation *)

Section ValidateFacts.
Variable products : list Product.t.
Variable now : Z.

(** The loop of [validateCart], from any state of the report. *)
Lemma validate_loop (l : list CartItem.t) :
  forall (ok : bool) (inv : list InvalidEntry.t)
         (oos : list OutOfStockEntry.t) (upd : list UpdatedEntry.t)
         (valid : list CartItem.t),
    fold_left (Cart.validateItem products now) l
      (Validation.mk ok inv oos upd, valid)
    = (Validation.mk ok
         (inv ++ map invalidEntry (filter (missing products) l))
         (oos ++ map (outOfStockEntry products) (filter (soldOut products) l))
         (upd ++ map (updatedEntry products)
                   (filter (fun i => keepable products i && overStock products i) l)),
       valid ++ map (clamp products now) (filter (keepable products) l)).
Proof.
  induction l as [|x l IH]; intros ok inv oos upd valid.
  - cbn. now rewrite !app_nil_r.
  - cbn [fold_left].
    assert (Hstep :
      Cart.validateItem products now (Validation.mk ok inv oos upd, valid) x
      = (Validation.mk ok
           (inv ++ if missing products x then [invalidEntry x] else [])
           (oos ++ if soldOut products x
                   then [outOfStockEntry products x] else [])
           (upd ++ if keepable products x && overStock products x
                   then [updatedEntry products x] else []),
         valid ++ if keepable products x then [clamp products now x] else [])).
    { unfold Cart.validateItem, missing, soldOut, keepable, clamp, overStock,
        updatedEntry, outOfStockEntry, invalidEntry, liveName, liveStock,
        liveProduct.
      destruct (ProductAPI.getProductById products (CartItem.id x)) as [p|];
        [destruct (Product.inStock p);
         [destruct (Product.stock p <? CartItem.quantity x)|]|];
        cbn; rewrite ?app_nil_r; reflexivity. }
    rewrite Hstep, IH. cbn [filter].
    destruct (missing products x), (soldOut products x),
      (keepable products x), (overStock products x);
      cbn; rewrite <- ?app_assoc; reflexivity.
Qed.

Lemma keepable_split (x : CartItem.t) :
  keepable products x = negb (missing products x) && negb (soldOut products x).
Proof.
  unfold keepable, missing, soldOut.
  destruct (liveProduct products x) as [p|]; [|reflexivity].
  now destruct (Product.inStock p).
Qed.

Lemma filter_length_lt {A : Type} (f : A -> bool) (l : list A) :
  (List.length (filter f l) < List.length l)%nat
  <-> exists x, In x l /\ f x = false.
Proof.
  induction l as [|x l IH]; cbn.
  - split; [lia | intros (x & [] & _)].
  - pose proof (filter_length_le f l) as Hle.
    destruct (f x) eqn:Hx; cbn.
    + rewrite <- Nat.succ_lt_mono, IH. split.
      * intros (y & Hy & Hf). exists y. auto.
      * intros (y & [->|Hy] & Hf); [congruence | exists y; auto].
    + split; [intros _; exists x; auto | intros _; lia].
Qed.

Lemma dropped_iff (l : list CartItem.t) :
  ((0 <? List.length (map invalidEntry (filter (missing products) l)))%nat
   || (0 <? List.length
              (map (outOfStockEntry products) (filter (soldOut products) l)))%nat
   = true)
  <-> exists x, In x l /\ keepable products x = false.
Proof.
  rewrite !length_map, orb_true_iff, !Nat.ltb_lt. split.
  - intros [H|H].
    + destruct (filter (missing products) l) as [|x r] eqn:Hf; [cbn in H; lia|].
      assert (Hin : In x (filter (missing products) l))
        by (rewrite Hf; now left).
      apply filter_In in Hin as [Hin Hm].
      exists x. split; [assumption|]. rewrite keepable_split, Hm. reflexivity.
    + destruct (filter (soldOut products) l) as [|x r] eqn:Hf; [cbn in H; lia|].
      assert (Hin : In x (filter (soldOut products) l))
        by (rewrite Hf; now left).
      apply filter_In in Hin as [Hin Hm].
      exists x. split; [assumption|]. rewrite keepable_split, Hm.
      apply andb_false_r.
  - intros (x & Hin & Hk). rewrite keepable_split in Hk.
    apply andb_false_iff in Hk as [Hk|Hk]; apply negb_false_iff in Hk.
    + left. assert (Hx : In x (filter (missing products) l))
        by (apply filter_In; auto).
      destruct (filter (missing products) l); [destruct Hx | cbn; lia].
    + right. assert (Hx : In x (filter (soldOut products) l))
        by (apply filter_In; auto).
      destruct (filter (soldOut products) l); [destruct Hx | cbn; lia].
Qed.

(** [validateCart] in closed form. *)
Lemma validateCart_eq (c : Cart.t) :
  let kept := map (clamp products now) (filter (keepable products) (Cart.items c)) in
  let inv := map invalidEntry (filter (missing products) (Cart.items c)) in
  let oos :=
    map (outOfStockEntry products) (filter (soldOut products) (Cart.items c)) in
  let upd :=
    map (updatedEntry products)
      (filter (fun i => keepable products i && overStock products i)
         (Cart.items c)) in
  let dropped := ((0 <? List.length inv)%nat || (0 <? List.length oos)%nat) in
  let report := Validation.mk (negb dropped) inv oos upd in
  let saved := Cart.saveToStorage now (Cart.setItems kept c) in
  Cart.validateCart products now c
  = (report,
     if dropped then Cart.notifyListeners (Cart.ValidationFailed report) saved
     else saved).
Proof.
  cbv zeta. unfold Cart.validateCart, Cart.validation0.
  rewrite validate_loop. cbn [app Validation.isValid Validation.invalidItems
    Validation.outOfStockItems Validation.updatedItems].
  destruct ((0 <? List.length _)%nat || (0 <? List.length _)%nat);
    reflexivity.
Qed.
End ValidateFacts.

(* ================================================================= *)
(** ** Facts about the invariant of the line items *)

Section ArrayFacts.
Context {A : Type}.

Lemma findIndex_Some (f : A -> bool) (l : list A) (i : nat) :
  JS.findIndex f l = Some i -> exists x, nth_error l i = Some x /\ f x = true.
Proof.
  revert i. induction l as [|y l IH]; intros i; cbn; [discriminate|].
  destruct (f y) eqn:Hy.
  - intros [= <-]. exists y. auto.
  - destruct (JS.findIndex f l) as [j|]; [|discriminate].
    intros [= <-]. now apply IH.
Qed.

Lemma findIndex_None (f : A -> bool) (l : list A) :
  JS.findIndex f l = None -> forall x, In x l -> f x = false.
Proof.
  induction l as [|y l IH]; cbn; [intros _ x []|].
  destruct (f y) eqn:Hy; [discriminate|].
  destruct (JS.findIndex f l); [discriminate|].
  intros _ x [<-|Hx]; auto.
Qed.

Lemma find_findIndex (f : A -> bool) (l : list A) :
  find f l = match JS.findIndex f l with
             | Some i => nth_error l i
             | None => None
             end.
Proof.
  induction l as [|y l IH]; cbn; [reflexivity|].
  destruct (f y); [reflexivity|].
  rewrite IH. now destruct (JS.findIndex f l).
Qed.

Lemma update_at_Forall (P : A -> Prop) (f : A -> A) (l : list A) (i : nat) :
  Forall P l -> (forall x, nth_error l i = Some x -> P (f x)) ->
  Forall P (JS.update_at i f l).
Proof.
  intros Hl. revert i. induction Hl as [|y l Hy Hl IH]; intros i Hf.
  - destruct i; constructor.
  - destruct i; cbn; constructor; auto.
Qed.

Lemma map_update_at {B : Type} (g : A -> B) (f : A -> A) (l : list A) (i : nat) :
  (forall x, g (f x) = g x) -> map g (JS.update_at i f l) = map g l.
Proof.
  intros Hg. revert i. induction l as [|y l IH]; intros [|i]; cbn;
    rewrite ?Hg, ?IH; reflexivity.
Qed.

Lemma remove_at_incl (l : list A) (i : nat) : incl (JS.remove_at i l) l.
Proof.
  revert i. induction l as [|y l IH]; intros [|i]; cbn.
  - apply incl_refl.
  - apply incl_refl.
  - apply incl_tl, incl_refl.
  - apply incl_cons; [now left | apply incl_tl, IH].
Qed.

Lemma remove_at_Forall (P : A -> Prop) (l : list A) (i : nat) :
  Forall P l -> Forall P (JS.remove_at i l).
Proof.
  rewrite !Forall_forall. intros H x Hx. apply H. eapply remove_at_incl, Hx.
Qed.

Lemma map_remove_at {B : Type} (g : A -> B) (l : list A) (i : nat) :
  map g (JS.remove_at i l) = JS.remove_at i (map g l).
Proof.
  revert i. induction l as [|y l IH]; intros [|i]; cbn; rewrite ?IH; reflexivity.
Qed.
End ArrayFacts.

Lemma remove_at_NoDup {A : Type} (l : list A) (i : nat) :
  NoDup l -> NoDup (JS.remove_at i l).
Proof.
  intros H. revert i. induction H as [|y l Hy Hl IH]; intros [|i]; cbn;
    try constructor; auto.
  intros Hin. apply Hy. eapply remove_at_incl, Hin.
Qed.

Lemma filter_NoDup_map {A B : Type} (g : A -> B) (f : A -> bool) (l : list A) :
  NoDup (map g l) -> NoDup (map g (filter f l)).
Proof.
  induction l as [|y l IH]; cbn; [auto|].
  intros H. apply NoDup_cons_iff in H as [Hy Hl].
  destruct (f y); cbn; auto.
  constructor; auto. intros Hin. apply Hy.
  apply in_map_iff in Hin as (x & Hx & Hin). apply filter_In in Hin as [Hin _].
  apply in_map_iff. eauto.
Qed.

Section InvariantFacts.
Variable products : list Product.t.
Variable now : Z.

Lemma getProductById_id (productId : string) (p : Product.t) :
  ProductAPI.getProductById products productId = Some p -> Product.id p = productId.
Proof.
  unfold ProductAPI.getProductById. intros H.
  apply find_some in H as [_ H]. now apply String.eqb_eq.
Qed.

Lemma hasId_true (productId : string) (item : CartItem.t) :
  Cart.hasId productId item = true <-> CartItem.id item = productId.
Proof. apply String.eqb_eq. Qed.

Lemma fresh_id (productId : string) (l : list CartItem.t) :
  JS.findIndex (Cart.hasId productId) l = None -> ~ In productId (map CartItem.id l).
Proof.
  intros Hnone Hin. apply in_map_iff in Hin as (x & Hid & Hx).
  pose proof (findIndex_None _ _ Hnone x Hx) as Hf.
  apply hasId_true in Hid. congruence.
Qed.

Lemma cartOk_snoc (l : list CartItem.t) (x : CartItem.t) :
  cartOk products l -> lineOk products x ->
  JS.findIndex (Cart.hasId (CartItem.id x)) l = None ->
  cartOk products (l ++ [x]).
Proof.
  intros [Hall Hnd] Hx Hfresh. split.
  - apply Forall_app. auto.
  - rewrite map_app. cbn.
    apply NoDup_app; [assumption | repeat constructor; intros [] |].
    intros y Hy [<-|[]]. now apply (fresh_id _ _ Hfresh).
Qed.

Lemma cartOk_update (l : list CartItem.t) (i : nat) (f : CartItem.t -> CartItem.t) :
  cartOk products l ->
  (forall x, CartItem.id (f x) = CartItem.id x) ->
  (forall x, nth_error l i = Some x -> lineOk products x -> lineOk products (f x)) ->
  cartOk products (JS.update_at i f l).
Proof.
  intros [Hall Hnd] Hid Hf. split.
  - apply update_at_Forall; [assumption|].
    intros x Hx. apply Hf; [assumption|].
    rewrite Forall_forall in Hall. apply Hall. eapply nth_error_In, Hx.
  - now rewrite map_update_at.
Qed.

Lemma cartOk_remove (l : list CartItem.t) (i : nat) :
  cartOk products l -> cartOk products (JS.remove_at i l).
Proof.
  intros [Hall Hnd]. split.
  - now apply remove_at_Forall.
  - rewrite map_remove_at. now apply remove_at_NoDup.
Qed.

Lemma getItemQuantity_found (c : Cart.t) (productId : string) (i : nat)
      (x : CartItem.t) :
  JS.findIndex (Cart.hasId productId) (Cart.items c) = Some i ->
  nth_error (Cart.items c) i = Some x ->
  Cart.getItemQuantity c productId = CartItem.quantity x.
Proof.
  intros Hi Hx. unfold Cart.getItemQuantity. now rewrite find_findIndex, Hi, Hx.
Qed.

Lemma getItemQuantity_absent (c : Cart.t) (productId : string) :
  JS.findIndex (Cart.hasId productId) (Cart.items c) = None ->
  Cart.getItemQuantity c productId = 0.
Proof.
  intros Hi. unfold Cart.getItemQuantity. now rewrite find_findIndex, Hi.
Qed.

Lemma addItem_keeps_cartOk (productId : string) (quantity : option Z)
      (c c' : Cart.t) (r : bool) :
  cartOk products (Cart.items c) ->
  Cart.addItem products now productId quantity c = Cart.Returned r c' ->
  cartOk products (Cart.items c').
Proof.
  intros Hok. unfold Cart.addItem.
  set (q := match quantity with Some q => q | None => 1 end).
  destruct (String.eqb productId "" || (q <? 1)) eqn:Hguard; [discriminate|].
  apply orb_false_iff in Hguard as [_ Hq]. apply Z.ltb_ge in Hq.
  destruct (ProductAPI.getProductById products productId) as [p|] eqn:Hp;
    [|discriminate].
  destruct (negb (Product.inStock p)); [discriminate|].
  destruct (Z.ltb_spec (Product.stock p) (Cart.getItemQuantity c productId + q))
    as [|Hstock]; [discriminate|].
  destruct (Z.ltb_spec Cart.MAX_QUANTITY (Cart.getItemQuantity c productId + q))
    as [|Hmax]; [discriminate|].
  intros [= _ <-]. cbn [Cart.items Cart.notifyListeners Cart.saveToStorage
                          Cart.setItems].
  destruct (JS.findIndex (Cart.hasId productId) (Cart.items c)) as [i|] eqn:Hi.
  - destruct (findIndex_Some _ _ _ Hi) as (x & Hx & Hid).
    apply hasId_true in Hid.
    rewrite (getItemQuantity_found c productId i x Hi Hx) in *.
    apply cartOk_update; [assumption | reflexivity |].
    intros y Hy [[Hlo _] _]. assert (y = x) by congruence. subst y.
    split; cbn; [lia|]. rewrite Hid, Hp. intros p' [= <-]. lia.
  - rewrite (getItemQuantity_absent c productId Hi) in *.
    pose proof (getProductById_id _ _ Hp) as Hpid.
    apply cartOk_snoc; [assumption | |cbn; now rewrite Hpid].
    split; cbn; [lia|]. rewrite Hpid, Hp. intros p' [= <-]. lia.
Qed.

Lemma removeItem_keeps_cartOk (productId : string) (quantity : option Z)
      (c : Cart.t) :
  cartOk products (Cart.items c) -> removable quantity ->
  cartOk products (Cart.items (snd (Cart.removeItem now productId quantity c))).
Proof.
  intros Hok Hq. unfold Cart.removeItem.
  destruct (JS.findIndex (Cart.hasId productId) (Cart.items c)) as [i|];
    [|assumption].
  destruct (nth_error (Cart.items c) i) as [x|] eqn:Hx; [|assumption].
  destruct quantity as [q|]; cbn [removable] in Hq.
  - destruct (Z.leb_spec (CartItem.quantity x) q) as [|Hlt]; cbn.
    + now apply cartOk_remove.
    + apply cartOk_update; [assumption | reflexivity |].
      intros y Hy [[Hlo Hhi] Hst]. assert (y = x) by congruence. subst y.
      split; cbn; [lia|]. intros p Hp. specialize (Hst p Hp). lia.
  - cbn. now apply cartOk_remove.
Qed.

Lemma updateItemQuantity_keeps_cartOk (productId : string) (quantity : Z)
      (c c' : Cart.t) (r : bool) :
  cartOk products (Cart.items c) ->
  Cart.updateItemQuantity products now productId quantity c = Cart.Returned r c' ->
  cartOk products (Cart.items c').
Proof.
  intros Hok. unfold Cart.updateItemQuantity.
  destruct (String.eqb productId "" || (quantity <? 0)) eqn:Hguard;
    [discriminate|].
  apply orb_false_iff in Hguard as [_ Hq]. apply Z.ltb_ge in Hq.
  destruct (Z.ltb_spec Cart.MAX_QUANTITY quantity) as [|Hmax]; [discriminate|].
  destruct (JS.findIndex (Cart.hasId productId) (Cart.items c)) as [i|] eqn:Hi;
    [|discriminate].
  destruct (findIndex_Some _ _ _ Hi) as (x & Hx & Hid). apply hasId_true in Hid.
  destruct (Z.eqb_spec quantity 0) as [Hz|Hnz].
  - destruct (ProductAPI.getProductById products productId) as [p|];
      [destruct (Product.stock p <? quantity); [discriminate|]|].
    + pose proof (removeItem_keeps_cartOk productId None c Hok I) as Hrem.
      destruct (Cart.removeItem now productId None c). now intros [= _ <-].
    + pose proof (removeItem_keeps_cartOk productId None c Hok I) as Hrem.
      destruct (Cart.removeItem now productId None c). now intros [= _ <-].
  - assert (Hset : cartOk products
              (JS.update_at i (CartItem.setQuantity quantity now) (Cart.items c))
              \/ exists p, ProductAPI.getProductById products productId = Some p
                           /\ (Product.stock p <? quantity) = true).
    { destruct (ProductAPI.getProductById products productId) as [p|] eqn:Hp.
      - destruct (Product.stock p <? quantity) eqn:Hover; [right; eauto|].
        left. apply cartOk_update; [assumption | reflexivity |].
        intros y Hy _. assert (y = x) by congruence. subst y.
        split; cbn; [lia|]. rewrite Hid, Hp. intros p' [= <-].
        now apply Z.ltb_ge.
      - left. apply cartOk_update; [assumption | reflexivity |].
        intros y Hy _. assert (y = x) by congruence. subst y.
        split; cbn; [lia|]. rewrite Hid, Hp. discriminate. }
    destruct Hset as [Hset|(p & Hp & Hover)].
    + destruct (ProductAPI.getProductById products productId) as [p|];
        [destruct (Product.stock p <? quantity); [discriminate|]|];
        now intros [= _ <-].
    + rewrite Hp, Hover. discriminate.
Qed.

Lemma clamp_id (x : CartItem.t) :
  CartItem.id (clamp products now x) = CartItem.id x.
Proof. unfold clamp. now destruct (overStock products x). Qed.

Lemma clamp_lineOk (x : CartItem.t) :
  lineOk products x -> keepable products x = true -> clamp products now x = x.
Proof.
  intros [_ Hst] Hkeep. unfold clamp, overStock, liveStock.
  unfold keepable in Hkeep. unfold liveProduct in *.
  destruct (ProductAPI.getProductById products (CartItem.id x)) as [p|];
    [|discriminate].
  specialize (Hst p eq_refl).
  destruct (Z.ltb_spec (Product.stock p) (CartItem.quantity x)); [lia|reflexivity].
Qed.

Lemma validateCart_items (c : Cart.t) :
  Cart.items (snd (Cart.validateCart products now c))
  = map (clamp products now) (filter (keepable products) (Cart.items c)).
Proof.
  pose proof (validateCart_eq products now c) as Heq. cbv zeta in Heq.
  rewrite Heq. cbn [snd]. now destruct (_ || _).
Qed.

Lemma validateCart_invalidItems (c : Cart.t) :
  Validation.invalidItems (fst (Cart.validateCart products now c))
  = map invalidEntry (filter (missing products) (Cart.items c)).
Proof.
  pose proof (validateCart_eq products now c) as Heq. cbv zeta in Heq.
  now rewrite Heq.
Qed.

Lemma validateCart_keeps_cartOk (c : Cart.t) :
  cartOk products (Cart.items c) ->
  cartOk products (Cart.items (snd (Cart.validateCart products now c))).
Proof.
  intros [Hall Hnd]. rewrite validateCart_items.
  assert (Hsame : map (clamp products now) (filter (keepable products) (Cart.items c))
                  = filter (keepable products) (Cart.items c)).
  { rewrite <- (map_id (filter _ _)) at 2. apply map_ext_in.
    intros x Hx. apply filter_In in Hx as [Hx Hk].
    rewrite Forall_forall in Hall. now apply clamp_lineOk; [apply Hall|]. }
  rewrite Hsame. split.
  - apply Forall_forall. intros x Hx. apply filter_In in Hx as [Hx _].
    rewrite Forall_forall in Hall. now apply Hall.
  - now apply filter_NoDup_map.
Qed.



End InvariantFacts.

(* ================================================================= *)
(** ** Adding to the cart *)

(** C1, as the code has it.  Whatever the arguments, a failing [addItem]
    leaves the cart (line items, storage, events) as it was.  For a non-empty
    product id and a quantity [q >= 1] the checks fail in this order: with
    ProductNotFoundError when the catalog has no such product; with
    OutOfStockError when the product's [inStock] is false; with
    StockExceededError when the product is in stock and the existing quantity
    plus [q] exceeds its stock; with QuantityLimitError when that sum is
    within stock and exceeds 10.  In particular with stock 5 and a stored
    quantity of 4, asking for 2 more fails with StockExceededError and the
    stored quantity stays 4.  An empty product id or a quantity below 1 fails
    before all of these, with the input error. *)
Theorem addItem_failures :
  forall (products : list Product.t) (now : Z) (productId : string) (q : Z)
         (c : Cart.t),
    let r := Cart.addItem products now productId (Some q) c in
    let sum := Cart.getItemQuantity c productId + q in
    (forall e, thrown r = Some e -> cartAfter r = c)
    /\ (productId <> "" -> 1 <= q ->
        (ProductAPI.getProductById products productId = None ->
         r = Cart.Thrown Cart.ProductNotFoundError c)
        /\ (forall p,
              ProductAPI.getProductById products productId = Some p ->
              (Product.inStock p = false ->
               r = Cart.Thrown Cart.OutOfStockError c)
              /\ (Product.inStock p = true -> Product.stock p < sum ->
                  r = Cart.Thrown (Cart.StockExceededError (Product.stock p)) c)
              /\ (Product.inStock p = true -> sum <= Product.stock p ->
                  Cart.MAX_QUANTITY < sum ->
                  r = Cart.Thrown Cart.QuantityLimitError c)
              /\ (Product.inStock p = true -> Product.stock p = 5 ->
                  Cart.getItemQuantity c productId = 4 -> q = 2 ->
                  r = Cart.Thrown (Cart.StockExceededError 5) c
                  /\ Cart.getItemQuantity (cartAfter r) productId = 4)))
    /\ (productId = "" \/ q < 1 -> r = Cart.Thrown Cart.InvalidInputError c).
Proof.
  intros products now productId q c r sum. split; [|split].
  - intros e He. unfold r, Cart.addItem in *.
    destruct (String.eqb productId "" || (q <? 1)); [reflexivity|].
    destruct (ProductAPI.getProductById products productId) as [p|];
      [|reflexivity].
    destruct (negb (Product.inStock p)); [reflexivity|].
    destruct (Product.stock p <? Cart.getItemQuantity c productId + q);
      [reflexivity|].
    destruct (Cart.MAX_QUANTITY <? Cart.getItemQuantity c productId + q);
      [reflexivity | discriminate].
  - intros Hid Hq.
    assert (Hguard : String.eqb productId "" || (q <? 1) = false).
    { apply orb_false_iff. split; [now apply String.eqb_neq | lia]. }
    assert (Hstock : forall p,
              ProductAPI.getProductById products productId = Some p ->
              Product.inStock p = true -> Product.stock p < sum ->
              r = Cart.Thrown (Cart.StockExceededError (Product.stock p)) c).
    { intros p Hp Hin Hlt. unfold r, Cart.addItem. rewrite Hguard, Hp, Hin.
      cbn [negb]. fold sum.
      destruct (Z.ltb_spec (Product.stock p) sum); [reflexivity | lia]. }
    split.
    + intros Hnone. unfold r, Cart.addItem. now rewrite Hguard, Hnone.
    + intros p Hp. split; [|split; [|split]].
      * intros Hout. unfold r, Cart.addItem. now rewrite Hguard, Hp, Hout.
      * now apply Hstock.
      * intros Hin Hle Hmax. unfold r, Cart.addItem. rewrite Hguard, Hp, Hin.
        cbn [negb]. fold sum.
        destruct (Z.ltb_spec (Product.stock p) sum); [lia|].
        destruct (Z.ltb_spec Cart.MAX_QUANTITY sum); [reflexivity | lia].
      * intros Hin Hfive Hfour Htwo.
        assert (Hr : r = Cart.Thrown (Cart.StockExceededError (Product.stock p)) c)
          by (apply Hstock; [assumption | assumption | unfold sum; lia]).
        rewrite Hr, Hfive. split; [reflexivity | exact Hfour].
  - intros Hbad. unfold r, Cart.addItem.
    destruct Hbad as [-> | Hq]; [reflexivity|].
    destruct (String.eqb productId ""); [reflexivity|].
    destruct (Z.ltb_spec q 1); [reflexivity | lia].
Qed.

Lemma addItem_failures_witness :
  let ps := [product "p1" 10%float 5] in
  let c := cartOf [line "p1" 4] in
  Cart.addItem ps 0 "p1" (Some 2) c = Cart.Thrown (Cart.StockExceededError 5) c
  /\ Cart.getItemQuantity (cartAfter (Cart.addItem ps 0 "p1" (Some 2) c)) "p1" = 4.
Proof.
  cbv zeta.
  destruct (addItem_failures [product "p1" 10%float 5] 0 "p1" 2
              (cartOf [line "p1" 4])) as (_ & H & _).
  destruct H as [_ H]; [discriminate | lia |].
  destruct (H (product "p1" 10%float 5) eq_refl) as (_ & _ & _ & Hex).
  apply Hex; reflexivity.
Defined.

(** C1 as stated fails on a quantity below 1: asking for 0 of a product the
    catalog does not have fails with the input error ('Invalid product ID or
    quantity'), not with ProductNotFoundError. *)
Lemma addItem_invalid_quantity_counterexample :
  ProductAPI.getProductById [] "p1" = None
  /\ Cart.addItem [] 0 "p1" (Some 0) (cartOf [])
     = Cart.Thrown Cart.InvalidInputError (cartOf [])
  /\ Cart.addItem [] 0 "p1" (Some 0) (cartOf [])
     <> Cart.Thrown Cart.ProductNotFoundError (cartOf []).
Proof. repeat split. discriminate. Qed.

Example addItem_success :
  let ps := [product "p1" 10%float 5] in
  Cart.addItem ps 7 "p1" None (cartOf [line "p1" 4])
  = Cart.Returned true
      (Cart.mk [CartItem.mk "p1" 5 0 7 None]
         (Cart.Json (Cart.Data (Some [CartItem.mk "p1" 5 0 7 None]) (Some 7)))
         [Cart.Add "p1" 1 (product "p1" 10%float 5)]).
Proof. reflexivity. Qed.

(* ================================================================= *)
(** ** Sorting *)



Example sortProducts_price_ties :
  let ps := [product "p1" 20%float 5; product "p2" 10%float 5;
             product "p3" 10%float 5; product "p4" 30%float 5] in
  let key := fun _ _ : string => 0 in
  map Product.id (ProductAPI.sortProducts key ps (Some "price") (Some "asc"))
  = ["p2"; "p3"; "p1"; "p4"]
  /\ map Product.id (ProductAPI.sortProducts key ps (Some "price") (Some "desc"))
     = ["p4"; "p1"; "p3"; "p2"]
  /\ map Product.id (JS.sort (negated ProductAPI.byPrice) ps)
     = ["p4"; "p1"; "p2"; "p3"].
Proof. vm_compute. repeat split. Qed.

(* ================================================================= *)
(** ** The invariant of the line items *)




Example mergeCart_takes_the_maximum :
  map (fun item => (CartItem.id item, CartItem.quantity item))
    (Cart.items (Cart.mergeCart 0 (Some [line "p1" 5; line "p2" 1])
                   (cartOf [line "p1" 2])))
  = [("p1", 5); ("p2", 1)].
Proof. reflexivity. Qed.

(* ================================================================= *)
(** ** Reconciliation *)

(** C4.  [validateCart] reports in [invalidItems] exactly the lines whose
    product is gone from the catalog and in [outOfStockItems] exactly the
    lines whose product exists but is out of stock, and drops both kinds; the
    cart keeps, in order, the lines whose product exists and is in stock,
    each with its quantity brought down to the current stock when it exceeded
    it, and [updatedItems] lists exactly those clamped lines with the old
    and the new quantity; the kept set is what is written to storage; and
    [isValid] is false exactly when at least one line was dropped. *)
Theorem validateCart_reconciles :
  forall (products : list Product.t) (now : Z) (c : Cart.t),
    let report := fst (Cart.validateCart products now c) in
    let c' := snd (Cart.validateCart products now c) in
    Validation.invalidItems report
    = map invalidEntry (filter (missing products) (Cart.items c))
    /\ Validation.outOfStockItems report
       = map (outOfStockEntry products) (filter (soldOut products) (Cart.items c))
    /\ Cart.items c'
       = map (clamp products now) (filter (keepable products) (Cart.items c))
    /\ (forall item, keepable products item
                     = negb (missing products item) && negb (soldOut products item))
    /\ (forall item, CartItem.id (clamp products now item) = CartItem.id item
                     /\ CartItem.quantity (clamp products now item)
                        = Z.min (CartItem.quantity item) (liveStock products item))
    /\ Validation.updatedItems report
       = map (updatedEntry products)
           (filter (fun i => keepable products i && overStock products i)
              (Cart.items c))
    /\ Cart.storage c' = Cart.Json (Cart.Data (Some (Cart.items c')) (Some now))
    /\ (Validation.isValid report = false
        <-> exists item, In item (Cart.items c) /\ keepable products item = false)
    /\ (Validation.isValid report = false
        <-> (List.length (Cart.items c') < List.length (Cart.items c))%nat).
Proof.
  intros products now c report c'.
  pose proof (validateCart_eq products now c) as Heq. cbv zeta in Heq.
  assert (Hitems : Cart.items c'
            = map (clamp products now) (filter (keepable products) (Cart.items c))).
  { unfold c'. rewrite Heq. cbn [snd]. now destruct (_ || _). }
  assert (Hvalid : Validation.isValid report = false
            <-> exists item, In item (Cart.items c) /\ keepable products item = false).
  { unfold report. rewrite Heq. cbn [fst Validation.isValid].
    rewrite negb_false_iff. apply dropped_iff. }
  split; [unfold report; now rewrite Heq|].
  split; [unfold report; now rewrite Heq|].
  split; [exact Hitems|].
  split; [apply keepable_split|].
  split.
  { intros item. unfold clamp, overStock.
    destruct (Z.ltb_spec (liveStock products item) (CartItem.quantity item));
      cbn; split; try reflexivity; lia. }
  split; [unfold report; now rewrite Heq|].
  split.
  { rewrite Hitems. unfold c'. rewrite Heq. cbn [snd].
    now destruct (_ || _). }
  split; [exact Hvalid|].
  rewrite Hvalid, Hitems, length_map. symmetry. apply filter_length_lt.
Qed.

(* ================================================================= *)
(** ** Search *)



Example searchProducts_two_terms :
  let ps := [product "pixel pro" 10%float 5; product "pixel" 20%float 5;
             product "nest pro" 30%float 5] in
  map Product.id (ProductAPI.searchProducts ps "Pixel pro") = ["pixel pro"]
  /\ map Product.id (ProductAPI.searchProducts ps "Pixel") = ["pixel pro"; "pixel"]
  /\ map Product.id (ProductAPI.searchProducts ps "pro") = ["pixel pro"; "nest pro"]
  /\ map Product.id (ProductAPI.searchProducts ps "  ") = map Product.id ps
  /\ map Product.id (ProductAPI.searchProducts ps "phone") = map Product.id ps.
Proof. vm_compute. repeat split. Qed.

(** Letters and spaces beyond ASCII: a product named with a capital
    E-acute (code unit 201) is found by the query written with the small
    one (233), and a no-break space (160) separates two terms as a space
    does. *)
Example searchProducts_accented :
  let unit (n : nat) := String (ascii_of_nat n) "" in
  let cafe := product ("CAF" ++ unit 201%nat ++ " pro")%string 10%float 5 in
  let ps := [cafe; product "pixel pro" 20%float 5] in
  ProductAPI.searchProducts ps ("caf" ++ unit 233%nat)%string = [cafe]
  /\ ProductAPI.searchTerms ("Pro" ++ unit 160%nat ++ "caf" ++ unit 201%nat)%string
     = ["pro"; ("caf" ++ unit 233%nat)%string]
  /\ ProductAPI.searchProducts ps ("Pro" ++ unit 160%nat ++ "caf" ++ unit 201%nat)%string
     = [cafe].
Proof. vm_compute. repeat split. Qed.

(* ================================================================= *)
(** ** Pagination *)

(** C6, as the code has it.  For a page number [page >= 0] and a page size
    [perPage >= 1]: [items] is the slice [[(page-1)*perPage, page*perPage)]
    of the input when [page >= 1]; [total] is the input length; [totalPages]
    is the least [n] with [total <= n * perPage], that is
    [ceil (total / perPage)]; [hasNext] holds iff [page * perPage < total] and
    [hasPrev] iff [page > 1]; on page 0 and on every page after the last one
    [items] is empty; [perPage] defaults to 12; and on seven items, page 2 of
    size 3 is items 3 to 5 with [hasNext], [hasPrev] and 3 pages.
    The function is total: no input makes it fail. *)
Theorem paginateProducts_pages :
  forall (products : list Product.t) (page perPage : Z),
    0 <= page -> 1 <= perPage ->
    let r := ProductAPI.paginateProducts products (Some page) (Some perPage) in
    let total := Z.of_nat (List.length products) in
    (1 <= page ->
     ProductAPI.Page.items r
     = firstn (Z.to_nat perPage)
         (skipn (Z.to_nat ((page - 1) * perPage)) products))
    /\ ProductAPI.Page.total r = total
    /\ (exists n, ProductAPI.Page.totalPages r = JS.Int n
                  /\ (n - 1) * perPage < total <= n * perPage
                  /\ (page = 0 \/ n < page -> ProductAPI.Page.items r = []))
    /\ (ProductAPI.Page.hasNext r = true <-> page * perPage < total)
    /\ (ProductAPI.Page.hasPrev r = true <-> 1 < page)
    /\ ProductAPI.paginateProducts products (Some page) None
       = ProductAPI.paginateProducts products (Some page) (Some 12)
    /\ (forall a b c d e f g : Product.t,
          let r7 := ProductAPI.paginateProducts [a; b; c; d; e; f; g]
                      (Some 2) (Some 3) in
          ProductAPI.Page.items r7 = [d; e; f]
          /\ ProductAPI.Page.hasNext r7 = true
          /\ ProductAPI.Page.hasPrev r7 = true
          /\ ProductAPI.Page.totalPages r7 = JS.Int 3).
Proof.
  intros products page perPage Hpage Hper r total.
  assert (Hslice : 1 <= page ->
            ProductAPI.Page.items r
            = firstn (Z.to_nat perPage)
                (skipn (Z.to_nat ((page - 1) * perPage)) products)).
  { intros H1. unfold r, ProductAPI.paginateProducts. cbn.
    apply slice_forward; nia. }
  split; [exact Hslice|].
  split; [reflexivity|].
  split.
  { destruct (ceil_div_bounds total perPage Hper) as (n & Hn & Hlo & Hhi).
    exists n. split; [exact Hn|]. split; [lia|].
    intros [H0|Hbig].
    - subst page. unfold r, ProductAPI.paginateProducts.
      cbn [ProductAPI.Page.items].
      replace ((0 - 1) * perPage + perPage) with 0 by lia.
      apply slice_to_zero.
    - unfold r, ProductAPI.paginateProducts. cbn.
      apply slice_past_end. fold total. nia. }
  split.
  { unfold r, ProductAPI.paginateProducts. cbn. fold total.
    rewrite Z.ltb_lt. split; intros; lia. }
  split.
  { unfold r, ProductAPI.paginateProducts. cbn. apply Z.ltb_lt. }
  split; [reflexivity|].
  intros a b c d e f g r7. repeat split.
Qed.

Lemma paginateProducts_pages_witness :
  ProductAPI.Page.items
    (ProductAPI.paginateProducts sevenProducts (Some 4) (Some 3)) = [].
Proof.
  destruct (paginateProducts_pages sevenProducts 4 3 ltac:(lia) ltac:(lia))
    as (_ & _ & (n & Hn & _ & Hempty) & _).
  apply Hempty. right.
  vm_compute in Hn. injection Hn as <-. lia.
Defined.

(** C6 as stated fails on a negative page: page -1 of size 3 is out of the
    range 1..3 of a seven-item input, yet [slice] reads its negative bounds
    from the end of the array and returns three items. *)
Lemma paginateProducts_negative_page_counterexample :
  let r := ProductAPI.paginateProducts sevenProducts (Some (-1)) (Some 3) in
  ProductAPI.Page.totalPages r = JS.Int 3
  /\ ~ (1 <= ProductAPI.Page.page r <= 3)
  /\ map Product.id (ProductAPI.Page.items r) = ["p2"; "p3"; "p4"]
  /\ ProductAPI.Page.items r <> [].
Proof.
  cbv zeta. split; [reflexivity|]. split; [cbn; lia|].
  split; [reflexivity|]. vm_compute. discriminate.
Qed.

(* ================================================================= *)
(** ** Loading from storage *)

(** C7, as the code has it.  Loading never throws.  A record saved more than
    30 days ago (31 days, say) loads as the empty cart, which is saved at
    once; so does a corrupted entry: a non-empty text that does not parse,
    or one that parses to a value without an array of items.  The empty
    string is taken for "no data": the cart is empty and nothing is
    written. *)
Theorem loadFromStorage_resets :
  forall (now : Z) (c : Cart.t),
    let reset :=
      Cart.Returned tt (Cart.mk [] (emptySaved now) (Cart.notified c)) in
    thrown (Cart.loadFromStorage now c) = None
    /\ (forall l savedAt,
          Cart.storage c = Cart.Json (Cart.Data (Some l) (Some savedAt)) ->
          30 * Cart.MS_PER_DAY < now - savedAt ->
          Cart.loadFromStorage now c = reset)
    /\ (forall l savedAt,
          Cart.storage c = Cart.Json (Cart.Data (Some l) (Some savedAt)) ->
          now - savedAt = 31 * Cart.MS_PER_DAY ->
          Cart.loadFromStorage now c = reset)
    /\ (corrupted (Cart.storage c) ->
        thrown (Cart.loadFromStorage_try now c) <> None
        /\ Cart.loadFromStorage now c = reset)
    /\ (Cart.storage c = Cart.EmptyText ->
        Cart.loadFromStorage now c
        = Cart.Returned tt (Cart.mk [] Cart.EmptyText (Cart.notified c))).
Proof.
  intros now c reset.
  assert (Hold : forall l savedAt,
            Cart.storage c = Cart.Json (Cart.Data (Some l) (Some savedAt)) ->
            30 * Cart.MS_PER_DAY < now - savedAt ->
            Cart.loadFromStorage now c = reset).
  { intros l savedAt Hs Hage.
    unfold Cart.loadFromStorage, Cart.loadFromStorage_try, Cart.expired.
    rewrite Hs.
    destruct (Z.ltb_spec (30 * Cart.MS_PER_DAY) (now - savedAt)); [|lia].
    reflexivity. }
  split; [|split; [exact Hold | split; [|split]]].
  - unfold Cart.loadFromStorage, Cart.loadFromStorage_try.
    destruct (Cart.storage c) as [| | |[|[l|] savedAt]]; try reflexivity.
    destruct (Cart.expired now savedAt); reflexivity.
  - intros l savedAt Hs Hage. apply (Hold l savedAt Hs).
    rewrite Hage. unfold Cart.MS_PER_DAY. lia.
  - unfold Cart.loadFromStorage, Cart.loadFromStorage_try.
    intros [H|[H|[savedAt H]]]; rewrite H; split; (discriminate || reflexivity).
  - intros H. unfold Cart.loadFromStorage, Cart.loadFromStorage_try.
    rewrite H. unfold Cart.setItems. now rewrite H.
Qed.

Lemma loadFromStorage_resets_witness :
  Cart.create (31 * Cart.MS_PER_DAY)
    (Cart.Json (Cart.Data (Some [line "p1" 2]) (Some 0)))
  = Cart.Returned tt (Cart.mk [] (emptySaved (31 * Cart.MS_PER_DAY)) []).
Proof.
  exact (proj1 (proj2 (proj2 (loadFromStorage_resets (31 * Cart.MS_PER_DAY)
           (Cart.mk [] (Cart.Json (Cart.Data (Some [line "p1" 2]) (Some 0))) []))))
         [line "p1" 2] 0 eq_refl eq_refl).
Defined.

(** C7 as stated fails on the empty string: it is a stored text that
    [JSON.parse] rejects, but [!stored] holds for it, so the cart is set
    empty and storage is left as it is, not rewritten with the empty cart. *)
Lemma loadFromStorage_empty_text_counterexample :
  Cart.loadFromStorage 5 (Cart.mk [] Cart.EmptyText [])
  = Cart.Returned tt (Cart.mk [] Cart.EmptyText [])
  /\ Cart.storage (cartAfter (Cart.loadFromStorage 5 (Cart.mk [] Cart.EmptyText [])))
     <> emptySaved 5.
Proof. split; [reflexivity | discriminate]. Qed.

(* ================================================================= *)
(** ** Export and import *)

(** C8, as the code has it.  Importing what [exportCart] has just returned
    into the cart it was exported from leaves the cart with the line items
    it had; a well-shaped blob replaces the
    whole collection by its items and saves it; a blob of the wrong shape
    makes [importCart] return false, the error 'Invalid cart data' being
    caught inside, and leaves the cart untouched; [importCart] never
    throws. *)
Theorem importCart_exportCart :
  forall (now now' : Z) (c : Cart.t) (cartData : option Blob.t),
    (exists c',
        Cart.importCart now' (Some (Cart.exportCart now c)) c
        = Cart.Returned true c'
        /\ Cart.items c' = Cart.items c
        /\ persisted now' c')
    /\ (forall blob l,
          cartData = Some blob -> Blob.items blob = Some l ->
          exists c',
            Cart.importCart now cartData c = Cart.Returned true c'
            /\ Cart.items c' = l
            /\ Cart.storage c' = Cart.Json (Cart.Data (Some l) (Some now)))
    /\ (wrongShape cartData ->
        Cart.importCart_try now cartData c
        = Cart.Thrown Cart.InvalidCartDataError c
        /\ Cart.importCart now cartData c = Cart.Returned false c)
    /\ thrown (Cart.importCart now cartData c) = None.
Proof.
  intros now now' c cartData. split; [|split; [|split]].
  - eexists. repeat split.
  - intros blob l -> Hl. unfold Cart.importCart, Cart.importCart_try.
    rewrite Hl. eexists. repeat split.
  - unfold wrongShape, Cart.importCart, Cart.importCart_try.
    destruct cartData as [blob|]; [intros ->|intros _]; split; reflexivity.
  - unfold Cart.importCart, Cart.importCart_try.
    destruct cartData as [blob|]; [destruct (Blob.items blob)|]; reflexivity.
Qed.

Lemma importCart_exportCart_witness :
  Cart.importCart 0 (Some (Blob.mk None None None)) (cartOf [line "p1" 2])
  = Cart.Returned false (cartOf [line "p1" 2]).
Proof.
  exact (proj2 (proj1 (proj2 (proj2
    (importCart_exportCart 0 0 (cartOf [line "p1" 2])
       (Some (Blob.mk None None None))))) eq_refl)).
Defined.

(** C8 as stated fails on the error: on a blob without an array of items
    [importCart] does not fail with InvalidCartDataError, it returns false. *)
Lemma importCart_returns_false_counterexample :
  wrongShape (Some (Blob.mk None None None))
  /\ Cart.importCart 0 (Some (Blob.mk None None None)) (cartOf [line "p1" 2])
     = Cart.Returned false (cartOf [line "p1" 2])
  /\ thrown (Cart.importCart 0 (Some (Blob.mk None None None))
               (cartOf [line "p1" 2]))
     <> Some Cart.InvalidCartDataError.
Proof. repeat split. discriminate. Qed.

(* ================================================================= *)
(** ** The summary *)

(** C9.  When every line of the cart resolves to a product (live or
    snapshot), the summary is computed from [subtotal], the unrounded sum of
    the unrounded line subtotals: the reported subtotal is [subtotal]
    rounded to 2 decimals, [taxAmount] is [subtotal * 0.08] rounded,
    [shippingCost] is 0 when [subtotal >= 50] and 9.99 otherwise, and [total]
    is [subtotal + shippingCost + taxAmount] (double-precision sums, in this
    order) rounded; a subtotal of 49.99 gives shipping 9.99 and a subtotal of
    50.00 gives shipping 0.  Rounded means rounded to two decimals: each of
    the three outputs is a whole number of hundredths, the one nearest to
    the aggregate it is computed from (the upper one on a tie), and the
    aggregates themselves are sums and products of unrounded numbers. *)
Theorem getCartSummary_totals :
  forall (products : list Product.t) (c : Cart.t),
    Forall (fun item => Cart.resolve products item <> None) (Cart.items c) ->
    let s := Cart.getCartSummary products c in
    let subtotal := sumOfLines products (Cart.items c) in
    let shipping :=
      if PrimFloat.leb 50%float subtotal then 0%float else 9.99%float in
    let tax := PrimFloat.mul subtotal 0.08%float in
    Summary.subtotal s = Cart.round2 subtotal
    /\ Summary.taxAmount s = Cart.round2 tax
    /\ Summary.shippingCost s = shipping
    /\ Summary.total s
       = Cart.round2 (PrimFloat.add (PrimFloat.add subtotal shipping) tax)
    /\ (subtotal = 49.99%float -> Summary.shippingCost s = 9.99%float)
    /\ (subtotal = 50%float -> Summary.shippingCost s = 0%float)
    /\ roundedToCents subtotal (Summary.subtotal s)
    /\ roundedToCents tax (Summary.taxAmount s)
    /\ roundedToCents (PrimFloat.add (PrimFloat.add subtotal shipping) tax)
         (Summary.total s).
Proof.
  intros products c Hall s subtotal shipping tax.
  assert (Hsub : Cart.rawSubtotal (Cart.getCartItems products c) = subtotal).
  { unfold Cart.rawSubtotal, Cart.getCartItems, subtotal, sumOfLines.
    now apply rawSubtotal_from. }
  assert (Hship : Summary.shippingCost s = shipping).
  { unfold s, Cart.getCartSummary. cbn [Summary.shippingCost].
    rewrite Hsub. unfold shipping, Cart.SHIPPING_THRESHOLD.
    destruct (PrimFloat.leb 50%float subtotal);
      [apply round2_zero | apply round2_shipping]. }
  split.
  { unfold s, Cart.getCartSummary. cbn [Summary.subtotal]. now rewrite Hsub. }
  split.
  { unfold s, Cart.getCartSummary. cbn [Summary.taxAmount]. now rewrite Hsub. }
  split; [exact Hship|].
  assert (Htotal : Summary.total s
                   = Cart.round2 (PrimFloat.add (PrimFloat.add subtotal shipping) tax)).
  { unfold s, Cart.getCartSummary. cbn [Summary.total]. now rewrite Hsub. }
  assert (Hsubtotal : Summary.subtotal s = Cart.round2 subtotal).
  { unfold s, Cart.getCartSummary. cbn [Summary.subtotal]. now rewrite Hsub. }
  assert (Htax : Summary.taxAmount s = Cart.round2 tax).
  { unfold s, Cart.getCartSummary. cbn [Summary.taxAmount]. now rewrite Hsub. }
  split; [exact Htotal|].
  split; [intros Heq; rewrite Hship; unfold shipping; rewrite Heq; reflexivity|].
  split; [intros Heq; rewrite Hship; unfold shipping; rewrite Heq; reflexivity|].
  split; [rewrite Hsubtotal; apply round2_cents|].
  split; [rewrite Htax; apply round2_cents|].
  rewrite Htotal. apply round2_cents.
Qed.

Lemma getCartSummary_totals_witness :
  Summary.shippingCost
    (Cart.getCartSummary [product "p1" 49.99%float 5] (cartOf [line "p1" 1]))
  = 9.99%float.
Proof.
  destruct (getCartSummary_totals [product "p1" 49.99%float 5]
              (cartOf [line "p1" 1])) as (_ & _ & _ & _ & Hlow & _ & _ & _ & _).
  - repeat constructor. vm_compute. discriminate.
  - apply Hlow. vm_compute. reflexivity.
Defined.

Example getCartSummary_at_threshold :
  let s := Cart.getCartSummary [product "p1" 50%float 5] (cartOf [line "p1" 1]) in
  Summary.subtotal s = 50%float
  /\ Summary.shippingCost s = 0%float
  /\ Summary.taxAmount s = 4%float
  /\ Summary.total s = 54%float
  /\ Summary.freeShippingEligible s = true.
Proof. vm_compute. repeat split. Qed.

Example getCartSummary_below_threshold :
  let s :=
    Cart.getCartSummary [product "p1" 49.99%float 5] (cartOf [line "p1" 1]) in
  Summary.subtotal s = 49.99%float
  /\ Summary.shippingCost s = 9.99%float
  /\ Summary.taxAmount s = 4%float
  /\ Summary.total s = 63.98%float
  /\ Summary.itemCount s = 1
  /\ Summary.items s = 1.
Proof. vm_compute. repeat split. Qed.

(** The threshold is compared with the subtotal before rounding: a line of
    49.996 is reported as a subtotal of 50 and still pays shipping. *)
Example getCartSummary_threshold_before_rounding :
  let s :=
    Cart.getCartSummary [product "p1" 49.996%float 5] (cartOf [line "p1" 1]) in
  Summary.subtotal s = 50%float
  /\ Summary.shippingCost s = 9.99%float
  /\ Summary.freeShippingEligible s = false.
Proof. vm_compute. repeat split. Qed.

(** Rounding happens once, on the sum: two lines of 0.125 give 0.25, where
    rounding each line first would give 0.13 + 0.13. *)
Example getCartSummary_rounds_the_sum :
  let ps := [product "p1" 0.125%float 5; product "p2" 0.125%float 5] in
  Summary.subtotal (Cart.getCartSummary ps (cartOf [line "p1" 1; line "p2" 1]))
  = 0.25%float
  /\ Cart.round2 0.125%float = 0.13%float.
Proof. vm_compute. split; reflexivity. Qed.

(* ================================================================= *)
(** ** Lines that resolve to no product *)

(** C10.  A line item whose product is neither in the live catalog nor
    cached on the line as a snapshot is left out by [getCartItems]: the rows,
    and with them every field of the summary (subtotal, item count, number
    of items), are those of the cart without that line.  The line is still
    in the stored cart, and a validation pass reports it as invalid and
    removes it. *)
Theorem unresolved_line_is_invisible :
  forall (products : list Product.t) (now : Z) (c : Cart.t)
         (l1 l2 : list CartItem.t) (x : CartItem.t),
    Cart.items c = l1 ++ x :: l2 ->
    ProductAPI.getProductById products (CartItem.id x) = None ->
    CartItem.product x = None ->
    let c0 := Cart.setItems (l1 ++ l2) c in
    Cart.getCartItems products c = Cart.getCartItems products c0
    /\ Cart.getCartSummary products c = Cart.getCartSummary products c0
    /\ (forall row, In row (Cart.getCartItems products c) -> CartRow.item row <> x)
    /\ In x (Cart.items c)
    /\ In (invalidEntry x)
         (Validation.invalidItems (fst (Cart.validateCart products now c)))
    /\ ~ In x (Cart.items (snd (Cart.validateCart products now c))).
Proof.
  intros products now c l1 l2 x Hitems Hlive Hsnap c0.
  assert (Hx : Cart.resolve products x = None).
  { unfold Cart.resolve. now rewrite Hlive, Hsnap. }
  assert (Hrows : Cart.getCartItems products c = Cart.getCartItems products c0).
  { unfold Cart.getCartItems, c0. cbn [Cart.items Cart.setItems].
    rewrite Hitems. fold (rowsOf products (l1 ++ x :: l2)).
    fold (rowsOf products (l1 ++ l2)).
    rewrite !rowsOf_app, rowsOf_cons. unfold Cart.pushRow. now rewrite Hx. }
  split; [exact Hrows|].
  split; [unfold Cart.getCartSummary; now rewrite Hrows|].
  split.
  { intros row Hrow Heq.
    apply (rowsOf_resolved products row (Cart.items c)) in Hrow as [_ Hres].
    rewrite Heq in Hres. congruence. }
  split; [rewrite Hitems; apply in_elt|].
  split.
  - rewrite validateCart_invalidItems. apply in_map, filter_In. split.
    + rewrite Hitems. apply in_elt.
    + unfold missing, liveProduct. now rewrite Hlive.
  - rewrite validateCart_items. intros Hin.
    apply in_map_iff in Hin as (y & Hy & Hin).
    apply filter_In in Hin as [_ Hkeep].
    pose proof (clamp_id products now y) as Hid. rewrite Hy in Hid.
    unfold keepable, liveProduct in Hkeep. rewrite <- Hid, Hlive in Hkeep.
    discriminate.
Qed.

Lemma unresolved_line_is_invisible_witness :
  Cart.getCartSummary [product "p1" 10%float 5]
    (cartOf [line "p1" 1; line "ghost" 3])
  = Cart.getCartSummary [product "p1" 10%float 5] (cartOf [line "p1" 1]).
Proof.
  exact (proj1 (proj2
    (unresolved_line_is_invisible [product "p1" 10%float 5] 0
       (cartOf [line "p1" 1; line "ghost" 3]) [line "p1" 1] [] (line "ghost" 3)
       eq_refl eq_refl eq_refl))).
Defined.

(* ================================================================= *)
(** ** Further facts about arrays of line items *)

Section LineFacts.
Context {A : Type}.

Lemma existsb_findIndex (p : A -> bool) (l : list A) :
  existsb p l = match JS.findIndex p l with Some _ => true | None => false end.
Proof.
  induction l as [|y l IH]; cbn; [reflexivity|].
  destruct (p y); cbn; [reflexivity|].
  rewrite IH. now destruct (JS.findIndex p l).
Qed.

Lemma find_update_at_first (p : A -> bool) (f : A -> A) (l : list A) (i : nat) :
  JS.findIndex p l = Some i -> (forall x, p (f x) = p x) ->
  find p (JS.update_at i f l) = option_map f (find p l).
Proof.
  intros Hi Hp. revert i Hi. induction l as [|y l IH]; intros i; cbn;
    [discriminate|].
  destruct (p y) eqn:Hy.
  - intros [= <-]. cbn. now rewrite Hp, Hy.
  - destruct (JS.findIndex p l) as [j|]; [|discriminate].
    intros [= <-]. cbn. rewrite Hy. now apply IH.
Qed.

Lemma find_update_at_other (p : A -> bool) (f : A -> A) (l : list A) (i : nat) :
  (forall x, nth_error l i = Some x -> p x = false /\ p (f x) = false) ->
  find p (JS.update_at i f l) = find p l.
Proof.
  revert i. induction l as [|y l IH]; intros [|i] H; cbn; try reflexivity.
  - destruct (H y eq_refl) as [-> ->]. reflexivity.
  - destruct (p y); [reflexivity|]. apply IH. intros x Hx. now apply H.
Qed.

Lemma find_remove_at_other (p : A -> bool) (l : list A) (i : nat) :
  (forall x, nth_error l i = Some x -> p x = false) ->
  find p (JS.remove_at i l) = find p l.
Proof.
  revert i. induction l as [|y l IH]; intros [|i] H; cbn; try reflexivity.
  - now rewrite (H y eq_refl).
  - destruct (p y); [reflexivity|]. apply IH. intros x Hx. now apply H.
Qed.

Lemma find_snoc (p : A -> bool) (l : list A) (x : A) :
  find p (l ++ [x])
  = match find p l with
    | Some y => Some y
    | None => if p x then Some x else None
    end.
Proof.
  induction l as [|y l IH]; cbn; [reflexivity|].
  destruct (p y); [reflexivity | exact IH].
Qed.

Lemma findIndex_snoc_fresh (p : A -> bool) (l : list A) (x : A) :
  JS.findIndex p l = None -> p x = true ->
  JS.findIndex p (l ++ [x]) = Some (List.length l).
Proof.
  intros Hl Hx. induction l as [|y l IH]; cbn in *; [now rewrite Hx|].
  destruct (p y); [discriminate|].
  destruct (JS.findIndex p l); [discriminate|]. now rewrite IH.
Qed.

Lemma remove_at_snoc (l : list A) (x : A) :
  JS.remove_at (List.length l) (l ++ [x]) = l.
Proof. induction l as [|y l IH]; cbn; [reflexivity | now rewrite IH]. Qed.

Lemma length_update_at (f : A -> A) (l : list A) (i : nat) :
  List.length (JS.update_at i f l) = List.length l.
Proof.
  revert i. induction l as [|y l IH]; intros [|i]; cbn; auto.
Qed.

Lemma length_remove_at (l : list A) (i : nat) (x : A) :
  nth_error l i = Some x ->
  S (List.length (JS.remove_at i l)) = List.length l.
Proof.
  revert i. induction l as [|y l IH]; intros [|i]; cbn; try discriminate.
  - reflexivity.
  - intros H. now rewrite (IH i H).
Qed.

Lemma findIndex_update_at (p : A -> bool) (f : A -> A) (l : list A) (i : nat) :
  (forall x, p (f x) = p x) ->
  JS.findIndex p (JS.update_at i f l) = JS.findIndex p l.
Proof.
  intros Hp. revert i. induction l as [|y l IH]; intros [|i]; cbn;
    rewrite ?Hp, ?IH; reflexivity.
Qed.

Lemma nth_error_update_at_same (f : A -> A) (l : list A) (i : nat) (x : A) :
  nth_error l i = Some x -> nth_error (JS.update_at i f l) i = Some (f x).
Proof.
  revert i. induction l as [|y l IH]; intros [|i]; cbn; try discriminate.
  - now intros [= ->].
  - apply IH.
Qed.

Lemma find_none_findIndex (p : A -> bool) (l : list A) :
  JS.findIndex p l = None -> find p l = None.
Proof. intros H. now rewrite find_findIndex, H. Qed.
End LineFacts.

Lemma find_remove_at_unique (k : string) (l : list CartItem.t) (i : nat) :
  JS.findIndex (Cart.hasId k) l = Some i -> NoDup (map CartItem.id l) ->
  find (Cart.hasId k) (JS.remove_at i l) = None.
Proof.
  revert i. induction l as [|y l IH]; intros i; cbn; [discriminate|].
  destruct (Cart.hasId k y) eqn:Hy.
  - intros [= <-] Hnd. cbn. apply NoDup_cons_iff in Hnd as [Hfresh _].
    destruct (find (Cart.hasId k) l) as [z|] eqn:Hz; [|reflexivity].
    apply find_some in Hz as [Hin Hk]. exfalso. apply Hfresh.
    apply String.eqb_eq in Hy, Hk. rewrite Hy, <- Hk. now apply in_map.
  - destruct (JS.findIndex (Cart.hasId k) l) as [j|]; [|discriminate].
    intros [= <-] Hnd. cbn. rewrite Hy.
    apply NoDup_cons_iff in Hnd as [_ Hnd]. now apply IH.
Qed.

Lemma totalQuantity_fold (l : list CartItem.t) (a : Z) :
  fold_left (fun sum item => sum + CartItem.quantity item) l a
  = a + totalQuantity l.
Proof.
  unfold totalQuantity. revert a.
  induction l as [|y l IH]; intros a; cbn [fold_left fold_right]; [lia|].
  rewrite IH. lia.
Qed.

Lemma getItemCount_total (c : Cart.t) :
  Cart.getItemCount c = totalQuantity (Cart.items c).
Proof. unfold Cart.getItemCount. now rewrite totalQuantity_fold. Qed.

Lemma totalQuantity_update_at (f : CartItem.t -> CartItem.t)
      (l : list CartItem.t) (i : nat) (x : CartItem.t) :
  nth_error l i = Some x ->
  totalQuantity (JS.update_at i f l)
  = totalQuantity l - CartItem.quantity x + CartItem.quantity (f x).
Proof.
  unfold totalQuantity. revert i.
  induction l as [|y l IH]; intros [|i]; cbn [JS.update_at JS.remove_at nth_error fold_right];
    try discriminate.
  - intros [= ->]. lia.
  - intros H. rewrite (IH i H). lia.
Qed.

Lemma totalQuantity_remove_at (l : list CartItem.t) (i : nat) (x : CartItem.t) :
  nth_error l i = Some x ->
  totalQuantity (JS.remove_at i l) = totalQuantity l - CartItem.quantity x.
Proof.
  unfold totalQuantity. revert i.
  induction l as [|y l IH]; intros [|i]; cbn [JS.update_at JS.remove_at nth_error fold_right];
    try discriminate.
  - intros [= ->]. lia.
  - intros H. rewrite (IH i H). lia.
Qed.

Lemma totalQuantity_snoc (l : list CartItem.t) (x : CartItem.t) :
  totalQuantity (l ++ [x]) = totalQuantity l + CartItem.quantity x.
Proof.
  unfold totalQuantity.
  induction l as [|y l IH]; cbn [app fold_right]; [lia | rewrite IH; lia].
Qed.

Lemma getItemQuantity_stored (c : Cart.t) (productId : string) :
  Cart.getItemQuantity c productId
  = match storedQuantity (Cart.items c) productId with
    | Some q => q
    | None => 0
    end.
Proof.
  unfold Cart.getItemQuantity, storedQuantity.
  now destruct (find (Cart.hasId productId) (Cart.items c)).
Qed.

Lemma hasItem_findIndex (c : Cart.t) (productId : string) :
  Cart.hasItem c productId
  = match JS.findIndex (Cart.hasId productId) (Cart.items c) with
    | Some _ => true
    | None => false
    end.
Proof. apply existsb_findIndex. Qed.

Lemma hasItem_stored (c : Cart.t) (productId : string) :
  Cart.hasItem c productId
  = match storedQuantity (Cart.items c) productId with
    | Some _ => true
    | None => false
    end.
Proof.
  rewrite hasItem_findIndex. unfold storedQuantity. rewrite find_findIndex.
  destruct (JS.findIndex (Cart.hasId productId) (Cart.items c)) as [i|] eqn:Hi;
    [|reflexivity].
  destruct (findIndex_Some _ _ _ Hi) as (x & -> & _). reflexivity.
Qed.

Lemma hasId_other (k productId : string) (x : CartItem.t) :
  k <> productId -> CartItem.id x = productId -> Cart.hasId k x = false.
Proof. intros Hk Hx. apply String.eqb_neq. congruence. Qed.

(* ================================================================= *)
(** ** Adding, removing and updating lines *)

(** What a completed [addItem] has checked and done. *)
Lemma addItem_Returned (products : list Product.t) (now : Z)
      (productId : string) (quantity : option Z) (c c' : Cart.t) (r : bool) :
  Cart.addItem products now productId quantity c = Cart.Returned r c' ->
  let q := match quantity with Some q => q | None => 1 end in
  let sum := Cart.getItemQuantity c productId + q in
  r = true /\ productId <> "" /\ 1 <= q
  /\ exists p,
       ProductAPI.getProductById products productId = Some p
       /\ Product.inStock p = true
       /\ sum <= Product.stock p /\ sum <= Cart.MAX_QUANTITY
       /\ c' = Cart.notifyListeners (Cart.Add productId q p)
                 (Cart.saveToStorage now
                    (Cart.setItems
                       match JS.findIndex (Cart.hasId productId) (Cart.items c) with
                       | Some i =>
                           JS.update_at i (CartItem.setQuantity sum now) (Cart.items c)
                       | None =>
                           Cart.items c
                           ++ [CartItem.mk (Product.id p) q now now
                                 (Some (Cart.snapshotOf p))]
                       end c)).
Proof.
  unfold Cart.addItem. cbv zeta.
  set (q := match quantity with Some q => q | None => 1 end).
  destruct (String.eqb_spec productId "") as [|Hid]; [discriminate|].
  destruct (Z.ltb_spec q 1) as [|Hq]; [discriminate|]. cbn [orb].
  destruct (ProductAPI.getProductById products productId) as [p|] eqn:Hp;
    [|discriminate].
  destruct (Product.inStock p) eqn:Hin; [|discriminate]. cbn [negb].
  destruct (Z.ltb_spec (Product.stock p) (Cart.getItemQuantity c productId + q))
    as [|Hstock]; [discriminate|].
  destruct (Z.ltb_spec Cart.MAX_QUANTITY (Cart.getItemQuantity c productId + q))
    as [|Hmax]; [discriminate|].
  intros [= <- <-]. repeat split; try assumption.
  exists p. repeat split; assumption.
Qed.

(** X1.  For quantities that are integers, stored and requested: a
    completed [addItem] returns true and raises the quantity stored for the
    product by exactly the requested amount (1 when none is given), which
    is at least 1; the quantities of all other products are as before; the
    item count grows by that amount; the cart has one more line only when
    the product was not in it; the result is within the stock of the live
    product and within 10; and the new state is what storage holds. *)
Theorem addItem_adds :
  forall (products : list Product.t) (now : Z) (productId : string)
         (quantity : option Z) (c c' : Cart.t) (r : bool),
    Cart.addItem products now productId quantity c = Cart.Returned r c' ->
    let q := match quantity with Some q => q | None => 1 end in
    r = true /\ 1 <= q
    /\ Cart.getItemQuantity c' productId = Cart.getItemQuantity c productId + q
    /\ (forall other, other <> productId ->
          storedQuantity (Cart.items c') other = storedQuantity (Cart.items c) other)
    /\ Cart.getItemCount c' = Cart.getItemCount c + q
    /\ Cart.hasItem c' productId = true
    /\ List.length (Cart.items c')
       = (List.length (Cart.items c)
          + if Cart.hasItem c productId then 0 else 1)%nat
    /\ (exists p, ProductAPI.getProductById products productId = Some p
                  /\ Cart.getItemQuantity c' productId <= Product.stock p)
    /\ Cart.getItemQuantity c' productId <= Cart.MAX_QUANTITY
    /\ persisted now c'.
Proof.
  intros products now productId quantity c c' r Hadd q.
  destruct (addItem_Returned _ _ _ _ _ _ _ Hadd)
    as (Hr & Hid & Hq & p & Hp & Hin & Hstock & Hmax & Hc').
  fold q in Hstock, Hmax, Hc'.
  pose proof (getProductById_id _ _ _ Hp) as Hpid.
  assert (Hitems : Cart.items c'
            = match JS.findIndex (Cart.hasId productId) (Cart.items c) with
              | Some i =>
                  JS.update_at i
                    (CartItem.setQuantity (Cart.getItemQuantity c productId + q) now)
                    (Cart.items c)
              | None =>
                  Cart.items c
                  ++ [CartItem.mk (Product.id p) q now now (Some (Cart.snapshotOf p))]
              end) by (rewrite Hc'; reflexivity).
  assert (Hsaved : persisted now c') by (rewrite Hc'; reflexivity).
  assert (Hqty : storedQuantity (Cart.items c') productId
                 = Some (Cart.getItemQuantity c productId + q)
                 /\ (forall other, other <> productId ->
                       storedQuantity (Cart.items c') other
                       = storedQuantity (Cart.items c) other)
                 /\ Cart.getItemCount c' = Cart.getItemCount c + q
                 /\ List.length (Cart.items c')
                    = (List.length (Cart.items c)
                       + if Cart.hasItem c productId then 0 else 1)%nat).
  { rewrite !getItemCount_total, (hasItem_findIndex c), Hitems.
    destruct (JS.findIndex (Cart.hasId productId) (Cart.items c)) as [i|] eqn:Hi.
    - destruct (findIndex_Some _ _ _ Hi) as (x & Hx & Hidx).
      pose proof (getItemQuantity_found c productId i x Hi Hx) as Hcur.
      apply hasId_true in Hidx. unfold storedQuantity.
      rewrite find_update_at_first by (assumption || reflexivity).
      rewrite find_findIndex, Hi, Hx.
      split; [reflexivity|]. split; [|split].
      + intros other Hother. rewrite find_update_at_other; [reflexivity|].
        intros y Hy. assert (y = x) by congruence. subst y.
        split; now apply (hasId_other other productId).
      + rewrite (totalQuantity_update_at _ _ i x Hx). cbn. lia.
      + rewrite length_update_at. lia.
    - pose proof (getItemQuantity_absent c productId Hi) as Hcur.
      set (new := CartItem.mk (Product.id p) q now now (Some (Cart.snapshotOf p))).
      assert (Hnewid : CartItem.id new = productId) by exact Hpid.
      unfold storedQuantity. rewrite find_snoc.
      rewrite (find_none_findIndex _ _ Hi).
      rewrite (proj2 (hasId_true productId new) Hnewid).
      cbn [option_map]. split; [cbn; f_equal; lia|].
      split; [|split].
      + intros other Hother. rewrite find_snoc.
        destruct (find (Cart.hasId other) (Cart.items c)); [reflexivity|].
        now rewrite (hasId_other other productId new).
      + rewrite totalQuantity_snoc. cbn. lia.
      + rewrite length_app. cbn. lia. }
  destruct Hqty as (Hone & Hothers & Hcount & Hlen).
  assert (Hnew : Cart.getItemQuantity c' productId
                 = Cart.getItemQuantity c productId + q)
    by (now rewrite (getItemQuantity_stored c'), Hone).
  split; [exact Hr|]. split; [exact Hq|]. split; [exact Hnew|].
  split; [exact Hothers|]. split; [exact Hcount|].
  split; [now rewrite hasItem_stored, Hone|].
  split; [exact Hlen|].
  split; [exists p; split; [exact Hp | lia]|].
  split; [lia | exact Hsaved].
Qed.

Lemma addItem_adds_witness :
  let ps := [product "p1" 10%float 5] in
  Cart.getItemQuantity
    (cartAfter (Cart.addItem ps 7 "p1" (Some 2) (cartOf [line "p2" 1; line "p1" 3])))
    "p1" = 5.
Proof.
  cbv zeta.
  exact (proj1 (proj2 (proj2
    (addItem_adds [product "p1" 10%float 5] 7 "p1" (Some 2)
       (cartOf [line "p2" 1; line "p1" 3]) _ true eq_refl)))).
Defined.

(** What [removeItem] does to a cart that has the product. *)
Lemma removeItem_found (now : Z) (productId : string) (quantity : option Z)
      (c : Cart.t) (i : nat) (x : CartItem.t) :
  JS.findIndex (Cart.hasId productId) (Cart.items c) = Some i ->
  nth_error (Cart.items c) i = Some x ->
  Cart.removeItem now productId quantity c
  = (true,
     if removesWhole quantity (CartItem.quantity x) then
       Cart.notifyListeners (Cart.Remove productId x)
         (Cart.saveToStorage now (Cart.setItems (JS.remove_at i (Cart.items c)) c))
     else
       let left :=
         CartItem.quantity x - match quantity with Some q => q | None => 0 end in
       Cart.notifyListeners (Cart.Update productId left)
         (Cart.saveToStorage now
            (Cart.setItems
               (JS.update_at i (CartItem.setQuantity left now) (Cart.items c)) c))).
Proof.
  intros Hi Hx. unfold Cart.removeItem, removesWhole. rewrite Hi, Hx.
  destruct quantity as [q|]; [|reflexivity].
  now destruct (CartItem.quantity x <=? q).
Qed.

(** X2.  [removeItem] on a product the cart does not have returns false and
    changes nothing: no write, no event.  On a product it has, it returns
    true, saves the cart and leaves the quantities of all other products as
    they were.  With no quantity, or one that is at least the stored
    quantity, the first line of the product is deleted, and with unique
    product ids the product is gone; with a smaller quantity [q] the stored
    quantity becomes the old one minus [q] and no line is deleted (so a
    negative [q] raises the quantity). *)
Theorem removeItem_removes :
  forall (now : Z) (productId : string) (quantity : option Z) (c : Cart.t),
    let r := Cart.removeItem now productId quantity c in
    let stored := Cart.getItemQuantity c productId in
    (Cart.hasItem c productId = false -> r = (false, c))
    /\ (Cart.hasItem c productId = true ->
        fst r = true
        /\ persisted now (snd r)
        /\ (forall other, other <> productId ->
              storedQuantity (Cart.items (snd r)) other
              = storedQuantity (Cart.items c) other)
        /\ (removesWhole quantity stored = true ->
            S (List.length (Cart.items (snd r))) = List.length (Cart.items c)
            /\ Cart.getItemCount (snd r) = Cart.getItemCount c - stored
            /\ (NoDup (map CartItem.id (Cart.items c)) ->
                Cart.hasItem (snd r) productId = false))
        /\ (forall q, quantity = Some q -> q < stored ->
            Cart.getItemQuantity (snd r) productId = stored - q
            /\ List.length (Cart.items (snd r)) = List.length (Cart.items c)
            /\ Cart.getItemCount (snd r) = Cart.getItemCount c - q)).
Proof.
  intros now productId quantity c r stored. split.
  - rewrite hasItem_findIndex. unfold r, Cart.removeItem.
    now destruct (JS.findIndex (Cart.hasId productId) (Cart.items c)).
  - rewrite hasItem_findIndex.
    destruct (JS.findIndex (Cart.hasId productId) (Cart.items c)) as [i|] eqn:Hi;
      [intros _|discriminate].
    destruct (findIndex_Some _ _ _ Hi) as (x & Hx & Hidx).
    apply hasId_true in Hidx.
    assert (Hstored : stored = CartItem.quantity x)
      by (apply (getItemQuantity_found c productId i x Hi Hx)).
    assert (Hr : r = _) by (apply (removeItem_found now productId quantity c i x Hi Hx)).
    rewrite <- Hstored in Hr.
    split; [now rewrite Hr|]. split; [|split; [|split]].
    + rewrite Hr. cbn [snd]. now destruct (removesWhole quantity stored).
    + intros other Hother. rewrite Hr. cbn [snd].
      destruct (removesWhole quantity stored); cbn; unfold storedQuantity.
      * rewrite find_remove_at_other; [reflexivity|].
        intros y Hy. assert (y = x) by congruence. subst y.
        now apply (hasId_other other productId).
      * rewrite find_update_at_other; [reflexivity|].
        intros y Hy. assert (y = x) by congruence. subst y.
        split; now apply (hasId_other other productId).
    + intros Hwhole. rewrite Hr, Hwhole. cbn [snd].
      rewrite !getItemCount_total. cbn [Cart.items Cart.notifyListeners
        Cart.saveToStorage Cart.setItems].
      split; [apply (length_remove_at _ _ x Hx)|].
      split; [rewrite (totalQuantity_remove_at _ i x Hx); lia|].
      intros Hnd. rewrite hasItem_stored.
      cbn [Cart.items Cart.notifyListeners Cart.saveToStorage Cart.setItems].
      unfold storedQuantity.
      now rewrite (find_remove_at_unique productId _ i Hi Hnd).
    + intros q -> Hlt.
      assert (Hpart : removesWhole (Some q) stored = false)
        by (cbn; lia).
      rewrite Hr, Hpart. cbn [snd]. rewrite !getItemCount_total.
      rewrite getItemQuantity_stored.
      cbn [Cart.items Cart.notifyListeners Cart.saveToStorage Cart.setItems].
      unfold storedQuantity.
      rewrite find_update_at_first by (assumption || reflexivity).
      rewrite find_findIndex, Hi, Hx. cbn [option_map CartItem.setQuantity CartItem.quantity].
      split; [reflexivity|]. split; [apply length_update_at|].
      rewrite (totalQuantity_update_at _ _ i x Hx). cbn. lia.
Qed.

Lemma removeItem_removes_witness :
  Cart.getItemQuantity
    (snd (Cart.removeItem 3 "p1" (Some 2) (cartOf [line "p1" 5; line "p2" 1])))
    "p1" = 3.
Proof.
  exact (proj1 (proj2 (proj2 (proj2 (proj2 (proj2
    (removeItem_removes 3 "p1" (Some 2) (cartOf [line "p1" 5; line "p2" 1]))
    eq_refl)))) 2 eq_refl eq_refl)).
Defined.

Example removeItem_negative_quantity :
  Cart.getItemQuantity
    (snd (Cart.removeItem 3 "p1" (Some (-4)) (cartOf [line "p1" 9])))
    "p1" = 13.
Proof. reflexivity. Qed.

(** X3.  [updateItemQuantity] checks, in this order: the input (an empty
    product id or a negative quantity), the fixed maximum of 10, the
    presence of the product in the cart, and the stock of the live product
    when the catalog has it; a failing check throws and leaves the cart as
    it was.  When all pass, quantity 0 does what [removeItem] without a
    quantity does, and a quantity of at least 1 becomes the stored quantity
    of the product, the other products and the number of lines staying as
    they were, and the cart is saved.  A product the catalog no longer has
    gets no stock check. *)
Theorem updateItemQuantity_outcomes :
  forall (products : list Product.t) (now : Z) (productId : string) (q : Z)
         (c : Cart.t),
    let r := Cart.updateItemQuantity products now productId q c in
    let withinStock :=
      forall p, ProductAPI.getProductById products productId = Some p ->
                q <= Product.stock p in
    (forall e, thrown r = Some e -> cartAfter r = c)
    /\ (productId = "" \/ q < 0 -> r = Cart.Thrown Cart.InvalidInputError c)
    /\ (productId <> "" -> 0 <= q ->
        (Cart.MAX_QUANTITY < q -> r = Cart.Thrown Cart.QuantityLimitError c)
        /\ (q <= Cart.MAX_QUANTITY -> Cart.hasItem c productId = false ->
            r = Cart.Thrown Cart.ItemNotFoundError c)
        /\ (q <= Cart.MAX_QUANTITY -> Cart.hasItem c productId = true ->
            (forall p, ProductAPI.getProductById products productId = Some p ->
                       Product.stock p < q ->
                       r = Cart.Thrown (Cart.StockExceededError (Product.stock p)) c)
            /\ (withinStock -> q = 0 ->
                r = Cart.Returned true (snd (Cart.removeItem now productId None c)))
            /\ (withinStock -> 1 <= q ->
                thrown r = None
                /\ Cart.getItemQuantity (cartAfter r) productId = q
                /\ (forall other, other <> productId ->
                      storedQuantity (Cart.items (cartAfter r)) other
                      = storedQuantity (Cart.items c) other)
                /\ List.length (Cart.items (cartAfter r)) = List.length (Cart.items c)
                /\ persisted now (cartAfter r)))).
Proof.
  intros products now productId q c r withinStock.
  split; [|split].
  - intros e He. unfold r, Cart.updateItemQuantity in *.
    destruct (String.eqb productId "" || (q <? 0)); [reflexivity|].
    destruct (Cart.MAX_QUANTITY <? q); [reflexivity|].
    destruct (JS.findIndex (Cart.hasId productId) (Cart.items c)); [|reflexivity].
    destruct (ProductAPI.getProductById products productId) as [p|];
      [destruct (Product.stock p <? q); [reflexivity|]|];
      (destruct (q =? 0);
       [destruct (Cart.removeItem now productId None c)|]; discriminate).
  - intros Hbad. unfold r, Cart.updateItemQuantity.
    destruct Hbad as [-> | Hq]; [reflexivity|].
    destruct (String.eqb productId ""); [reflexivity|].
    destruct (Z.ltb_spec q 0); [reflexivity | lia].
  - intros Hid Hq.
    assert (Hguard : String.eqb productId "" || (q <? 0) = false).
    { apply orb_false_iff. split; [now apply String.eqb_neq | lia]. }
    split; [|split].
    + intros Hmax. unfold r, Cart.updateItemQuantity. rewrite Hguard.
      destruct (Z.ltb_spec Cart.MAX_QUANTITY q); [reflexivity | lia].
    + intros Hmax Habs. rewrite hasItem_findIndex in Habs.
      unfold r, Cart.updateItemQuantity. rewrite Hguard.
      destruct (Z.ltb_spec Cart.MAX_QUANTITY q); [lia|].
      now destruct (JS.findIndex (Cart.hasId productId) (Cart.items c)).
    + intros Hmax Hhas. rewrite hasItem_findIndex in Hhas.
      destruct (JS.findIndex (Cart.hasId productId) (Cart.items c)) as [i|] eqn:Hi;
        [|discriminate].
      destruct (findIndex_Some _ _ _ Hi) as (x & Hx & Hidx).
      apply hasId_true in Hidx.
      assert (Hmaxb : (Cart.MAX_QUANTITY <? q) = false) by (apply Z.ltb_ge; lia).
      assert (Hok : withinStock ->
                match ProductAPI.getProductById products productId with
                | Some product =>
                    if Product.stock product <? q
                    then Some (Product.stock product) else None
                | None => None
                end = None).
      { intros Hw. destruct (ProductAPI.getProductById products productId) as [p|];
          [|reflexivity].
        specialize (Hw p eq_refl).
        destruct (Z.ltb_spec (Product.stock p) q); [lia | reflexivity]. }
      split; [|split].
      * intros p Hp Hover. unfold r, Cart.updateItemQuantity.
        rewrite Hguard, Hmaxb, Hi, Hp.
        destruct (Z.ltb_spec (Product.stock p) q); [reflexivity | lia].
      * intros Hw ->. unfold r, Cart.updateItemQuantity.
        rewrite Hguard, Hmaxb, Hi, (Hok Hw). cbn [Z.eqb].
        rewrite (removeItem_found now productId None c i x Hi Hx). reflexivity.
      * intros Hw Hpos. unfold r, Cart.updateItemQuantity.
        rewrite Hguard, Hmaxb, Hi, (Hok Hw).
        destruct (Z.eqb_spec q 0); [lia|].
        cbn [thrown cartAfter]. split; [reflexivity|].
        rewrite getItemQuantity_stored.
        cbn [Cart.items Cart.notifyListeners Cart.saveToStorage Cart.setItems].
        unfold storedQuantity.
        rewrite find_update_at_first by (assumption || reflexivity).
        rewrite find_findIndex, Hi, Hx. split; [reflexivity|].
        split; [|split; [apply length_update_at | reflexivity]].
        intros other Hother. rewrite find_update_at_other; [reflexivity|].
        intros y Hy. assert (y = x) by congruence. subst y.
        split; now apply (hasId_other other productId).
Qed.

Lemma updateItemQuantity_outcomes_witness :
  let ps := [product "p1" 10%float 5] in
  Cart.getItemQuantity
    (cartAfter (Cart.updateItemQuantity ps 3 "p1" 4 (cartOf [line "p1" 1])))
    "p1" = 4.
Proof.
  cbv zeta.
  refine (proj1 (proj2 (proj2 (proj2 (proj2 (proj2
    (proj2 (proj2
       (updateItemQuantity_outcomes [product "p1" 10%float 5] 3 "p1" 4
          (cartOf [line "p1" 1]))) _ _)) _ eq_refl)) _ _))).
  - discriminate.
  - lia.
  - unfold Cart.MAX_QUANTITY. lia.
  - cbn. intros p [= <-]. cbn. lia.
  - lia.
Defined.

Example updateItemQuantity_checks_limit_first :
  Cart.updateItemQuantity [] 0 "ghost" 11 (cartOf [])
  = Cart.Thrown Cart.QuantityLimitError (cartOf [])
  /\ Cart.updateItemQuantity [] 0 "ghost" 3 (cartOf [])
     = Cart.Thrown Cart.ItemNotFoundError (cartOf [])
  /\ cartAfter (Cart.updateItemQuantity [] 0 "gone" 9 (cartOf [line "gone" 1]))
     = Cart.mk [CartItem.mk "gone" 9 0 0 None]
         (Cart.Json (Cart.Data (Some [CartItem.mk "gone" 9 0 0 None]) (Some 0)))
         [Cart.Update "gone" 9].
Proof. repeat split. Qed.

(** X4.  Adding a product the cart does not have and then removing it gives
    back the line items the cart had.  Adding [q] more of a product the
    cart has (with a positive quantity) and then removing [q] gives back its
    stored quantity. *)
Theorem addItem_then_removeItem :
  forall (products : list Product.t) (now now' : Z) (productId : string)
         (quantity : option Z) (c c' : Cart.t) (r : bool),
    Cart.addItem products now productId quantity c = Cart.Returned r c' ->
    let q := match quantity with Some q => q | None => 1 end in
    (Cart.hasItem c productId = false ->
     Cart.removeItem now' productId None c'
     = (true,
        Cart.notifyListeners
          (Cart.Remove productId
             (CartItem.mk productId q now now
                (option_map Cart.snapshotOf
                   (ProductAPI.getProductById products productId))))
          (Cart.saveToStorage now' (Cart.setItems (Cart.items c) c')))
     /\ Cart.items (snd (Cart.removeItem now' productId None c')) = Cart.items c)
    /\ (1 <= Cart.getItemQuantity c productId ->
        let c'' := snd (Cart.removeItem now' productId (Some q) c') in
        Cart.getItemQuantity c'' productId = Cart.getItemQuantity c productId
        /\ map CartItem.id (Cart.items c'') = map CartItem.id (Cart.items c)
        /\ Cart.getItemCount c'' = Cart.getItemCount c).
Proof.
  intros products now now' productId quantity c c' r Hadd q.
  destruct (addItem_Returned _ _ _ _ _ _ _ Hadd)
    as (Hr & Hid & Hq & p & Hp & Hin & Hstock & Hmax & Hc').
  fold q in Hstock, Hmax, Hc'.
  pose proof (getProductById_id _ _ _ Hp) as Hpid.
  split.
  - intros Habs. rewrite hasItem_findIndex in Habs.
    destruct (JS.findIndex (Cart.hasId productId) (Cart.items c)) as [i|] eqn:Hi;
      [discriminate|].
    set (new := CartItem.mk (Product.id p) q now now (Some (Cart.snapshotOf p))) in *.
    assert (Hnewid : Cart.hasId productId new = true)
      by (apply hasId_true; exact Hpid).
    assert (Hitems : Cart.items c' = Cart.items c ++ [new])
      by (rewrite Hc'; reflexivity).
    assert (Hfound : JS.findIndex (Cart.hasId productId) (Cart.items c')
                     = Some (List.length (Cart.items c)))
      by (rewrite Hitems; now apply findIndex_snoc_fresh).
    assert (Hnth : nth_error (Cart.items c') (List.length (Cart.items c)) = Some new).
    { rewrite Hitems, nth_error_app2 by lia. now rewrite Nat.sub_diag. }
    rewrite (removeItem_found now' productId None c' _ new Hfound Hnth).
    cbn [removesWhole snd]. rewrite Hitems at 1 2. rewrite remove_at_snoc.
    rewrite Hp. cbn [option_map]. unfold new. rewrite Hpid.
    split; reflexivity.
  - intros Hpos c''.
    assert (Hstill : JS.findIndex (Cart.hasId productId) (Cart.items c) <> None).
    { intros Hnone. rewrite (getItemQuantity_absent c productId Hnone) in Hpos. lia. }
    destruct (JS.findIndex (Cart.hasId productId) (Cart.items c)) as [i|] eqn:Hi;
      [clear Hstill|congruence].
    destruct (findIndex_Some _ _ _ Hi) as (x & Hx & _).
    pose proof (getItemQuantity_found c productId i x Hi Hx) as Hcur.
    set (more := CartItem.setQuantity (Cart.getItemQuantity c productId + q) now) in *.
    assert (Hitems : Cart.items c' = JS.update_at i more (Cart.items c))
      by (rewrite Hc'; reflexivity).
    assert (Hj : JS.findIndex (Cart.hasId productId) (Cart.items c') = Some i)
      by (rewrite Hitems, findIndex_update_at by reflexivity; exact Hi).
    assert (Hy : nth_error (Cart.items c') i = Some (more x))
      by (rewrite Hitems; now apply nth_error_update_at_same).
    unfold c''. rewrite (removeItem_found now' productId (Some q) c' i _ Hj Hy).
    assert (Hpart : removesWhole (Some q) (CartItem.quantity (more x)) = false)
      by (cbn; lia).
    rewrite Hpart. cbn [snd]. rewrite !getItemCount_total, getItemQuantity_stored.
    cbn [Cart.items Cart.notifyListeners Cart.saveToStorage Cart.setItems].
    unfold storedQuantity.
    rewrite find_update_at_first by (assumption || reflexivity).
    rewrite find_findIndex, Hj, Hy.
    rewrite (totalQuantity_update_at _ _ i _ Hy), map_update_at by reflexivity.
    rewrite Hitems, (totalQuantity_update_at _ _ i x Hx), map_update_at by reflexivity.
    cbn. repeat split; lia.
Qed.

Lemma addItem_then_removeItem_witness :
  let ps := [product "p1" 10%float 5] in
  Cart.items
    (snd (Cart.removeItem 9 "p1" None
            (cartAfter (Cart.addItem ps 7 "p1" (Some 2) (cartOf [line "p2" 1])))))
  = [line "p2" 1].
Proof.
  cbv zeta.
  exact (proj2 (proj1
    (addItem_then_removeItem [product "p1" 10%float 5] 7 9 "p1" (Some 2)
       (cartOf [line "p2" 1]) _ true eq_refl) eq_refl)).
Defined.

(** X5.  On a cart that satisfies the invariant of the line items, the
    readers agree with one another: the cart is empty exactly when its item
    count is 0; it has a product exactly when the quantity read for that
    product is at least 1; and the item count lies between the number of
    lines and ten times that number. *)
Theorem readers_agree :
  forall (products : list Product.t) (c : Cart.t) (productId : string),
    cartOk products (Cart.items c) ->
    (Cart.isEmpty c = true <-> Cart.getItemCount c = 0)
    /\ (Cart.hasItem c productId = true <-> 1 <= Cart.getItemQuantity c productId)
    /\ Z.of_nat (List.length (Cart.items c)) <= Cart.getItemCount c
       <= Cart.MAX_QUANTITY * Z.of_nat (List.length (Cart.items c)).
Proof.
  intros products c productId [Hall _].
  assert (Hbounds : Z.of_nat (List.length (Cart.items c)) <= Cart.getItemCount c
                    <= Cart.MAX_QUANTITY * Z.of_nat (List.length (Cart.items c))).
  { rewrite getItemCount_total. unfold totalQuantity.
    induction Hall as [|x l [[Hlo Hhi] _] _ IH]; cbn [fold_right List.length].
    - unfold Cart.MAX_QUANTITY. lia.
    - unfold Cart.MAX_QUANTITY in *. lia. }
  split; [|split; [|exact Hbounds]].
  - unfold Cart.isEmpty. rewrite Nat.eqb_eq. unfold Cart.MAX_QUANTITY in Hbounds.
    split; intros H; [rewrite H in Hbounds; cbn in Hbounds|]; lia.
  - rewrite hasItem_stored, getItemQuantity_stored. unfold storedQuantity.
    destruct (find (Cart.hasId productId) (Cart.items c)) as [x|] eqn:Hx; cbn.
    + apply find_some in Hx as [Hin _]. rewrite Forall_forall in Hall.
      destruct (Hall x Hin) as [[Hlo _] _]. split; [intros _; lia | reflexivity].
    + split; [discriminate | lia].
Qed.

Lemma readers_agree_witness :
  Cart.hasItem (cartOf [line "p1" 2]) "p1" = true
  <-> 1 <= Cart.getItemQuantity (cartOf [line "p1" 2]) "p1".
Proof.
  refine (proj1 (proj2 (readers_agree [] (cartOf [line "p1" 2]) "p1" _))).
  split.
  - constructor; [|constructor]. split.
    + unfold Cart.MAX_QUANTITY. cbn. lia.
    + cbn. discriminate.
  - repeat constructor. cbn. tauto.
Defined.

Example zero_quantity_line_breaks_the_readers :
  Cart.isEmpty (cartOf [line "p1" 0]) = false
  /\ Cart.getItemCount (cartOf [line "p1" 0]) = 0
  /\ Cart.hasItem (cartOf [line "p1" 0]) "p1" = true
  /\ Cart.getItemQuantity (cartOf [line "p1" 0]) "p1" = 0.
Proof. repeat split. Qed.

(* ================================================================= *)
(** ** Merging *)

Lemma findIndex_hasId_In (k : string) (l : list CartItem.t) :
  JS.findIndex (Cart.hasId k) l <> None <-> In k (map CartItem.id l).
Proof.
  split.
  - intros H. destruct (JS.findIndex (Cart.hasId k) l) as [i|] eqn:Hi;
      [|congruence].
    destruct (findIndex_Some _ _ _ Hi) as (x & Hx & Hid).
    apply hasId_true in Hid. rewrite <- Hid. apply in_map.
    eapply nth_error_In, Hx.
  - intros Hin Hnone. now apply (fresh_id k l Hnone).
Qed.

Lemma mergeItem_stored (now : Z) (l : list CartItem.t) (x : CartItem.t)
      (k : string) :
  storedQuantity (Cart.mergeItem now l x) k
  = if String.eqb (CartItem.id x) k
    then Some (mergedWith (storedQuantity l k) x)
    else storedQuantity l k.
Proof.
  unfold Cart.mergeItem, storedQuantity.
  destruct (JS.findIndex (Cart.hasId (CartItem.id x)) l) as [i|] eqn:Hi.
  - destruct (findIndex_Some _ _ _ Hi) as (y & Hy & Hid). apply hasId_true in Hid.
    destruct (String.eqb_spec (CartItem.id x) k) as [<- | Hk].
    + rewrite find_update_at_first by (assumption || reflexivity).
      rewrite find_findIndex, Hi, Hy. reflexivity.
    + rewrite find_update_at_other; [reflexivity|].
      intros z Hz. assert (z = y) by congruence. subst z.
      split; apply (hasId_other k (CartItem.id x)); cbn; congruence.
  - rewrite find_snoc.
    destruct (String.eqb_spec (CartItem.id x) k) as [<- | Hk].
    + rewrite (find_none_findIndex _ _ Hi).
      unfold Cart.hasId. cbn. now rewrite String.eqb_refl.
    + destruct (find (Cart.hasId k) l); [reflexivity|].
      rewrite (hasId_other k (CartItem.id x)); [reflexivity | congruence | reflexivity].
Qed.

Lemma mergeItem_ids (now : Z) (l : list CartItem.t) (x : CartItem.t) :
  map CartItem.id (Cart.mergeItem now l x)
  = map CartItem.id l
    ++ match JS.findIndex (Cart.hasId (CartItem.id x)) l with
       | Some _ => []
       | None => [CartItem.id x]
       end.
Proof.
  unfold Cart.mergeItem.
  destruct (JS.findIndex (Cart.hasId (CartItem.id x)) l).
  - rewrite map_update_at by reflexivity. now rewrite app_nil_r.
  - now rewrite map_app.
Qed.

Lemma merge_untouched (now : Z) (newItems l : list CartItem.t) (k : string) :
  ~ In k (map CartItem.id newItems) ->
  storedQuantity (fold_left (Cart.mergeItem now) newItems l) k = storedQuantity l k.
Proof.
  revert l. induction newItems as [|x newItems IH]; intros l Hk; [reflexivity|].
  cbn [fold_left]. rewrite IH by (intros H; apply Hk; now right).
  rewrite mergeItem_stored.
  destruct (String.eqb_spec (CartItem.id x) k) as [Heq|]; [|reflexivity].
  exfalso. apply Hk. now left.
Qed.

Lemma merge_never_lowers (now : Z) (newItems l : list CartItem.t) (k : string)
      (q : Z) :
  storedQuantity l k = Some q ->
  exists q', storedQuantity (fold_left (Cart.mergeItem now) newItems l) k = Some q'
             /\ q <= q'.
Proof.
  revert l q. induction newItems as [|x newItems IH]; intros l q Hq.
  - exists q. split; [assumption | lia].
  - cbn [fold_left].
    assert (Hstep : exists q1, storedQuantity (Cart.mergeItem now l x) k = Some q1
                               /\ q <= q1).
    { rewrite mergeItem_stored, Hq.
      destruct (String.eqb (CartItem.id x) k); eexists; split;
        try reflexivity; cbn; lia. }
    destruct Hstep as (q1 & Hq1 & Hle).
    destruct (IH _ _ Hq1) as (q' & Hq' & Hle'). exists q'. split; [assumption | lia].
Qed.

Lemma merge_ids (now : Z) (newItems l : list CartItem.t) :
  exists added,
    map CartItem.id (fold_left (Cart.mergeItem now) newItems l)
    = map CartItem.id l ++ added
    /\ NoDup added
    /\ forall k, In k added
                 <-> In k (map CartItem.id newItems) /\ ~ In k (map CartItem.id l).
Proof.
  revert l. induction newItems as [|x newItems IH]; intros l.
  - exists []. cbn. rewrite app_nil_r. repeat split; try constructor; tauto.
  - cbn [fold_left]. destruct (IH (Cart.mergeItem now l x)) as (added & Hids & Hnd & Hin).
    rewrite mergeItem_ids in Hids, Hin.
    pose proof (findIndex_hasId_In (CartItem.id x) l) as Hfound.
    destruct (JS.findIndex (Cart.hasId (CartItem.id x)) l) as [i|].
    + rewrite app_nil_r in Hids, Hin. exists added.
      split; [exact Hids|]. split; [exact Hnd|].
      intros k. rewrite Hin. cbn [map In]. split; [tauto|].
      intros [[<- | Hk] Hfresh]; [|tauto].
      exfalso. apply Hfresh, Hfound. discriminate.
    + exists (CartItem.id x :: added).
      split; [now rewrite Hids, <- app_assoc|]. split.
      * constructor; [|exact Hnd]. intros Hx. apply Hin in Hx as [_ Hx].
        apply Hx, in_or_app. right. now left.
      * intros k. cbn [map In]. rewrite Hin, in_app_iff. cbn [In].
        assert (Hx : ~ In (CartItem.id x) (map CartItem.id l))
          by (intros H; apply Hfound in H; congruence).
        destruct (string_dec (CartItem.id x) k) as [<- | Hne]; [tauto|]. tauto.
Qed.

Lemma existsb_eqb_In (k : string) (l : list string) :
  existsb (String.eqb k) l = true <-> In k l.
Proof.
  rewrite existsb_exists. split.
  - intros (x & Hx & Heq). apply String.eqb_eq in Heq. now subst.
  - intros H. exists k. split; [assumption | apply String.eqb_refl].
Qed.

Lemma merge_ids_in_order (now : Z) (newItems l : list CartItem.t) :
  map CartItem.id (fold_left (Cart.mergeItem now) newItems l)
  = map CartItem.id l ++ firstSeen (map CartItem.id l) (map CartItem.id newItems).
Proof.
  revert l. induction newItems as [|x newItems IH]; intros l.
  - cbn. now rewrite app_nil_r.
  - cbn [fold_left map firstSeen]. rewrite IH, mergeItem_ids.
    pose proof (findIndex_hasId_In (CartItem.id x) l) as Hfound.
    pose proof (existsb_eqb_In (CartItem.id x) (map CartItem.id l)) as Hex.
    destruct (JS.findIndex (Cart.hasId (CartItem.id x)) l) as [i|].
    + rewrite app_nil_r.
      assert (Hin : existsb (String.eqb (CartItem.id x)) (map CartItem.id l) = true).
      { apply Hex, Hfound. discriminate. }
      now rewrite Hin.
    + assert (Hout : existsb (String.eqb (CartItem.id x)) (map CartItem.id l) = false).
      { apply not_true_is_false. intros H. apply Hex, Hfound in H. congruence. }
      rewrite Hout. now rewrite <- app_assoc.
Qed.

(** X6.  [mergeCart] with an argument that is not an array changes nothing.
    With an array it saves the cart, keeps every local line in its place
    and appends one line per incoming product id the cart did not have, in
    the order in which these ids first occur among the incoming lines
    ([firstSeen]); it never removes a product and never lowers
    a quantity; a product that is not among the incoming lines keeps its
    quantity; and when the incoming lines have distinct product ids, each
    incoming product ends with the larger of the local and the incoming
    quantity, or with the incoming one when the cart did not have it. *)
Theorem mergeCart_merges :
  forall (now : Z) (c : Cart.t),
    Cart.mergeCart now None c = c
    /\ forall newItems,
         let c' := Cart.mergeCart now (Some newItems) c in
         persisted now c'
         /\ (exists added,
               map CartItem.id (Cart.items c') = map CartItem.id (Cart.items c) ++ added
               /\ added = firstSeen (map CartItem.id (Cart.items c))
                            (map CartItem.id newItems)
               /\ NoDup added
               /\ forall k, In k added
                            <-> In k (map CartItem.id newItems)
                                /\ ~ In k (map CartItem.id (Cart.items c)))
         /\ (forall k q, storedQuantity (Cart.items c) k = Some q ->
               exists q', storedQuantity (Cart.items c') k = Some q' /\ q <= q')
         /\ (forall k, ~ In k (map CartItem.id newItems) ->
               storedQuantity (Cart.items c') k = storedQuantity (Cart.items c) k)
         /\ (NoDup (map CartItem.id newItems) ->
             forall x, In x newItems ->
               storedQuantity (Cart.items c') (CartItem.id x)
               = Some (mergedWith (storedQuantity (Cart.items c) (CartItem.id x)) x)).
Proof.
  intros now c. split; [reflexivity|].
  intros newItems c'.
  assert (Hitems : Cart.items c' = fold_left (Cart.mergeItem now) newItems (Cart.items c))
    by reflexivity.
  split; [reflexivity|]. rewrite Hitems.
  split.
  { destruct (merge_ids now newItems (Cart.items c)) as (added & Hids & Hnd & Hin).
    exists added. split; [exact Hids|]. split; [|split; assumption].
    rewrite merge_ids_in_order in Hids. now apply app_inv_head in Hids. }
  split; [intros k q; apply merge_never_lowers|].
  split; [intros k; apply merge_untouched|].
  intros Hnd x Hx. apply in_split in Hx as (l1 & l2 & ->).
  rewrite map_app in Hnd. cbn [map] in Hnd.
  pose proof (NoDup_remove_2 _ _ _ Hnd) as Hfresh.
  rewrite fold_left_app. cbn [fold_left].
  rewrite merge_untouched
    by (intros H; apply Hfresh, in_or_app; now right).
  rewrite mergeItem_stored, String.eqb_refl.
  rewrite merge_untouched
    by (intros H; apply Hfresh, in_or_app; now left).
  reflexivity.
Qed.

(** The lines appended come in the order in which their product first
    occurs among the incoming lines. *)
Example mergeCart_appends_in_order :
  map (fun item => (CartItem.id item, CartItem.quantity item))
    (Cart.items
       (Cart.mergeCart 0
          (Some [line "p3" 1; line "p1" 5; line "p3" 4; line "p2" 2])
          (cartOf [line "p1" 2])))
  = [("p1", 5); ("p3", 4); ("p2", 2)]
  /\ firstSeen ["p1"] ["p3"; "p1"; "p3"; "p2"] = ["p3"; "p2"].
Proof. split; reflexivity. Qed.

Lemma mergeCart_merges_witness :
  storedQuantity
    (Cart.items (Cart.mergeCart 0 (Some [line "p1" 5; line "p2" 1])
                   (cartOf [line "p1" 2])))
    "p1" = Some 5.
Proof.
  refine (proj2 (proj2 (proj2 (proj2
    (proj2 (mergeCart_merges 0 (cartOf [line "p1" 2]))
       [line "p1" 5; line "p2" 1])))) _ (line "p1" 5) _).
  - repeat constructor; cbn; intuition discriminate.
  - now left.
Defined.

(* ================================================================= *)
(** ** Reconciling twice, saving and reloading, rows *)

Lemma filter_all {A : Type} (f : A -> bool) (l : list A) :
  Forall (fun x => f x = true) l -> filter f l = l.
Proof.
  induction 1 as [|x l Hx _ IH]; cbn; [reflexivity|]. now rewrite Hx, IH.
Qed.

Lemma filter_none {A : Type} (f : A -> bool) (l : list A) :
  Forall (fun x => f x = false) l -> filter f l = [].
Proof.
  induction 1 as [|x l Hx _ IH]; cbn; [reflexivity|]. now rewrite Hx.
Qed.

Lemma clamp_reads_id (products : list Product.t) (now : Z) (x : CartItem.t) :
  keepable products (clamp products now x) = keepable products x
  /\ liveStock products (clamp products now x) = liveStock products x
  /\ CartItem.quantity (clamp products now x)
     = Z.min (CartItem.quantity x) (liveStock products x).
Proof.
  split; [|split].
  - unfold keepable, liveProduct. now rewrite clamp_id.
  - unfold liveStock, liveProduct. now rewrite clamp_id.
  - unfold clamp, overStock.
    destruct (Z.ltb_spec (liveStock products x) (CartItem.quantity x));
      cbn [CartItem.quantity CartItem.setQuantity]; lia.
Qed.

(** X7.  After [validateCart] every line of the cart has a live product
    that is in stock and a quantity within its stock.  A second pass over
    the result, at any later time with the same catalog, finds nothing to
    do: its report is valid with three empty lists, the line items are the
    same and no event is sent. *)
Theorem validateCart_settles :
  forall (products : list Product.t) (now now' : Z) (c : Cart.t),
    let c1 := snd (Cart.validateCart products now c) in
    let again := Cart.validateCart products now' c1 in
    Forall (fun item => keepable products item = true
                        /\ CartItem.quantity item <= liveStock products item)
      (Cart.items c1)
    /\ fst again = Validation.mk true [] [] []
    /\ Cart.items (snd again) = Cart.items c1
    /\ Cart.notified (snd again) = Cart.notified c1
    /\ persisted now' (snd again).
Proof.
  intros products now now' c c1 again.
  assert (Hkept : Forall (fun item => keepable products item = true
                            /\ CartItem.quantity item <= liveStock products item)
                    (Cart.items c1)).
  { unfold c1. rewrite validateCart_items. apply Forall_forall.
    intros y Hy. apply in_map_iff in Hy as (x & <- & Hx).
    apply filter_In in Hx as [_ Hk].
    destruct (clamp_reads_id products now x) as (-> & -> & ->).
    split; [exact Hk | lia]. }
  assert (Hkeep : filter (keepable products) (Cart.items c1) = Cart.items c1).
  { apply filter_all. eapply Forall_impl; [|exact Hkept]. now intros y [Hy _]. }
  assert (Hmiss : filter (missing products) (Cart.items c1) = []).
  { apply filter_none. eapply Forall_impl; [|exact Hkept].
    intros y [Hy _]. rewrite keepable_split in Hy.
    apply andb_true_iff in Hy as [Hy _]. now apply negb_true_iff. }
  assert (Hsold : filter (soldOut products) (Cart.items c1) = []).
  { apply filter_none. eapply Forall_impl; [|exact Hkept].
    intros y [Hy _]. rewrite keepable_split in Hy.
    apply andb_true_iff in Hy as [_ Hy]. now apply negb_true_iff. }
  assert (Hover : filter (fun i => keepable products i && overStock products i)
                    (Cart.items c1) = []).
  { apply filter_none. eapply Forall_impl; [|exact Hkept].
    intros y [_ Hy]. apply andb_false_iff. right. unfold overStock.
    apply Z.ltb_ge. exact Hy. }
  assert (Hsame : map (clamp products now') (Cart.items c1) = Cart.items c1).
  { rewrite <- (map_id (Cart.items c1)) at 2. apply map_ext_in.
    intros y Hy. rewrite Forall_forall in Hkept. destruct (Hkept y Hy) as [_ Hq].
    unfold clamp, overStock.
    destruct (Z.ltb_spec (liveStock products y) (CartItem.quantity y));
      [lia | reflexivity]. }
  pose proof (validateCart_eq products now' c1) as Heq. cbv zeta in Heq.
  rewrite Hkeep, Hmiss, Hsold, Hover, Hsame in Heq. cbn in Heq.
  split; [exact Hkept|]. unfold again. rewrite Heq. repeat split.
Qed.

Example validateCart_twice :
  let ps := [product "p1" 10%float 3; product "p2" 20%float 0] in
  let c := cartOf [line "p1" 7; line "p2" 1; line "ghost" 2] in
  let first := Cart.validateCart ps 1 c in
  Validation.isValid (fst first) = false
  /\ map (fun i => (CartItem.id i, CartItem.quantity i)) (Cart.items (snd first))
     = [("p1", 3)]
  /\ fst (Cart.validateCart ps 2 (snd first)) = Validation.mk true [] [] [].
Proof. repeat split. Qed.

(** X8.  Every completed mutation leaves in storage the line items the cart
    then holds, stamped with the time of the call: [addItem],
    [updateItemQuantity], [removeItem] on a product the cart has,
    [clearCart], [mergeCart] of an array, an accepted [importCart] and
    [validateCart].  A cart constructed from such a storage entry holds
    the same line items when at most 30 days have passed, and is empty,
    the empty cart being saved at once, when more have. *)
Theorem mutations_persist :
  forall (products : list Product.t) (now : Z) (c : Cart.t),
    (forall productId quantity r c',
        Cart.addItem products now productId quantity c = Cart.Returned r c' ->
        persisted now c')
    /\ (forall productId quantity r c',
          Cart.updateItemQuantity products now productId quantity c
          = Cart.Returned r c' ->
          persisted now c')
    /\ (forall productId quantity,
          Cart.hasItem c productId = true ->
          persisted now (snd (Cart.removeItem now productId quantity c)))
    /\ (persisted now (Cart.clearCart now c) /\ Cart.items (Cart.clearCart now c) = [])
    /\ (forall newItems, persisted now (Cart.mergeCart now (Some newItems) c))
    /\ (forall cartData c',
          Cart.importCart now cartData c = Cart.Returned true c' -> persisted now c')
    /\ persisted now (snd (Cart.validateCart products now c))
    /\ (forall c' later,
          persisted now c' ->
          (later - now <= 30 * Cart.MS_PER_DAY ->
           Cart.create later (Cart.storage c')
           = Cart.Returned tt (Cart.mk (Cart.items c') (Cart.storage c') []))
          /\ (30 * Cart.MS_PER_DAY < later - now ->
              Cart.create later (Cart.storage c')
              = Cart.Returned tt (Cart.mk [] (emptySaved later) []))).
Proof.
  intros products now c.
  assert (Hrem : forall productId quantity,
            Cart.hasItem c productId = true ->
            persisted now (snd (Cart.removeItem now productId quantity c))).
  { intros productId quantity Hhas. rewrite hasItem_findIndex in Hhas.
    destruct (JS.findIndex (Cart.hasId productId) (Cart.items c)) as [i|] eqn:Hi;
      [|discriminate].
    destruct (findIndex_Some _ _ _ Hi) as (x & Hx & _).
    rewrite (removeItem_found now productId quantity c i x Hi Hx). cbn [snd].
    now destruct (removesWhole quantity (CartItem.quantity x)). }
  split; [|split; [|split; [exact Hrem|split; [|split; [|split; [|split]]]]]].
  - intros productId quantity r c' Hadd.
    destruct (addItem_Returned _ _ _ _ _ _ _ Hadd) as (_ & _ & _ & p & _ & _ & _ & _ & ->).
    reflexivity.
  - intros productId quantity r c'. unfold Cart.updateItemQuantity.
    destruct (String.eqb productId "" || (quantity <? 0)); [discriminate|].
    destruct (Cart.MAX_QUANTITY <? quantity); [discriminate|].
    destruct (JS.findIndex (Cart.hasId productId) (Cart.items c)) as [i|] eqn:Hi;
      [|discriminate].
    assert (Hhas : Cart.hasItem c productId = true)
      by (now rewrite hasItem_findIndex, Hi).
    specialize (Hrem productId None Hhas).
    destruct (ProductAPI.getProductById products productId) as [p|];
      [destruct (Product.stock p <? quantity); [discriminate|]|];
      (destruct (quantity =? 0);
       [destruct (Cart.removeItem now productId None c); now intros [= _ <-]
       |now intros [= _ <-]]).
  - split; reflexivity.
  - reflexivity.
  - intros cartData c'. unfold Cart.importCart, Cart.importCart_try.
    destruct cartData as [blob|]; [destruct (Blob.items blob)|];
      try discriminate. now intros [= <-].
  - pose proof (validateCart_eq products now c) as Heq. cbv zeta in Heq.
    rewrite Heq. cbn [snd]. now destruct (_ || _).
  - intros c' later Hsaved. unfold persisted in Hsaved.
    unfold Cart.create, Cart.loadFromStorage, Cart.loadFromStorage_try.
    cbn [Cart.storage]. rewrite Hsaved. cbn [Cart.expired].
    split; intros Hage;
      destruct (Z.ltb_spec (30 * Cart.MS_PER_DAY) (later - now)); try lia;
      reflexivity.
Qed.

Lemma mutations_persist_witness :
  let ps := [product "p1" 10%float 5] in
  let c' := cartAfter (Cart.addItem ps 100 "p1" (Some 2) (cartOf [])) in
  Cart.create 200 (Cart.storage c')
  = Cart.Returned tt (Cart.mk (Cart.items c') (Cart.storage c') []).
Proof.
  cbv zeta.
  refine (proj1 (proj2 (proj2 (proj2 (proj2 (proj2 (proj2 (proj2
    (mutations_persist [product "p1" 10%float 5] 100 (cartOf []))))))))
    _ 200 _) _).
  - reflexivity.
  - unfold Cart.MS_PER_DAY. lia.
Defined.

Lemma resolvable_rows (products : list Product.t) (l : list CartItem.t) :
  map CartRow.item (rowsOf products l) = filter (resolvable products) l.
Proof.
  induction l as [|x l IH]; [reflexivity|].
  rewrite rowsOf_cons, map_app, IH. cbn [filter].
  unfold Cart.pushRow, resolvable.
  now destruct (Cart.resolve products x).
Qed.

Lemma row_fields (products : list Product.t) (l : list CartItem.t) (row : CartRow.t) :
  In row (rowsOf products l) ->
  CartRow.subtotal row
  = PrimFloat.mul (JS.float_of_Z (CartItem.quantity (CartRow.item row)))
      (ref_price (CartRow.product row))
  /\ CartRow.inStock row = ref_inStock (CartRow.product row).
Proof.
  induction l as [|x l IH]; [intros []|].
  rewrite rowsOf_cons. intros H. apply in_app_or in H as [H|H]; [|now apply IH].
  unfold Cart.pushRow in H. destruct (Cart.resolve products x); [|destruct H].
  destruct H as [<- | []]. split; reflexivity.
Qed.

Lemma itemCount_rows (rows : list CartRow.t) (a : Z) :
  fold_left (fun sum item => sum + CartItem.quantity (CartRow.item item)) rows a
  = a + totalQuantity (map CartRow.item rows).
Proof.
  unfold totalQuantity. revert a.
  induction rows as [|r rows IH]; intros a; cbn [fold_left map fold_right]; [lia|].
  rewrite IH. lia.
Qed.

(** X9.  [getCartItems] returns one row per line that has a product to be
    shown with, in the order of the cart: the live product whenever the
    catalog has one for the line's id, whatever snapshot the line carries,
    and the snapshot only otherwise.  The row's subtotal is the line's
    quantity times the price of that product and its [inStock] is that
    product's.  The summary counts exactly these rows, so when every line
    has a product its [itemCount] is [getItemCount()] and its [items] is the
    number of lines. *)
Theorem getCartItems_rows :
  forall (products : list Product.t) (c : Cart.t),
    let rows := Cart.getCartItems products c in
    let s := Cart.getCartSummary products c in
    map CartRow.item rows = filter (resolvable products) (Cart.items c)
    /\ (forall row, In row rows ->
          (forall p, ProductAPI.getProductById products (CartItem.id (CartRow.item row))
                     = Some p ->
                     CartRow.product row = Live p)
          /\ (ProductAPI.getProductById products (CartItem.id (CartRow.item row)) = None ->
              exists snapshot,
                CartItem.product (CartRow.item row) = Some snapshot
                /\ CartRow.product row = Cached snapshot)
          /\ CartRow.subtotal row
             = PrimFloat.mul (JS.float_of_Z (CartItem.quantity (CartRow.item row)))
                 (ref_price (CartRow.product row))
          /\ CartRow.inStock row = ref_inStock (CartRow.product row))
    /\ Summary.itemCount s
       = totalQuantity (filter (resolvable products) (Cart.items c))
    /\ Summary.items s
       = Z.of_nat (List.length (filter (resolvable products) (Cart.items c)))
    /\ (Forall (fun item => resolvable products item = true) (Cart.items c) ->
        Summary.itemCount s = Cart.getItemCount c
        /\ Summary.items s = Z.of_nat (List.length (Cart.items c))).
Proof.
  intros products c rows s.
  assert (Hrows : map CartRow.item rows = filter (resolvable products) (Cart.items c))
    by apply resolvable_rows.
  assert (Hcount : Summary.itemCount s
                   = totalQuantity (filter (resolvable products) (Cart.items c))).
  { unfold s, Cart.getCartSummary. cbn [Summary.itemCount].
    fold rows. rewrite itemCount_rows, Hrows. lia. }
  assert (Hitems : Summary.items s
                   = Z.of_nat (List.length (filter (resolvable products) (Cart.items c)))).
  { unfold s, Cart.getCartSummary. cbn [Summary.items].
    fold rows. now rewrite <- Hrows, length_map. }
  split; [exact Hrows|]. split; [|split; [exact Hcount|split; [exact Hitems|]]].
  - intros row Hrow.
    destruct (rowsOf_resolved products row (Cart.items c) Hrow) as [_ Hres].
    destruct (row_fields products (Cart.items c) row Hrow) as [Hsub Hstock].
    unfold Cart.resolve in Hres.
    destruct (ProductAPI.getProductById products (CartItem.id (CartRow.item row)))
      as [p|].
    + injection Hres as Hres. split; [now intros p' [= <-]|].
      split; [discriminate|]. now split.
    + split; [discriminate|]. split; [|now split].
      intros _. destruct (CartItem.product (CartRow.item row)) as [snapshot|];
        [|discriminate].
      injection Hres as Hres. now exists snapshot.
  - intros Hall. rewrite Hcount, Hitems, (filter_all _ _ Hall).
    now rewrite getItemCount_total.
Qed.

Lemma getCartItems_rows_witness :
  let ps := [product "p1" 10%float 5] in
  let c := cartOf [line "p1" 2] in
  Summary.itemCount (Cart.getCartSummary ps c) = Cart.getItemCount c
  /\ Summary.items (Cart.getCartSummary ps c) = Z.of_nat (List.length (Cart.items c)).
Proof.
  cbv zeta.
  refine (proj2 (proj2 (proj2 (proj2
    (getCartItems_rows [product "p1" 10%float 5] (cartOf [line "p1" 2]))))) _).
  repeat constructor.
Defined.

Example live_price_wins_over_snapshot :
  let stale := Snapshot.mk "p1" "old name" 1%float [] "phones" false in
  let c := cartOf [CartItem.mk "p1" 2 0 0 (Some stale)] in
  map CartRow.subtotal (Cart.getCartItems [product "p1" 10%float 5] c) = [20%float]
  /\ map CartRow.subtotal (Cart.getCartItems [] c) = [2%float]
  /\ map CartRow.inStock (Cart.getCartItems [] c) = [false].
Proof. vm_compute. repeat split. Qed.

(* ================================================================= *)
(** ** Further facts about sorted and sliced arrays *)

Section OrderFacts.
Context {A : Type}.
Variable comparefn : A -> A -> comparison.

Lemma insert_perm (x : A) (l : list A) :
  Permutation (JS.insert comparefn x l) (x :: l).
Proof.
  induction l as [|y l IH]; cbn; [reflexivity|].
  destruct (comparefn x y); try reflexivity.
  rewrite IH. apply perm_swap.
Qed.

Lemma sort_perm (l : list A) : Permutation (JS.sort comparefn l) l.
Proof.
  induction l as [|x l IH]; cbn; [reflexivity|].
  rewrite insert_perm. now constructor.
Qed.

Variable le : A -> A -> Prop.
Hypothesis le_trans : forall a b c, le a b -> le b c -> le a c.
Hypothesis Gt_le : forall x y, comparefn x y = Gt -> le y x.
Hypothesis notGt_le : forall x y, comparefn x y <> Gt -> le x y.

Lemma insert_sorted (x : A) (l : list A) :
  StronglySorted le l -> StronglySorted le (JS.insert comparefn x l).
Proof.
  induction 1 as [|y l Hs IH Hall]; cbn.
  - constructor; constructor.
  - assert (Hfront : comparefn x y <> Gt ->
                     StronglySorted le (x :: y :: l)).
    { intros Hxy. constructor; [now constructor|].
      constructor; [now apply notGt_le|].
      eapply Forall_impl; [|exact Hall].
      intros z Hz. eapply le_trans; [apply notGt_le; exact Hxy | exact Hz]. }
    destruct (comparefn x y) eqn:Hxy;
      try (apply Hfront; congruence).
    constructor; [exact IH|].
    apply Forall_forall. intros z Hz. apply in_insert in Hz.
    destruct Hz as [-> | Hz]; [now apply Gt_le|].
    rewrite Forall_forall in Hall. now apply Hall.
Qed.

Lemma sort_sorted (l : list A) : StronglySorted le (JS.sort comparefn l).
Proof.
  induction l as [|x l IH]; cbn; [constructor|]. now apply insert_sorted.
Qed.
End OrderFacts.

Lemma sorted_before {A : Type} (le : A -> A -> Prop) (a b : A) (l : list A) :
  StronglySorted le l -> before a b l -> le a b.
Proof.
  intros Hs Hb. induction Hb as [l Hin | x l Hb IH].
  - apply StronglySorted_inv in Hs. destruct Hs as [_ Hall].
    rewrite Forall_forall in Hall. now apply Hall.
  - apply StronglySorted_inv in Hs. now apply IH.
Qed.

Lemma sorted_app_le {A : Type} (le : A -> A -> Prop) (l1 l2 : list A) (p q : A) :
  StronglySorted le (l1 ++ l2) -> In p l1 -> In q l2 -> le p q.
Proof.
  induction l1 as [|x l1 IH]; [intros _ []|].
  cbn. intros Hs [-> | Hp] Hq; apply StronglySorted_inv in Hs;
    destruct Hs as [Hs Hall].
  - rewrite Forall_forall in Hall. apply Hall. apply in_or_app. now right.
  - now apply IH.
Qed.

Lemma before_In {A : Type} (a b : A) (l : list A) :
  before a b l -> In a l /\ In b l.
Proof.
  induction 1 as [l Hin | x l Hb IH]; cbn; tauto.
Qed.

Lemma firstn_In {A : Type} (x : A) (n : nat) (l : list A) :
  In x (firstn n l) -> In x l.
Proof.
  revert n. induction l as [|y l IH]; intros [|n]; cbn; try tauto.
  intros [-> | H]; [now left | right; now apply (IH n)].
Qed.

Lemma skipn_In {A : Type} (x : A) (n : nat) (l : list A) :
  In x (skipn n l) -> In x l.
Proof.
  revert n. induction l as [|y l IH]; intros [|n]; cbn; try tauto.
  intros H. right. now apply (IH n).
Qed.

Lemma slice_In {A : Type} (x : A) (l : list A) (start end_ : Z) :
  In x (JS.slice l start end_) -> In x l.
Proof.
  unfold JS.slice. intros H. apply firstn_In in H. now apply skipn_In in H.
Qed.

Lemma before_firstn {A : Type} (a b : A) (n : nat) (l : list A) :
  before a b (firstn n l) -> before a b l.
Proof.
  revert n. induction l as [|x l IH]; intros [|n] H; cbn in H;
    try (inversion H; fail).
  inversion H as [l' Hin | x' l' Hb]; subst.
  - apply before_here. now apply firstn_In in Hin.
  - apply before_later. now apply (IH n).
Qed.

Lemma before_filter {A : Type} (f : A -> bool) (a b : A) (l : list A) :
  before a b (filter f l) -> before a b l.
Proof.
  induction l as [|x l IH]; cbn; [inversion 1|].
  destruct (f x).
  - intros H. inversion H as [l' Hin | x' l' Hb]; subst.
    + apply before_here. now apply filter_In in Hin.
    + apply before_later. now apply IH.
  - intros H. apply before_later. now apply IH.
Qed.

Lemma before_of_rev {A : Type} (a b : A) (l : list A) :
  before a b (rev l) -> before b a l.
Proof.
  intros H. apply before_rev in H. now rewrite rev_involutive in H.
Qed.

Lemma slice_head {A : Type} (l : list A) (n : Z) :
  0 <= n -> JS.slice l 0 n = firstn (Z.to_nat n) l.
Proof.
  intros Hn. change n with (0 + n) at 1.
  now rewrite (slice_forward l 0 n) by lia.
Qed.

Lemma slice_from_zero {A : Type} (l : list A) (end_ : Z) :
  exists k, JS.slice l 0 end_ = firstn k l.
Proof.
  unfold JS.slice. change (0 <? 0) with false. cbv iota.
  rewrite (Z.min_l 0) by lia. eexists. reflexivity.
Qed.

Lemma firstn_plus {A : Type} (a b : nat) (l : list A) :
  firstn (a + b) l = firstn a l ++ firstn b (skipn a l).
Proof.
  revert l. induction a as [|a IH]; intros [|x l]; cbn;
    rewrite ?firstn_nil; try reflexivity.
  now rewrite IH.
Qed.

(* ================================================================= *)
(** ** Filtering *)

Lemma filterProducts_criteria (products : list Product.t)
    (filters : ProductAPI.Filters.t) :
  ProductAPI.filterProducts products filters = filter (criteria filters) products.
Proof.
  unfold ProductAPI.filterProducts, criteria.
  destruct filters as [cats pmin pmax rat ins new sale]; cbn.
  assert (Htrue : forall l : list Product.t, l = filter (fun _ => true) l).
  { intros l. symmetry. apply filter_all. now apply Forall_forall. }
  assert (Hext : forall (f g : Product.t -> bool) l,
             (forall x, f x = g x) -> filter f l = filter g l).
  { intros f g l H. now apply filter_ext. }
  destruct cats as [[|c cats]|]; cbn [List.length Nat.ltb Nat.leb];
    destruct pmin, pmax, rat, ins, new, sale;
    rewrite ?filter_twice;
    try (apply Hext; intros x; cbn;
         repeat rewrite ?andb_true_r, ?andb_true_l, ?andb_assoc; reflexivity);
    rewrite (Htrue products) at 1; apply Hext; intros x; reflexivity.
Qed.

Lemma criteria_passes (filters : ProductAPI.Filters.t) (p : Product.t) :
  criteria filters p = true <-> passes filters p.
Proof.
  unfold criteria, passes, ProductAPI.inCategories.
  destruct filters as [cats pmin pmax rat ins new sale]; cbn.
  rewrite !andb_true_iff.
  assert (Hcat : match cats with
                 | Some (c :: categories) =>
                     existsb (fun c0 => String.eqb c0 (Product.category p))
                       (c :: categories)
                 | _ => true
                 end = true
                 <-> (forall categories, cats = Some categories ->
                        categories <> [] -> In (Product.category p) categories)).
  { destruct cats as [[|c cats]|].
    - split; [intros _ cs [= <-] Hne; congruence | reflexivity].
    - rewrite existsb_exists. split.
      + intros (c0 & Hin & Heq) cs [= <-] _.
        apply String.eqb_eq in Heq. now subst.
      + intros H. exists (Product.category p). split.
        * apply H; [reflexivity | discriminate].
        * apply String.eqb_refl.
    - split; [intros _ cs [=] | reflexivity]. }
  rewrite Hcat. clear Hcat.
  assert (Hopt : forall (o : option float) (test : float -> bool),
             match o with Some v => test v | None => true end = true
             <-> (forall v, o = Some v -> test v = true)).
  { intros [v|] test; split; intros H.
    - now intros v' [= <-].
    - now apply H.
    - now intros v' [=].
    - reflexivity. }
  rewrite (Hopt pmin (fun v => PrimFloat.leb v (Product.price p))).
  rewrite (Hopt pmax (fun v => PrimFloat.leb (Product.price p) v)).
  rewrite (Hopt rat (fun v => PrimFloat.leb v (Product.rating p))).
  assert (Hflag : forall (flag v : bool),
             (if flag then v else true) = true <-> (flag = true -> v = true)).
  { intros [|] v; split; intros H; auto; discriminate. }
  rewrite !Hflag. tauto.
Qed.

(** X10.  [filterProducts] keeps exactly the products that meet every
    criterion that is set, in the order they had; filtering the result
    again with the same criteria changes nothing; and with no criterion
    set (an empty list of categories counting as none) the products come
    back unchanged. *)
Theorem filterProducts_selects (products : list Product.t)
    (filters : ProductAPI.Filters.t) :
  let filtered := ProductAPI.filterProducts products filters in
  (forall p, In p filtered <-> In p products /\ passes filters p)
  /\ (forall a b, before a b filtered -> before a b products)
  /\ ProductAPI.filterProducts filtered filters = filtered
  /\ (noCriteria filters -> filtered = products).
Proof.
  cbv zeta. rewrite !filterProducts_criteria. split; [|split; [|split]].
  - intros p. rewrite filter_In, criteria_passes. tauto.
  - intros a b. apply before_filter.
  - rewrite filter_twice. apply filter_ext. intros x. apply andb_diag.
  - intros (Hc & Hmin & Hmax & Hr & Hs & Hn & Ho).
    apply filter_all. apply Forall_forall. intros p _. unfold criteria.
    rewrite Hmin, Hmax, Hr, Hs, Hn, Ho. destruct Hc as [-> | ->]; reflexivity.
Qed.

(** An empty list of categories selects everything, and a price bound
    that is NaN selects nothing. *)
Example filterProducts_edges :
  ProductAPI.filterProducts sevenProducts
    (ProductAPI.Filters.mk (Some []) None None None false false false)
  = sevenProducts
  /\ ProductAPI.filterProducts sevenProducts
       (ProductAPI.Filters.mk None (Some nan) None None false false false)
     = []
  /\ map Product.id
       (ProductAPI.filterProducts sevenProducts
          (ProductAPI.Filters.mk (Some ["phones"]) (Some 20%float)
             (Some 40%float) None true false false))
     = ["p2"; "p3"; "p4"].
Proof. repeat split; vm_compute; reflexivity. Qed.

(* ================================================================= *)
(** ** Sorting rearranges, and orders by popularity *)

Lemma byPopularity_Gt (x y : Product.t) :
  ProductAPI.byPopularity x y = Gt -> Product.popularity y <= Product.popularity x.
Proof.
  unfold ProductAPI.byPopularity, JS.sign_of_Z. rewrite Z.compare_gt_iff. lia.
Qed.

Lemma byPopularity_notGt (x y : Product.t) :
  ProductAPI.byPopularity x y <> Gt -> Product.popularity x <= Product.popularity y.
Proof.
  unfold ProductAPI.byPopularity, JS.sign_of_Z. intros H.
  apply Z.compare_ngt_iff in H. lia.
Qed.

Lemma comparator_popularity (localeCompare : string -> string -> Z) (k : string) :
  k <> "price" -> k <> "rating" -> k <> "name" ->
  ProductAPI.comparator localeCompare k = ProductAPI.byPopularity.
Proof.
  intros H1 H2 H3. unfold ProductAPI.comparator.
  apply String.eqb_neq in H1, H2, H3. now rewrite H1, H2, H3.
Qed.

(** X11.  Whatever the key and the order, [sortProducts] returns the
    products it was given, each as often as it was given: none is lost,
    none is added.  When the key is not one of price, rating and name the
    result is ordered by popularity: falling for the order ['desc'] (the
    default), rising for any other. *)
Theorem sortProducts_rearranges (localeCompare : string -> string -> Z)
    (products : list Product.t) (sortBy order : option string) :
  let sorted := ProductAPI.sortProducts localeCompare products sortBy order in
  Permutation sorted products
  /\ (sortsByPopularity sortBy ->
      forall a b, before a b sorted ->
        if descending order
        then Product.popularity b <= Product.popularity a
        else Product.popularity a <= Product.popularity b).
Proof.
  cbv zeta. unfold ProductAPI.sortProducts, descending. split.
  - destruct (String.eqb _ "desc");
      rewrite <- ?Permutation_rev; apply sort_perm.
  - intros Hkey a b Hb.
    assert (Hcmp : ProductAPI.comparator localeCompare
                     match sortBy with Some k => k | None => "popularity" end
                   = ProductAPI.byPopularity).
    { destruct sortBy as [k|]; [|reflexivity].
      destruct Hkey as (H1 & H2 & H3). now apply comparator_popularity. }
    rewrite Hcmp in Hb.
    assert (Hs : StronglySorted
                   (fun x y => Product.popularity x <= Product.popularity y)
                   (JS.sort ProductAPI.byPopularity products)).
    { apply sort_sorted.
      - intros; lia.
      - apply byPopularity_Gt.
      - apply byPopularity_notGt. }
    destruct order as [o|].
    + destruct (String.eqb o "desc").
      * apply before_of_rev in Hb. exact (sorted_before _ _ _ _ Hs Hb).
      * exact (sorted_before _ _ _ _ Hs Hb).
    + change (String.eqb "desc" "desc") with true in Hb. cbv iota in Hb.
      apply before_of_rev in Hb. exact (sorted_before _ _ _ _ Hs Hb).
Qed.

Lemma sortProducts_rearranges_witness :
  let pa := Product.mk "a" "a" "" "phones" 1%float 4%float 1 30 [] [] true false false in
  let pb := Product.mk "b" "b" "" "phones" 1%float 4%float 1 70 [] [] true false false in
  before pb pa (ProductAPI.sortProducts (fun _ _ => 0) [pa; pb] (Some "sales") None)
  /\ Product.popularity pa <= Product.popularity pb.
Proof.
  cbv zeta.
  assert (Hb : before
                 (Product.mk "b" "b" "" "phones" 1%float 4%float 1 70 [] [] true false false)
                 (Product.mk "a" "a" "" "phones" 1%float 4%float 1 30 [] [] true false false)
                 (ProductAPI.sortProducts (fun _ _ => 0)
                    [Product.mk "a" "a" "" "phones" 1%float 4%float 1 30 [] [] true false false;
                     Product.mk "b" "b" "" "phones" 1%float 4%float 1 70 [] [] true false false]
                    (Some "sales") None)).
  { apply before_here. now left. }
  split; [exact Hb|].
  refine (proj2 (sortProducts_rearranges (fun _ _ => 0) _ (Some "sales") None)
            _ _ _ Hb).
  cbn. repeat split; discriminate.
Defined.

(* ================================================================= *)
(** ** Featured products *)

Lemma byPopularityDesc_Gt (x y : Product.t) :
  ProductAPI.byPopularityDesc x y = Gt ->
  Product.popularity x <= Product.popularity y.
Proof.
  unfold ProductAPI.byPopularityDesc, JS.sign_of_Z. rewrite Z.compare_gt_iff. lia.
Qed.

Lemma byPopularityDesc_notGt (x y : Product.t) :
  ProductAPI.byPopularityDesc x y <> Gt ->
  Product.popularity y <= Product.popularity x.
Proof.
  unfold ProductAPI.byPopularityDesc, JS.sign_of_Z. intros H.
  apply Z.compare_ngt_iff in H. lia.
Qed.

(** X12.  For a limit that is not negative, [getFeaturedProducts] returns
    [limit] products, or all of them when there are fewer; they are
    products of the catalog, listed from the most popular down; and every
    product left out is at most as popular as every product returned. *)
Theorem getFeaturedProducts_top (products : list Product.t) (limit : Z) :
  0 <= limit ->
  let featured := ProductAPI.getFeaturedProducts products (Some limit) in
  Z.of_nat (List.length featured) = Z.min limit (Z.of_nat (List.length products))
  /\ (forall a b, before a b featured ->
        Product.popularity b <= Product.popularity a)
  /\ exists rest,
       Permutation (featured ++ rest) products
       /\ forall p q, In p featured -> In q rest ->
            Product.popularity q <= Product.popularity p.
Proof.
  intros Hl. cbv zeta. unfold ProductAPI.getFeaturedProducts.
  rewrite slice_head by assumption.
  set (sorted := JS.sort ProductAPI.byPopularityDesc products).
  assert (Hs : StronglySorted
                 (fun x y => Product.popularity y <= Product.popularity x) sorted).
  { apply sort_sorted.
    - intros; lia.
    - apply byPopularityDesc_Gt.
    - apply byPopularityDesc_notGt. }
  assert (Hp : Permutation sorted products) by apply sort_perm.
  split; [|split].
  - rewrite length_firstn. rewrite (Permutation_length Hp). lia.
  - intros a b Hb. apply before_firstn in Hb.
    exact (sorted_before _ _ _ _ Hs Hb).
  - exists (skipn (Z.to_nat limit) sorted). split.
    + now rewrite firstn_skipn.
    + intros p q Hin Hq.
      rewrite <- (firstn_skipn (Z.to_nat limit) sorted) in Hs.
      exact (sorted_app_le _ _ _ _ _ Hs Hin Hq).
Qed.

Lemma getFeaturedProducts_top_witness :
  Z.of_nat (List.length (ProductAPI.getFeaturedProducts sevenProducts (Some 3)))
  = Z.min 3 (Z.of_nat (List.length sevenProducts)).
Proof.
  apply (getFeaturedProducts_top sevenProducts 3). lia.
Defined.

(** The default limit is 8; a negative limit counts from the end of the
    sorted array. *)
Example getFeaturedProducts_limits :
  List.length (ProductAPI.getFeaturedProducts sevenProducts None) = 7%nat
  /\ List.length (ProductAPI.getFeaturedProducts sevenProducts (Some (-2))) = 5%nat.
Proof. split; vm_compute; reflexivity. Qed.

(* ================================================================= *)
(** ** Related products *)

Lemma byRelevance_Gt (product x y : Product.t) :
  ProductAPI.byRelevance product x y = Gt ->
  sameCategory product x -> sameCategory product y.
Proof.
  unfold ProductAPI.byRelevance, sameCategory. intros H Hx.
  apply String.eqb_eq in Hx. rewrite Hx in H. cbn in H.
  destruct (String.eqb (Product.category y) (Product.category product)) eqn:Hy;
    cbn in H; [now apply String.eqb_eq in Hy | discriminate].
Qed.

Lemma byRelevance_notGt (product x y : Product.t) :
  ProductAPI.byRelevance product x y <> Gt ->
  sameCategory product y -> sameCategory product x.
Proof.
  unfold ProductAPI.byRelevance, sameCategory. intros H Hy.
  apply String.eqb_eq in Hy. rewrite Hy in H. cbn in H.
  destruct (String.eqb (Product.category x) (Product.category product)) eqn:Hx;
    cbn in H; [now apply String.eqb_eq in Hx | congruence].
Qed.

(** X13.  [getRelatedProducts] returns nothing for an id the catalog does
    not have.  For a known product it returns products of the catalog
    other than the product itself, each of the same category or within 30%
    of its price; those of the same category come before all others; and
    for a limit that is not negative there are at most [limit] of them. *)
Theorem getRelatedProducts_related (products : list Product.t)
    (productId : string) (limit : option Z) :
  let related := ProductAPI.getRelatedProducts products productId limit in
  match ProductAPI.getProductById products productId with
  | None => related = []
  | Some product =>
      (forall p, In p related ->
         In p products /\ Product.id p <> productId
         /\ (sameCategory product p \/ closeInPrice product p))
      /\ (forall a b, before a b related ->
            sameCategory product b -> sameCategory product a)
      /\ (forall n, limit = Some n -> 0 <= n ->
            Z.of_nat (List.length related) <= n)
  end.
Proof.
  cbv zeta. unfold ProductAPI.getRelatedProducts.
  destruct (ProductAPI.getProductById products productId) as [product|];
    [|reflexivity].
  set (n := match limit with Some n => n | None => 6 end).
  set (sorted := JS.sort (ProductAPI.byRelevance product)
                   (filter (ProductAPI.isRelated productId product) products)).
  assert (Hs : StronglySorted
                 (fun x y => sameCategory product y -> sameCategory product x)
                 sorted).
  { apply sort_sorted.
    - intros a b c Hab Hbc Hc. auto.
    - intros x y. apply byRelevance_Gt.
    - intros x y. apply byRelevance_notGt. }
  split; [|split].
  - intros p Hin. apply slice_In in Hin. apply in_sort in Hin.
    apply filter_In in Hin. destruct Hin as [Hin Hrel].
    unfold ProductAPI.isRelated in Hrel.
    apply andb_true_iff in Hrel. destruct Hrel as [Hid Hnear].
    split; [exact Hin|]. split.
    + apply negb_true_iff in Hid. now apply String.eqb_neq in Hid.
    + apply orb_true_iff in Hnear. destruct Hnear as [Hc | Hp].
      * left. now apply String.eqb_eq in Hc.
      * right. exact Hp.
  - intros a b Hb.
    assert (Hb' : before a b sorted).
    { destruct (slice_from_zero sorted n) as [k Hk]. rewrite Hk in Hb.
      now apply before_firstn in Hb. }
    exact (sorted_before _ _ _ _ Hs Hb').
  - intros m -> Hm. subst n. rewrite slice_head by assumption.
    rewrite length_firstn. lia.
Qed.

Lemma getRelatedProducts_related_witness :
  Z.of_nat (List.length (ProductAPI.getRelatedProducts sevenProducts "p3" (Some 2)))
  <= 2.
Proof.
  refine (proj2 (proj2 (getRelatedProducts_related sevenProducts "p3" (Some 2)))
            2 eq_refl _).
  lia.
Defined.

(** Products of the same category come first, nearest in price first, then
    those of other categories whose price is within 30%; the product
    itself and a distant product of another category are left out. *)
Example getRelatedProducts_order :
  let item id category price :=
    Product.mk id id "" category price 4%float 1 1 [] [] true false false in
  let catalog :=
    [item "a" "phones" 100%float; item "b" "phones" 200%float;
     item "c" "laptops" 110%float; item "d" "laptops" 500%float;
     item "e" "phones" 90%float] in
  map Product.id (ProductAPI.getRelatedProducts catalog "a" None) = ["e"; "b"; "c"]
  /\ map Product.id (ProductAPI.getRelatedProducts catalog "a" (Some 2)) = ["e"; "b"]
  /\ ProductAPI.getRelatedProducts catalog "z" None = [].
Proof. repeat split; vm_compute; reflexivity. Qed.

(* ================================================================= *)
(** ** The pages of a list *)

Lemma pageItems_eq (products : list Product.t) (perPage : Z) (k : nat) :
  1 <= perPage -> (1 <= k)%nat ->
  pageItems products perPage k
  = firstn (Z.to_nat perPage) (skipn ((k - 1) * Z.to_nat perPage) products).
Proof.
  intros Hp Hk. unfold pageItems, ProductAPI.paginateProducts. cbn.
  rewrite slice_forward by nia.
  replace (Z.to_nat ((Z.of_nat k - 1) * perPage))
    with ((k - 1) * Z.to_nat perPage)%nat by nia.
  reflexivity.
Qed.

Lemma pages_concat (products : list Product.t) (perPage : Z) (n : nat) :
  1 <= perPage ->
  List.concat (map (pageItems products perPage) (seq 1 n))
  = firstn (n * Z.to_nat perPage) products.
Proof.
  intros Hp. induction n as [|n IH]; [reflexivity|].
  rewrite seq_S, map_app, concat_app, IH. cbn [map List.concat plus].
  rewrite app_nil_r, pageItems_eq by lia.
  replace (S n - 1)%nat with n by lia.
  replace (S n * Z.to_nat perPage)%nat
    with (n * Z.to_nat perPage + Z.to_nat perPage)%nat by lia.
  now rewrite firstn_plus.
Qed.

(** X14.  For a page size of at least one, the pages 1 to [totalPages] of
    [paginateProducts] put end to end are the list that was paginated:
    every product is on exactly one page, in order; every page but the
    last is full, and the last one is not empty. *)
Theorem paginateProducts_tiles (products : list Product.t) (perPage : Z) :
  1 <= perPage ->
  exists n : nat,
    (forall page,
        ProductAPI.Page.totalPages
          (ProductAPI.paginateProducts products page (Some perPage))
        = JS.Int (Z.of_nat n))
    /\ List.concat (map (pageItems products perPage) (seq 1 n)) = products
    /\ (forall k, (1 <= k < n)%nat ->
          Z.of_nat (List.length (pageItems products perPage k)) = perPage)
    /\ (forall k, (1 <= k)%nat -> k = n -> pageItems products perPage k <> []).
Proof.
  intros Hp.
  destruct (ceil_div_bounds (Z.of_nat (List.length products)) perPage Hp)
    as (m & Hm & Hlo & Hhi).
  assert (H0 : 0 <= m) by nia.
  exists (Z.to_nat m). split; [|split; [|split]].
  - intros page. unfold ProductAPI.paginateProducts. cbn.
    rewrite Hm. f_equal. lia.
  - rewrite pages_concat by assumption.
    apply firstn_all2. nia.
  - intros k Hk. rewrite pageItems_eq by lia.
    rewrite length_firstn, length_skipn. nia.
  - intros k Hk -> Hnil.
    apply (f_equal (@List.length Product.t)) in Hnil.
    rewrite pageItems_eq in Hnil by lia.
    rewrite length_firstn, length_skipn in Hnil. cbn in Hnil. nia.
Qed.

Lemma paginateProducts_tiles_witness :
  exists n : nat,
    List.concat (map (pageItems sevenProducts 3) (seq 1 n)) = sevenProducts.
Proof.
  destruct (paginateProducts_tiles sevenProducts 3 ltac:(lia))
    as (n & _ & H & _).
  exists n. exact H.
Defined.

(* ================================================================= *)
(** ** Letter case in a query *)

Lemma trimStart_toLowerCase (s : string) :
  JS.trimStart (JS.toLowerCase s) = JS.toLowerCase (JS.trimStart s).
Proof.
  induction s as [|c s IH]; [reflexivity|].
  cbn. rewrite is_ws_lower_char. now destruct (JS.is_ws c).
Qed.

Lemma trimEnd_toLowerCase (s : string) :
  JS.trimEnd (JS.toLowerCase s) = JS.toLowerCase (JS.trimEnd s).
Proof.
  induction s as [|c s IH]; [reflexivity|].
  cbn. rewrite IH, is_ws_lower_char.
  destruct (JS.trimEnd s); cbn; [now destruct (JS.is_ws c) | reflexivity].
Qed.

Lemma trim_toLowerCase (s : string) :
  JS.trim (JS.toLowerCase s) = JS.toLowerCase (JS.trim s).
Proof.
  unfold JS.trim. now rewrite trimStart_toLowerCase, trimEnd_toLowerCase.
Qed.

Lemma toLowerCase_empty (s : string) : JS.toLowerCase s = "" <-> s = "".
Proof.
  destruct s; cbn; split; congruence.
Qed.

(** X15.  [searchProducts] does not look at the letter case of the query:
    two queries that [toLowerCase] makes equal, which are those that differ
    in the case of their letters only, the accented ones included, give the
    same result. *)
Theorem searchProducts_ignores_query_case (products : list Product.t)
    (query1 query2 : string) :
  JS.toLowerCase query1 = JS.toLowerCase query2 ->
  ProductAPI.searchProducts products query1
  = ProductAPI.searchProducts products query2.
Proof.
  intros H. unfold ProductAPI.searchProducts, ProductAPI.searchTerms.
  rewrite H.
  assert (Hguard : forall q,
             String.eqb q "" || String.eqb (JS.trim q) ""
             = String.eqb (JS.trim (JS.toLowerCase q)) "").
  { intros q. rewrite trim_toLowerCase.
    destruct (String.eqb_spec q "") as [-> | Hq]; [reflexivity|].
    cbn [orb].
    destruct (String.eqb_spec (JS.trim q) "") as [Ht | Ht].
    - rewrite Ht. reflexivity.
    - symmetry. apply String.eqb_neq. now rewrite toLowerCase_empty. }
  now rewrite (Hguard query1), (Hguard query2), H.
Qed.

Lemma searchProducts_ignores_query_case_witness :
  ProductAPI.searchProducts sevenProducts "P3 Phones"
  = ProductAPI.searchProducts sevenProducts "p3 PHONES".
Proof.
  apply (searchProducts_ignores_query_case sevenProducts "P3 Phones" "p3 PHONES").
  reflexivity.
Defined.

(* ================================================================= *)
(** ** The order of binary64 values *)

Section FloatOrder.

Ltac compare_cases :=
  repeat match goal with
         | |- context [Z.compare ?a ?b] => destruct (Z.compare_spec a b)
         | H : context [Z.compare ?a ?b] |- _ => destruct (Z.compare_spec a b)
         | |- context [Pos.compare ?a ?b] => destruct (Pos.compare_spec a b)
         | H : context [Pos.compare ?a ?b] |- _ => destruct (Pos.compare_spec a b)
         end.

Ltac by_cases :=
  cbn in *; try discriminate; try reflexivity;
  change (Pos.compare_cont Eq) with Pos.compare in *;
  compare_cases; cbn in *; try discriminate; try reflexivity; try lia.

Lemma SFleb_trans (a b c : spec_float) :
  SFleb a b = true -> SFleb b c = true -> SFleb a c = true.
Proof.
  unfold SFleb, SFcompare.
  destruct a as [[|]|[|]| |[|] ma ea], b as [[|]|[|]| |[|] mb eb];
    try discriminate;
    destruct c as [[|]|[|]| |[|] mc ec]; try discriminate; try reflexivity;
    by_cases.
Qed.

Lemma SFleb_total (a b : spec_float) :
  SFeqb a a = true -> SFeqb b b = true -> SFltb a b = false -> SFleb b a = true.
Proof.
  unfold SFleb, SFltb, SFeqb, SFcompare.
  destruct a as [[|]|[|]| |[|] ma ea], b as [[|]|[|]| |[|] mb eb]; by_cases.
Qed.

Lemma SFltb_leb (a b : spec_float) : SFltb a b = true -> SFleb a b = true.
Proof.
  unfold SFleb, SFltb. now destruct (SFcompare a b) as [[| |]|].
Qed.

Lemma SFeqb_leb (a b : spec_float) :
  SFeqb a b = true -> SFleb a b = true /\ SFleb b a = true.
Proof.
  unfold SFleb, SFeqb, SFcompare.
  destruct a as [[|]|[|]| |[|] ma ea], b as [[|]|[|]| |[|] mb eb];
    by_cases; split; by_cases.
Qed.

Lemma SFleb_refl (a : spec_float) : SFeqb a a = true -> SFleb a a = true.
Proof.
  intros H. now apply SFeqb_leb.
Qed.

Lemma SFleb_number (a b : spec_float) :
  SFleb a b = true -> SFeqb a a = true /\ SFeqb b b = true.
Proof.
  unfold SFleb, SFeqb, SFcompare.
  destruct a as [[|]|[|]| |[|] ma ea], b as [[|]|[|]| |[|] mb eb];
    try discriminate; intros _; split; cbn; try reflexivity;
    rewrite ?Z.compare_refl; change (Pos.compare_cont Eq) with Pos.compare;
    rewrite ?Pos.compare_refl; reflexivity.
Qed.

Lemma isNumber_eqb (x : float) : isNumber x <-> SFeqb (Prim2SF x) (Prim2SF x) = true.
Proof.
  unfold isNumber, PrimFloat.is_nan. rewrite FloatAxioms.eqb_spec.
  now destruct (SFeqb (Prim2SF x) (Prim2SF x)).
Qed.

Lemma leb_trans (x y z : float) :
  PrimFloat.leb x y = true -> PrimFloat.leb y z = true -> PrimFloat.leb x z = true.
Proof.
  rewrite !FloatAxioms.leb_spec. apply SFleb_trans.
Qed.

Lemma leb_refl (x : float) : isNumber x -> PrimFloat.leb x x = true.
Proof.
  rewrite isNumber_eqb, FloatAxioms.leb_spec. apply SFleb_refl.
Qed.

Lemma leb_total (x y : float) :
  isNumber x -> isNumber y -> PrimFloat.ltb x y = false -> PrimFloat.leb y x = true.
Proof.
  rewrite !isNumber_eqb, FloatAxioms.ltb_spec, FloatAxioms.leb_spec. apply SFleb_total.
Qed.

Lemma ltb_leb (x y : float) : PrimFloat.ltb x y = true -> PrimFloat.leb x y = true.
Proof.
  rewrite FloatAxioms.ltb_spec, FloatAxioms.leb_spec. apply SFltb_leb.
Qed.

Lemma eqb_leb (x y : float) :
  PrimFloat.eqb x y = true -> PrimFloat.leb x y = true /\ PrimFloat.leb y x = true.
Proof.
  rewrite FloatAxioms.eqb_spec, !FloatAxioms.leb_spec. apply SFeqb_leb.
Qed.

Lemma zeros_leb (x y : float) :
  PrimFloat.is_zero x = true -> PrimFloat.is_zero y = true -> PrimFloat.leb x y = true.
Proof.
  unfold PrimFloat.is_zero. intros Hx Hy.
  apply eqb_leb in Hx, Hy.
  eapply leb_trans; [apply Hx | apply Hy].
Qed.

Lemma above_infinity (x : float) :
  PrimFloat.leb infinity x = true -> x = infinity.
Proof.
  rewrite FloatAxioms.leb_spec. intros H. apply Prim2SF_inj.
  change (Prim2SF infinity) with (S754_infinity false) in *.
  destruct (Prim2SF x) as [[|]|[|]| |[|] m e]; cbn in H;
    try discriminate; reflexivity.
Qed.

Lemma below_neg_infinity (x : float) :
  PrimFloat.leb x neg_infinity = true -> x = neg_infinity.
Proof.
  rewrite FloatAxioms.leb_spec. intros H. apply Prim2SF_inj.
  change (Prim2SF neg_infinity) with (S754_infinity true) in *.
  destruct (Prim2SF x) as [[|]|[|]| |[|] m e]; cbn in H;
    try discriminate; reflexivity.
Qed.

Lemma leb_infinity (x : float) : isNumber x -> PrimFloat.leb x infinity = true.
Proof.
  rewrite isNumber_eqb, FloatAxioms.leb_spec.
  change (Prim2SF infinity) with (S754_infinity false).
  destruct (Prim2SF x) as [[|]|[|]| |[|] m e]; cbn; try discriminate; reflexivity.
Qed.

Lemma neg_infinity_leb (x : float) : isNumber x -> PrimFloat.leb neg_infinity x = true.
Proof.
  rewrite isNumber_eqb, FloatAxioms.leb_spec.
  change (Prim2SF neg_infinity) with (S754_infinity true).
  destruct (Prim2SF x) as [[|]|[|]| |[|] m e]; cbn; try discriminate; reflexivity.
Qed.
End FloatOrder.

(* ================================================================= *)
(** ** The smallest and the largest of a list of numbers *)

Lemma min2_number (lowest number : float) :
  isNumber lowest -> isNumber number ->
  PrimFloat.leb (JS.min2 lowest number) lowest = true
  /\ PrimFloat.leb (JS.min2 lowest number) number = true
  /\ (JS.min2 lowest number = lowest \/ JS.min2 lowest number = number).
Proof.
  intros Hl Hn. unfold JS.min2. rewrite Hl, Hn.
  destruct (PrimFloat.ltb number lowest) eqn:Hlt.
  - repeat split; [now apply ltb_leb | now apply leb_refl | now right].
  - destruct (PrimFloat.is_zero number && PrimFloat.is_zero lowest
              && PrimFloat.get_sign number) eqn:Hz.
    + apply andb_true_iff in Hz as [Hz _]. apply andb_true_iff in Hz as [Hzn Hzl].
      repeat split; [now apply zeros_leb | now apply leb_refl | now right].
    + repeat split; [now apply leb_refl | now apply leb_total | now left].
Qed.

Lemma max2_number (highest number : float) :
  isNumber highest -> isNumber number ->
  PrimFloat.leb highest (JS.max2 highest number) = true
  /\ PrimFloat.leb number (JS.max2 highest number) = true
  /\ (JS.max2 highest number = highest \/ JS.max2 highest number = number).
Proof.
  intros Hl Hn. unfold JS.max2. rewrite Hl, Hn.
  destruct (PrimFloat.ltb highest number) eqn:Hlt.
  - repeat split; [now apply ltb_leb | now apply leb_refl | now right].
  - destruct (PrimFloat.is_zero number && PrimFloat.is_zero highest
              && negb (PrimFloat.get_sign number)) eqn:Hz.
    + apply andb_true_iff in Hz as [Hz _]. apply andb_true_iff in Hz as [Hzn Hzl].
      repeat split; [now apply zeros_leb | now apply leb_refl | now right].
    + repeat split; [now apply leb_refl | now apply leb_total | now left].
Qed.

Lemma min_fold (prices : list float) (init : float) :
  isNumber init -> Forall isNumber prices ->
  let r := fold_left JS.min2 prices init in
  PrimFloat.leb r init = true
  /\ (forall x, In x prices -> PrimFloat.leb r x = true)
  /\ (r = init \/ In r prices).
Proof.
  revert init. induction prices as [|x prices IH]; intros init Hi Hall; cbn.
  - repeat split; [now apply leb_refl | intros _ [] | now left].
  - apply Forall_cons_iff in Hall as [Hx Hall].
    destruct (min2_number init x Hi Hx) as (H1 & H2 & H3).
    assert (Hm : isNumber (JS.min2 init x)) by (destruct H3 as [-> | ->]; assumption).
    destruct (IH (JS.min2 init x) Hm Hall) as (I1 & I2 & I3).
    repeat split.
    + eapply leb_trans; [exact I1 | exact H1].
    + intros y [<- | Hy]; [eapply leb_trans; [exact I1 | exact H2] | now apply I2].
    + destruct I3 as [I3 | I3]; [|right; now right].
      rewrite I3. destruct H3 as [-> | ->]; [now left | right; now left].
Qed.

Lemma max_fold (prices : list float) (init : float) :
  isNumber init -> Forall isNumber prices ->
  let r := fold_left JS.max2 prices init in
  PrimFloat.leb init r = true
  /\ (forall x, In x prices -> PrimFloat.leb x r = true)
  /\ (r = init \/ In r prices).
Proof.
  revert init. induction prices as [|x prices IH]; intros init Hi Hall; cbn.
  - repeat split; [now apply leb_refl | intros _ [] | now left].
  - apply Forall_cons_iff in Hall as [Hx Hall].
    destruct (max2_number init x Hi Hx) as (H1 & H2 & H3).
    assert (Hm : isNumber (JS.max2 init x)) by (destruct H3 as [-> | ->]; assumption).
    destruct (IH (JS.max2 init x) Hm Hall) as (I1 & I2 & I3).
    repeat split.
    + eapply leb_trans; [exact H1 | exact I1].
    + intros y [<- | Hy]; [eapply leb_trans; [exact H2 | exact I1] | now apply I2].
    + destruct I3 as [I3 | I3]; [|right; now right].
      rewrite I3. destruct H3 as [-> | ->]; [now left | right; now left].
Qed.

Lemma Math_min_spread_least (prices : list float) :
  prices <> [] -> Forall isNumber prices ->
  In (JS.Math_min_spread prices) prices
  /\ forall x, In x prices -> PrimFloat.leb (JS.Math_min_spread prices) x = true.
Proof.
  intros Hne Hall. unfold JS.Math_min_spread.
  destruct (min_fold prices infinity eq_refl Hall) as (_ & H2 & H3).
  split; [|exact H2].
  destruct H3 as [H3 | H3]; [|exact H3].
  destruct prices as [|x prices]; [congruence|].
  rewrite H3. left. apply above_infinity. rewrite <- H3. apply H2. now left.
Qed.

Lemma Math_max_spread_greatest (prices : list float) :
  prices <> [] -> Forall isNumber prices ->
  In (JS.Math_max_spread prices) prices
  /\ forall x, In x prices -> PrimFloat.leb x (JS.Math_max_spread prices) = true.
Proof.
  intros Hne Hall. unfold JS.Math_max_spread.
  destruct (max_fold prices neg_infinity eq_refl Hall) as (_ & H2 & H3).
  split; [|exact H2].
  destruct H3 as [H3 | H3]; [|exact H3].
  destruct prices as [|x prices]; [congruence|].
  rewrite H3. left. apply below_neg_infinity. rewrite <- H3. apply H2. now left.
Qed.

Lemma min_fold_nan (prices : list float) (init : float) :
  PrimFloat.is_nan init = true \/ Exists (fun x => PrimFloat.is_nan x = true) prices ->
  PrimFloat.is_nan (fold_left JS.min2 prices init) = true.
Proof.
  revert init. induction prices as [|x prices IH]; intros init H; cbn.
  - destruct H as [H | H]; [exact H | inversion H].
  - apply IH. unfold JS.min2.
    destruct (PrimFloat.is_nan init) eqn:Hi; [now left|].
    destruct H as [H | H]; [discriminate|].
    apply Exists_cons in H as [H | H]; [left; now rewrite H | now right].
Qed.

Lemma max_fold_nan (prices : list float) (init : float) :
  PrimFloat.is_nan init = true \/ Exists (fun x => PrimFloat.is_nan x = true) prices ->
  PrimFloat.is_nan (fold_left JS.max2 prices init) = true.
Proof.
  revert init. induction prices as [|x prices IH]; intros init H; cbn.
  - destruct H as [H | H]; [exact H | inversion H].
  - apply IH. unfold JS.max2.
    destruct (PrimFloat.is_nan init) eqn:Hi; [now left|].
    destruct H as [H | H]; [discriminate|].
    apply Exists_cons in H as [H | H]; [left; now rewrite H | now right].
Qed.

(** X16.  For a list of products that is not empty, [getPriceRange]
    reports as [min] and [max] the price of a product of the list, and no
    product of the list is cheaper than [min] or dearer than [max],
    provided every price is a number; as soon as one price is NaN, both
    [min] and [max] are NaN. *)
Theorem getPriceRange_bounds (products : list Product.t) :
  products <> [] ->
  let range := ProductAPI.getPriceRange products in
  (Forall (fun p => isNumber (Product.price p)) products ->
   (exists p, In p products /\ Product.price p = ProductAPI.PriceRange.min range)
   /\ (exists p, In p products /\ Product.price p = ProductAPI.PriceRange.max range)
   /\ forall p, In p products ->
        PrimFloat.leb (ProductAPI.PriceRange.min range) (Product.price p) = true
        /\ PrimFloat.leb (Product.price p) (ProductAPI.PriceRange.max range) = true)
  /\ (Exists (fun p => PrimFloat.is_nan (Product.price p) = true) products ->
      PrimFloat.is_nan (ProductAPI.PriceRange.min range) = true
      /\ PrimFloat.is_nan (ProductAPI.PriceRange.max range) = true).
Proof.
  intros Hne. cbv zeta. unfold ProductAPI.getPriceRange.
  destruct products as [|p0 products]; [congruence|].
  cbn [List.length Nat.eqb ProductAPI.PriceRange.min ProductAPI.PriceRange.max].
  set (ps := p0 :: products).
  split.
  - intros Hall.
    assert (Hnum : Forall isNumber (map Product.price ps)).
    { apply Forall_map. exact Hall. }
    assert (Hne' : map Product.price ps <> []) by discriminate.
    destruct (Math_min_spread_least _ Hne' Hnum) as [Hmin Hlow].
    destruct (Math_max_spread_greatest _ Hne' Hnum) as [Hmax Hhigh].
    apply in_map_iff in Hmin, Hmax.
    destruct Hmin as (pmin & Epmin & Hpmin).
    destruct Hmax as (pmax & Epmax & Hpmax).
    split; [now exists pmin|]. split; [now exists pmax|].
    intros p Hp. split; [apply Hlow | apply Hhigh]; now apply in_map.
  - intros Hnan.
    assert (Hex : Exists (fun x => PrimFloat.is_nan x = true) (map Product.price ps)).
    { apply Exists_exists in Hnan as (p & Hp & Hn).
      apply Exists_exists. exists (Product.price p). split; [now apply in_map | exact Hn]. }
    split; [apply min_fold_nan | apply max_fold_nan]; now right.
Qed.

Lemma getPriceRange_bounds_witness :
  exists p, In p sevenProducts
            /\ Product.price p
               = ProductAPI.PriceRange.min (ProductAPI.getPriceRange sevenProducts).
Proof.
  refine (proj1 (proj1 (getPriceRange_bounds sevenProducts _) _)).
  - discriminate.
  - repeat constructor.
Defined.

(** No product gives a range of zeros; the average is rounded to cents. *)
Example getPriceRange_values :
  ProductAPI.getPriceRange []
  = ProductAPI.PriceRange.mk 0%float 0%float 0%float
  /\ ProductAPI.getPriceRange sevenProducts
     = ProductAPI.PriceRange.mk 10%float 70%float 40%float
  /\ ProductAPI.PriceRange.average
       (ProductAPI.getPriceRange
          [product "a" 0.1%float 1; product "b" 0.2%float 1; product "c" 0.25%float 1])
     = 0.18%float.
Proof. repeat split; vm_compute; reflexivity. Qed.

(* ================================================================= *)
(** ** Facets *)

Section FacetFacts.
Variable inherited : string -> bool.

Lemma own_assign (o : JS.Table) (k : string) (v : JS.Num) (c : string) :
  JS.own (JS.assign o k v) c = if String.eqb k c then Some v else JS.own o c.
Proof.
  unfold JS.own. induction o as [|[k' v'] o IH]; cbn.
  - now destruct (String.eqb k c).
  - destruct (String.eqb_spec k' k) as [-> | Hk]; cbn.
    + now destruct (String.eqb k c).
    + destruct (String.eqb_spec k' c) as [-> | Hc]; cbn.
      * apply String.eqb_neq in Hk. rewrite String.eqb_sym in Hk. now rewrite Hk.
      * exact IH.
Qed.

Lemma own_put (o : JS.Table) (k : string) (v : JS.Num) (c : string) :
  inherited k = false ->
  JS.own (JS.put inherited o k v) c = if String.eqb k c then Some v else JS.own o c.
Proof.
  intros Hk. unfold JS.put. rewrite Hk, andb_false_r. apply own_assign.
Qed.

Lemma countCategory_own (table : JS.Table) (p : Product.t) (f : string -> Z) :
  (forall c, 0 <= f c) ->
  (forall c, JS.own table c = counted (f c)) ->
  inherited (Product.category p) = false ->
  forall c,
    JS.own (ProductAPI.countCategory inherited table p) c
    = counted (f c + if String.eqb (Product.category p) c then 1 else 0).
Proof.
  intros Hf Hown Hk c. unfold ProductAPI.countCategory.
  set (k := Product.category p) in *.
  set (t1 := if negb (JS.truthyAt inherited table k)
             then JS.put inherited table k (JS.Int 0) else table).
  pose proof (Hf k) as Hfk.
  assert (H1 : JS.own t1 k = Some (JS.Int (f k))
               /\ forall c', c' <> k -> JS.own t1 c' = JS.own table c').
  { unfold t1, JS.truthyAt. rewrite (Hown k). unfold counted.
    destruct (Z.eqb_spec (f k) 0) as [H0 | H0].
    - rewrite Hk. cbn [negb]. split.
      + rewrite own_put by assumption. now rewrite String.eqb_refl, H0.
      + intros c' Hc. rewrite own_put by assumption.
        destruct (String.eqb_spec k c'); [congruence | reflexivity].
    - destruct (Z.eqb_spec (f k) 0) as [|_]; [contradiction|]. cbn [negb].
      split; [|reflexivity]. rewrite Hown. unfold counted.
      destruct (Z.eqb_spec (f k) 0) as [|_]; [contradiction | reflexivity]. }
  destruct H1 as [H1k H1o].
  unfold JS.increment. rewrite H1k. rewrite own_put by assumption.
  destruct (String.eqb_spec k c) as [<- | Hc].
  - unfold counted. destruct (Z.eqb_spec (f k + 1) 0); [lia | reflexivity].
  - rewrite Z.add_0_r, H1o by congruence. apply Hown.
Qed.

Lemma inCategory_cons (p : Product.t) (products : list Product.t) (c : string) :
  inCategory (p :: products) c
  = (if String.eqb (Product.category p) c then 1 else 0) + inCategory products c.
Proof.
  unfold inCategory, ProductAPI.getProductsByCategory. cbn [filter].
  destruct (String.eqb (Product.category p) c); cbn [List.length]; lia.
Qed.

Lemma inCategory_nonneg (products : list Product.t) (c : string) :
  0 <= inCategory products c.
Proof.
  unfold inCategory. lia.
Qed.

Lemma countCategory_fold (products : list Product.t) :
  Forall (fun p => inherited (Product.category p) = false) products ->
  forall (table : JS.Table) (f : string -> Z),
    (forall c, 0 <= f c) ->
    (forall c, JS.own table c = counted (f c)) ->
    forall c,
      JS.own (fold_left (ProductAPI.countCategory inherited) products table) c
      = counted (f c + inCategory products c).
Proof.
  induction 1 as [|p products Hp _ IH]; intros table f Hf Hown c.
  - cbn. unfold inCategory. cbn. rewrite Z.add_0_r. apply Hown.
  - cbn [fold_left].
    rewrite (IH _ (fun c => f c + if String.eqb (Product.category p) c then 1 else 0)).
    + rewrite inCategory_cons. f_equal. lia.
    + intros c'. pose proof (Hf c'). destruct (String.eqb _ c'); lia.
    + now apply countCategory_own.
Qed.

Lemma countRating_total (rc : ProductAPI.RatingCounts.t) (p : Product.t) :
  let rc' := ProductAPI.countRating rc p in
  ratedProducts rc <= ratedProducts rc' <= ratedProducts rc + 1
  /\ ProductAPI.RatingCounts.r1 rc <= ProductAPI.RatingCounts.r1 rc'
  /\ ProductAPI.RatingCounts.r2 rc <= ProductAPI.RatingCounts.r2 rc'
  /\ ProductAPI.RatingCounts.r3 rc <= ProductAPI.RatingCounts.r3 rc'
  /\ ProductAPI.RatingCounts.r4 rc <= ProductAPI.RatingCounts.r4 rc'
  /\ ProductAPI.RatingCounts.r5 rc <= ProductAPI.RatingCounts.r5 rc'.
Proof.
  cbv zeta. unfold ProductAPI.countRating, ProductAPI.bumpRating, ratedProducts.
  destruct rc as [r1 r2 r3 r4 r5].
  destruct (_ && _); [|cbn; lia].
  repeat match goal with
         | |- context [PrimFloat.eqb ?a ?b] => destruct (PrimFloat.eqb a b)
         end; cbn; lia.
Qed.

Lemma countRating_fold (products : list Product.t) (rc : ProductAPI.RatingCounts.t) :
  let rc' := fold_left ProductAPI.countRating products rc in
  ratedProducts rc <= ratedProducts rc'
                   <= ratedProducts rc + Z.of_nat (List.length products)
  /\ ProductAPI.RatingCounts.r1 rc <= ProductAPI.RatingCounts.r1 rc'
  /\ ProductAPI.RatingCounts.r2 rc <= ProductAPI.RatingCounts.r2 rc'
  /\ ProductAPI.RatingCounts.r3 rc <= ProductAPI.RatingCounts.r3 rc'
  /\ ProductAPI.RatingCounts.r4 rc <= ProductAPI.RatingCounts.r4 rc'
  /\ ProductAPI.RatingCounts.r5 rc <= ProductAPI.RatingCounts.r5 rc'.
Proof.
  revert rc. induction products as [|p products IH]; intros rc; cbn [fold_left].
  - cbn. lia.
  - pose proof (countRating_total rc p) as H1.
    pose proof (IH (ProductAPI.countRating rc p)) as H2.
    cbv zeta in *. cbn [List.length]. lia.
Qed.

Lemma fold_pair {A B C : Type} (g : A -> C -> A) (h : B -> C -> B)
    (l : list C) (a : A) (b : B) :
  fold_left (fun acc x => (g (fst acc) x, h (snd acc) x)) l (a, b)
  = (fold_left g l a, fold_left h l b).
Proof.
  revert a b. induction l as [|x l IH]; intros a b; cbn; [reflexivity|].
  apply IH.
Qed.

Lemma getSearchFacets_eq (products : list Product.t) :
  ProductAPI.getSearchFacets inherited products
  = ProductAPI.Facets.mk
      (fold_left (ProductAPI.countCategory inherited) products [])
      (ProductAPI.getPriceRange products)
      (fold_left ProductAPI.countRating products
         (ProductAPI.RatingCounts.mk 0 0 0 0 0))
      (Z.of_nat (List.length products))
      (Z.of_nat (List.length (filter Product.inStock products))).
Proof.
  unfold ProductAPI.getSearchFacets. now rewrite fold_pair.
Qed.
End FacetFacts.

(** X17.  When no product's category is a name that a plain object
    inherits, the [categories] table of [getSearchFacets] has an entry for
    exactly the categories that occur among the products, and the entry is
    the number of products [getProductsByCategory] finds for it.
    [totalProducts] is the number of products; [inStockCount] and the sum
    of the five rating buckets never exceed it, and no bucket is
    negative. *)
Theorem getSearchFacets_counts (inherited : string -> bool)
    (products : list Product.t) :
  Forall (fun p => inherited (Product.category p) = false) products ->
  let facets := ProductAPI.getSearchFacets inherited products in
  (forall category,
      JS.own (ProductAPI.Facets.categories facets) category
      = counted (inCategory products category))
  /\ ProductAPI.Facets.totalProducts facets = Z.of_nat (List.length products)
  /\ 0 <= ProductAPI.Facets.inStockCount facets
       <= ProductAPI.Facets.totalProducts facets
  /\ ratedProducts (ProductAPI.Facets.ratingCounts facets)
     <= ProductAPI.Facets.totalProducts facets
  /\ 0 <= ProductAPI.RatingCounts.r1 (ProductAPI.Facets.ratingCounts facets)
  /\ 0 <= ProductAPI.RatingCounts.r2 (ProductAPI.Facets.ratingCounts facets)
  /\ 0 <= ProductAPI.RatingCounts.r3 (ProductAPI.Facets.ratingCounts facets)
  /\ 0 <= ProductAPI.RatingCounts.r4 (ProductAPI.Facets.ratingCounts facets)
  /\ 0 <= ProductAPI.RatingCounts.r5 (ProductAPI.Facets.ratingCounts facets).
Proof.
  intros Hcat. cbv zeta. rewrite getSearchFacets_eq.
  cbn [ProductAPI.Facets.categories ProductAPI.Facets.totalProducts
       ProductAPI.Facets.inStockCount ProductAPI.Facets.ratingCounts].
  split; [|split; [reflexivity | split]].
  - intros c.
    rewrite (countCategory_fold inherited products Hcat [] (fun _ => 0));
      [reflexivity | intros; lia | reflexivity].
  - pose proof (filter_length_le Product.inStock products). lia.
  - pose proof (countRating_fold products (ProductAPI.RatingCounts.mk 0 0 0 0 0)) as H.
    cbv zeta in H. cbn [ratedProducts ProductAPI.RatingCounts.r1
      ProductAPI.RatingCounts.r2 ProductAPI.RatingCounts.r3
      ProductAPI.RatingCounts.r4 ProductAPI.RatingCounts.r5] in H.
    unfold ratedProducts at 1 in H. cbn in H. lia.
Qed.

Lemma getSearchFacets_counts_witness :
  JS.own
    (ProductAPI.Facets.categories
       (ProductAPI.getSearchFacets standardNames sevenProducts)) "phones"
  = counted (inCategory sevenProducts "phones").
Proof.
  refine (proj1 (getSearchFacets_counts standardNames sevenProducts _) "phones").
  repeat constructor.
Defined.

(** A category named like a method of [Object.prototype] is miscounted:
    the first product finds the inherited function in the table and its
    count becomes NaN; the next one finds NaN and starts again from 0. *)
Example getSearchFacets_inherited_name :
  let gadget := Product.mk "g" "g" "" "constructor" 1%float 4%float 1 1 [] []
                  true false false in
  ProductAPI.Facets.categories
    (ProductAPI.getSearchFacets standardNames [gadget]) = [("constructor", JS.NaN)]
  /\ ProductAPI.Facets.categories
       (ProductAPI.getSearchFacets standardNames [gadget; gadget; gadget])
     = [("constructor", JS.Int 2)].
Proof. split; vm_compute; reflexivity. Qed.

(** A rating goes to the bucket of its integer part; one below 1, from 6
    up, or NaN goes to none. *)
Example getSearchFacets_ratings :
  let rated id rating :=
    Product.mk id id "" "phones" 1%float rating 1 1 [] [] true false false in
  ProductAPI.Facets.ratingCounts
    (ProductAPI.getSearchFacets standardNames
       [rated "a" 4.7%float; rated "b" 4%float; rated "c" 0.9%float;
        rated "d" 5%float; rated "e" 5.99%float; rated "f" 6%float;
        rated "g" nan; rated "h" 1%float; rated "i" (-3.5)%float])
  = ProductAPI.RatingCounts.mk 1 0 0 2 2.
Proof. vm_compute. reflexivity. Qed.

(* ================================================================= *)
(** ** The composite search *)




(** A search for the phones in stock from 20 to 60, cheapest first, two
    per page, second page. *)
Example advancedSearch_page :
  let searchParams :=
    ProductAPI.SearchParams.mk (Some "phones") None (Some 20%float)
      (Some 60%float) None true false false (Some "price") (Some "asc")
      (Some 2) (Some 2) in
  let result :=
    ProductAPI.advancedSearch (fun _ _ => 0) standardNames sevenProducts
      searchParams in
  map Product.id (ProductAPI.Page.items (ProductAPI.SearchResult.paginated result))
  = ["p4"; "p5"]
  /\ ProductAPI.Page.total (ProductAPI.SearchResult.paginated result) = 5
  /\ ProductAPI.Facets.categories (ProductAPI.SearchResult.facets result)
     = [("phones", JS.Int 5)].
Proof. repeat split; vm_compute; reflexivity. Qed.

(* ================================================================= *)
(** ** Facts used by the callers *)

Section CallerFacts.
Variable products : list Product.t.
Variable now : Z.

Lemma skipn_app_exact {A : Type} (l m : list A) :
  skipn (List.length l) (l ++ m) = m.
Proof.
  induction l as [|x l IH]; [reflexivity | exact IH].
Qed.

Lemma eventsSince_same (c : Cart.t) : CartManager.eventsSince c c = [].
Proof.
  unfold CartManager.eventsSince. apply skipn_all.
Qed.

Lemma eventsSince_notify (e : Cart.Event) (l : list CartItem.t) (c : Cart.t) :
  CartManager.eventsSince c
    (Cart.notifyListeners e (Cart.saveToStorage now (Cart.setItems l c)))
  = [e].
Proof.
  unfold CartManager.eventsSince. cbn. apply skipn_app_exact.
Qed.

Lemma eventsSince_save (l : list CartItem.t) (c : Cart.t) :
  CartManager.eventsSince c (Cart.saveToStorage now (Cart.setItems l c)) = [].
Proof.
  unfold CartManager.eventsSince. cbn. apply skipn_all.
Qed.

Lemma afterCart_same (m : CartManager.t) :
  CartManager.afterCart (CartManager.cart m) m = m.
Proof.
  unfold CartManager.afterCart. rewrite eventsSince_same.
  destruct m as [c i s]; cbn. destruct i; now rewrite app_nil_r.
Qed.

(** The verdict of [validateCart]: valid when no line has to go. *)
Lemma validateCart_verdict (c : Cart.t) :
  Validation.isValid (fst (Cart.validateCart products now c))
  = forallb (keepable products) (Cart.items c).
Proof.
  pose proof (validateCart_eq products now c) as Heq. cbv zeta in Heq.
  rewrite Heq. cbn [fst Validation.isValid].
  pose proof (dropped_iff products (Cart.items c)) as Hd.
  destruct (_ || _) eqn:Hdrop; cbn [negb]; symmetry.
  - apply not_true_is_false. intros Hall.
    destruct (proj1 Hd eq_refl) as (x & Hx & Hk).
    rewrite forallb_forall in Hall. rewrite (Hall x Hx) in Hk. discriminate.
  - apply forallb_forall. intros x Hx.
    destruct (keepable products x) eqn:Hk; [reflexivity|].
    assert (Hex : exists y, In y (Cart.items c) /\ keepable products y = false)
      by now exists x.
    apply Hd in Hex. discriminate.
Qed.

Lemma validateCart_events (c : Cart.t) :
  CartManager.eventsSince c (snd (Cart.validateCart products now c))
  = if Validation.isValid (fst (Cart.validateCart products now c)) then []
    else [Cart.ValidationFailed (fst (Cart.validateCart products now c))].
Proof.
  pose proof (validateCart_eq products now c) as Heq. cbv zeta in Heq.
  rewrite Heq. cbn [fst snd Validation.isValid].
  destruct (_ || _); cbn [negb].
  - apply eventsSince_notify.
  - apply eventsSince_save.
Qed.

Lemma validateCart_persisted (c : Cart.t) :
  persisted now (snd (Cart.validateCart products now c)).
Proof.
  pose proof (validateCart_eq products now c) as Heq. cbv zeta in Heq.
  rewrite Heq. cbn [snd]. destruct (_ || _); reflexivity.
Qed.

Lemma validateCart_report (c : Cart.t) :
  Validation.invalidItems (fst (Cart.validateCart products now c))
  = map invalidEntry (filter (missing products) (Cart.items c))
  /\ Validation.outOfStockItems (fst (Cart.validateCart products now c))
     = map (outOfStockEntry products) (filter (soldOut products) (Cart.items c))
  /\ Validation.updatedItems (fst (Cart.validateCart products now c))
     = map (updatedEntry products)
         (filter (fun i => keepable products i && overStock products i)
            (Cart.items c)).
Proof.
  pose proof (validateCart_eq products now c) as Heq. cbv zeta in Heq.
  rewrite Heq. repeat split.
Qed.

Lemma validateCart_sellable (c : Cart.t) :
  Forall (sellable products) (Cart.items (snd (Cart.validateCart products now c))).
Proof.
  rewrite validateCart_items. apply Forall_forall.
  intros y Hy. apply in_map_iff in Hy as (x & <- & Hx).
  apply filter_In in Hx as [_ Hk].
  destruct (clamp_reads_id products now x) as (H1 & H2 & H3).
  unfold sellable. rewrite H1, H2, H3. split; [exact Hk | lia].
Qed.

Lemma updateItemQuantity_Thrown (productId : string) (q : Z) (c c' : Cart.t)
    (e : Cart.Error) :
  Cart.updateItemQuantity products now productId q c = Cart.Thrown e c' -> c' = c.
Proof.
  unfold Cart.updateItemQuantity.
  destruct (String.eqb productId "" || (q <? 0)); [congruence|].
  destruct (Cart.MAX_QUANTITY <? q); [congruence|].
  destruct (JS.findIndex (Cart.hasId productId) (Cart.items c)); [|congruence].
  destruct (ProductAPI.getProductById products productId) as [p|];
    [destruct (Product.stock p <? q); [congruence|]|];
    (destruct (q =? 0);
     [destruct (Cart.removeItem now productId None c)|]; discriminate).
Qed.

Lemma updateItemQuantity_sets (productId : string) (q : Z) (c : Cart.t) (i : nat) :
  productId <> "" -> 1 <= q <= Cart.MAX_QUANTITY ->
  JS.findIndex (Cart.hasId productId) (Cart.items c) = Some i ->
  (forall p, ProductAPI.getProductById products productId = Some p ->
             q <= Product.stock p) ->
  Cart.updateItemQuantity products now productId q c
  = Cart.Returned true
      (Cart.notifyListeners (Cart.Update productId q)
         (Cart.saveToStorage now
            (Cart.setItems
               (JS.update_at i (CartItem.setQuantity q now) (Cart.items c)) c))).
Proof.
  intros Hid Hq Hi Hw. unfold Cart.updateItemQuantity.
  apply String.eqb_neq in Hid. rewrite Hid. cbn [orb].
  destruct (Z.ltb_spec q 0); [lia|].
  destruct (Z.ltb_spec Cart.MAX_QUANTITY q); [lia|].
  rewrite Hi.
  destruct (ProductAPI.getProductById products productId) as [p|].
  - specialize (Hw p eq_refl).
    destruct (Z.ltb_spec (Product.stock p) q); [lia|].
    destruct (Z.eqb_spec q 0); [lia | reflexivity].
  - destruct (Z.eqb_spec q 0); [lia | reflexivity].
Qed.

Lemma updateItemQuantity_over (productId : string) (q : Z) (c : Cart.t) (i : nat)
    (p : Product.t) :
  productId <> "" -> 0 <= q <= Cart.MAX_QUANTITY ->
  JS.findIndex (Cart.hasId productId) (Cart.items c) = Some i ->
  ProductAPI.getProductById products productId = Some p ->
  Product.stock p < q ->
  Cart.updateItemQuantity products now productId q c
  = Cart.Thrown (Cart.StockExceededError (Product.stock p)) c.
Proof.
  intros Hid Hq Hi Hp Hover. unfold Cart.updateItemQuantity.
  apply String.eqb_neq in Hid. rewrite Hid. cbn [orb].
  destruct (Z.ltb_spec q 0); [lia|].
  destruct (Z.ltb_spec Cart.MAX_QUANTITY q); [lia|].
  rewrite Hi, Hp.
  destruct (Z.ltb_spec (Product.stock p) q); [reflexivity | lia].
Qed.

Lemma updateItemQuantity_absent (productId : string) (q : Z) (c : Cart.t) :
  JS.findIndex (Cart.hasId productId) (Cart.items c) = None ->
  exists e, Cart.updateItemQuantity products now productId q c = Cart.Thrown e c.
Proof.
  intros Hi. unfold Cart.updateItemQuantity.
  destruct (String.eqb productId "" || (q <? 0)); [now eexists|].
  destruct (Cart.MAX_QUANTITY <? q); [now eexists|].
  rewrite Hi. now eexists.
Qed.

Lemma stored_line (c : Cart.t) (productId : string) (i : nat) :
  cartOk products (Cart.items c) ->
  JS.findIndex (Cart.hasId productId) (Cart.items c) = Some i ->
  exists x,
    nth_error (Cart.items c) i = Some x
    /\ CartItem.id x = productId
    /\ Cart.getItemQuantity c productId = CartItem.quantity x
    /\ lineOk products x.
Proof.
  intros [Hall _] Hi.
  destruct (findIndex_Some _ _ _ Hi) as (x & Hx & Hidx).
  exists x. split; [exact Hx|]. split; [now apply hasId_true in Hidx|].
  split; [now apply (getItemQuantity_found c productId i x)|].
  rewrite Forall_forall in Hall. apply Hall. now apply nth_error_In in Hx.
Qed.
End CallerFacts.

(* ================================================================= *)
(** ** Checkout *)

(** X19.  [handleCheckout] shows exactly one toast.  It opens the checkout
    form exactly when the cart has a line and every line's product is live
    and in stock; the cart it then proceeds with has been saved and every
    line of it is within the stock of its product.  On an empty cart it
    changes nothing.  After the request to review the cart, a second
    attempt over the same catalog opens the form or finds the cart empty:
    the request is never made twice in a row. *)
Theorem handleCheckout_gate (products : list Product.t) (now : Z)
    (m : CartManager.t) :
  let r := UIManager.handleCheckout products now m in
  let m' := fst (fst r) in
  let lines := Cart.items (CartManager.cart m) in
  (exists toast, snd (fst r) = [toast])
  /\ (snd r = true
      <-> lines <> [] /\ Forall (fun item => keepable products item = true) lines)
  /\ (lines = [] -> m' = m /\ snd (fst r) = [emptyCartToast])
  /\ (snd r = true ->
      Cart.items (CartManager.cart m') <> []
      /\ Forall (sellable products) (Cart.items (CartManager.cart m'))
      /\ persisted now (CartManager.cart m'))
  /\ (forall now',
        snd (fst r) = [reviewToast] ->
        let r' := UIManager.handleCheckout products now' m' in
        snd r' = true \/ snd (fst r') = [emptyCartToast]).
Proof.
  cbv zeta. unfold UIManager.handleCheckout, Cart.isEmpty.
  destruct (Cart.items (CartManager.cart m)) as [|x l] eqn:Hitems.
  { cbn. repeat split; try discriminate; try tauto;
      try (now eexists); try (intros [H _]; congruence). }
  cbn [List.length Nat.eqb].
  pose proof (validateCart_verdict products now (CartManager.cart m)) as Hv.
  pose proof (validateCart_items products now (CartManager.cart m)) as Hi.
  pose proof (validateCart_sellable products now (CartManager.cart m)) as Hs.
  pose proof (validateCart_persisted products now (CartManager.cart m)) as Hp.
  destruct (Cart.validateCart products now (CartManager.cart m)) as [v c'].
  cbn [fst snd] in Hv, Hi, Hs, Hp. rewrite Hitems in Hv, Hi.
  destruct (Validation.isValid v) eqn:Hvalid; cbn [negb fst snd].
  - symmetry in Hv. rewrite forallb_forall in Hv.
    assert (Hall : Forall (fun item => keepable products item = true) (x :: l))
      by now apply Forall_forall.
    assert (Hne : Cart.items c' <> []).
    { rewrite Hi, (filter_all _ _ Hall). discriminate. }
    split; [now eexists|]. split; [|split; [discriminate|split]].
    + split; [intros _; split; [discriminate | exact Hall] | reflexivity].
    + intros _. cbn. auto.
    + discriminate.
  - split; [now eexists|]. split; [|split; [discriminate|split]].
    + split; [discriminate|]. intros [_ Hall].
      assert (Ht : forallb (keepable products) (x :: l) = true).
      { apply forallb_forall. now apply Forall_forall. }
      congruence.
    + discriminate.
    + intros now' _.
      cbn [CartManager.afterCart CartManager.cart].
      destruct (Cart.items c') as [|y l'] eqn:Hc'; [right; reflexivity|].
      left. cbn [List.length Nat.eqb].
      pose proof (validateCart_verdict products now' c') as Hv'.
      destruct (Cart.validateCart products now' c') as [v' c''].
      cbn [fst] in Hv'.
      assert (Hok : forallb (keepable products) (Cart.items c') = true).
      { rewrite Hc'. apply forallb_forall. intros z Hz.
        rewrite Forall_forall in Hs. now destruct (Hs z Hz). }
      rewrite Hok in Hv'. now rewrite Hv'.
Qed.

(** A ghost line blocks the first attempt and is gone at the second. *)
Example handleCheckout_second_attempt :
  let ps := [product "p1" 10%float 3] in
  let m := CartManager.mk (cartOf [line "p1" 7; line "ghost" 2]) false [] in
  let first := UIManager.handleCheckout ps 1 m in
  let second := UIManager.handleCheckout ps 2 (fst (fst first)) in
  snd (fst first) = [reviewToast] /\ snd first = false
  /\ snd second = true
  /\ map (fun i => (CartItem.id i, CartItem.quantity i))
       (Cart.items (CartManager.cart (fst (fst second)))) = [("p1", 3)].
Proof. repeat split. Qed.

(* ================================================================= *)
(** ** The quantity buttons *)

(** X20.  On a cart that satisfies the invariant of the line items,
    [handleQuantityChange] keeps the invariant, never adds or removes a
    line and never touches another product.  An action other than
    ['increase'] and ['decrease'] does nothing.  ['decrease'] lowers the
    stored quantity by one but never below 1; ['increase'] raises it by one
    but never above 10, when the stock of the live product allows it, and
    shows the stock error and changes nothing when it does not.  For a
    product the cart does not have, both actions show an error and leave
    the cart as it was. *)
Theorem handleQuantityChange_steps (products : list Product.t) (now : Z)
    (productId action : string) (m : CartManager.t) :
  cartOk products (Cart.items (CartManager.cart m)) ->
  let c := CartManager.cart m in
  let q := Cart.getItemQuantity c productId in
  let m' := CartManager.handleQuantityChange products now productId action m in
  let c' := CartManager.cart m' in
  let q' := Cart.getItemQuantity c' productId in
  cartOk products (Cart.items c')
  /\ map CartItem.id (Cart.items c') = map CartItem.id (Cart.items c)
  /\ (forall other, other <> productId ->
        storedQuantity (Cart.items c') other = storedQuantity (Cart.items c) other)
  /\ (action <> "increase" -> action <> "decrease" -> m' = m)
  /\ (Cart.hasItem c productId = false ->
      action = "increase" \/ action = "decrease" ->
      c' = c
      /\ exists error,
           CartManager.shown m' = CartManager.shown m ++ [errorShown error])
  /\ (Cart.hasItem c productId = true -> productId <> "" ->
      (action = "decrease" ->
       q' = Z.max (q - 1) 1 /\ CartManager.shown m' = CartManager.shown m)
      /\ (action = "increase" ->
          (forall p, ProductAPI.getProductById products productId = Some p ->
                     q < Product.stock p) ->
          q' = Z.min (q + 1) Cart.MAX_QUANTITY
          /\ CartManager.shown m' = CartManager.shown m)
      /\ (action = "increase" -> q < Cart.MAX_QUANTITY ->
          forall p, ProductAPI.getProductById products productId = Some p ->
                    Product.stock p <= q ->
                    c' = c
                    /\ CartManager.shown m'
                       = CartManager.shown m
                         ++ [errorShown (Cart.StockExceededError (Product.stock p))])).
Proof.
  intros Hok. cbv zeta.
  set (c := CartManager.cart m). set (q := Cart.getItemQuantity c productId).
  (* What a successful update to [n] leaves behind. *)
  assert (Hset : forall n i x,
             JS.findIndex (Cart.hasId productId) (Cart.items c) = Some i ->
             nth_error (Cart.items c) i = Some x ->
             Cart.updateItemQuantity products now productId n c
             = Cart.Returned true
                 (Cart.notifyListeners (Cart.Update productId n)
                    (Cart.saveToStorage now
                       (Cart.setItems
                          (JS.update_at i (CartItem.setQuantity n now) (Cart.items c))
                          c))) ->
             let m' := CartManager.afterCart
                         (Cart.notifyListeners (Cart.Update productId n)
                            (Cart.saveToStorage now
                               (Cart.setItems
                                  (JS.update_at i (CartItem.setQuantity n now)
                                     (Cart.items c)) c))) m in
             cartOk products (Cart.items (CartManager.cart m'))
             /\ map CartItem.id (Cart.items (CartManager.cart m'))
                = map CartItem.id (Cart.items c)
             /\ (forall other, other <> productId ->
                   storedQuantity (Cart.items (CartManager.cart m')) other
                   = storedQuantity (Cart.items c) other)
             /\ Cart.getItemQuantity (CartManager.cart m') productId = n
             /\ CartManager.shown m' = CartManager.shown m).
  { intros n i x Hi Hx Hup. cbv zeta.
    assert (Hshown : CartManager.shown
                       (CartManager.afterCart
                          (Cart.notifyListeners (Cart.Update productId n)
                             (Cart.saveToStorage now
                                (Cart.setItems
                                   (JS.update_at i (CartItem.setQuantity n now)
                                      (Cart.items c)) c))) m)
                     = CartManager.shown m).
    { unfold CartManager.afterCart. cbn [CartManager.shown]. fold c.
      rewrite (eventsSince_notify now). cbn.
      destruct (CartManager.isInitialized m); now rewrite app_nil_r. }
    revert Hshown.
    cbn [CartManager.afterCart CartManager.cart Cart.items Cart.notifyListeners
         Cart.saveToStorage Cart.setItems].
    intros Hshown.
    assert (Hidx : CartItem.id x = productId).
    { destruct (findIndex_Some _ _ _ Hi) as (x' & Hx' & Hid').
      assert (x' = x) by congruence. subst x'. now apply hasId_true in Hid'. }
    split; [|split; [|split; [|split]]].
    - apply (updateItemQuantity_keeps_cartOk products now productId n c _ true Hok) in Hup.
      exact Hup.
    - apply map_update_at. reflexivity.
    - intros other Hother. unfold storedQuantity.
      rewrite find_update_at_other; [reflexivity|].
      intros y Hy. assert (y = x) by congruence. subst y.
      split; now apply (hasId_other other productId).
    - rewrite getItemQuantity_stored.
      cbn [Cart.items Cart.notifyListeners Cart.saveToStorage Cart.setItems].
      unfold storedQuantity.
      rewrite find_update_at_first by (assumption || reflexivity).
      now rewrite find_findIndex, Hi, Hx.
    - exact Hshown. }
  unfold CartManager.handleQuantityChange. fold c. fold q.
  set (n := if String.eqb action "increase" then Z.min (q + 1) Cart.MAX_QUANTITY
            else if String.eqb action "decrease" then Z.max (q - 1) 1 else q).
  destruct (JS.findIndex (Cart.hasId productId) (Cart.items c)) as [i|] eqn:Hi.
  - (* the cart has the product *)
    destruct (stored_line products c productId i Hok Hi)
      as (x & Hx & Hidx & Hq & [Hrange Hstock]).
    fold q in Hq.
    assert (Hhas : Cart.hasItem c productId = true)
      by (rewrite hasItem_findIndex, Hi; reflexivity).
    rewrite Hidx in Hstock.
    destruct (Z.eqb_spec n q) as [Hnq | Hnq]; cbn [negb].
    + (* nothing to do *)
      split; [exact Hok|]. split; [reflexivity|]. split; [reflexivity|].
      split; [reflexivity|]. split; [congruence|].
      intros _ Hid. fold c. fold q. unfold n in Hnq.
      split; [|split].
      * intros ->. cbn in Hnq. split; [lia | reflexivity].
      * intros -> _. cbn in Hnq. split; [lia | reflexivity].
      * intros -> Hmax p Hp Hle. cbn in Hnq. lia.
    + destruct (String.eqb_spec action "increase") as [Hinc | Hinc];
        [|destruct (String.eqb_spec action "decrease") as [Hdec | Hdec];
          [|unfold n in Hnq; congruence]].
      * (* increase *)
        assert (Hn : n = q + 1 /\ q < Cart.MAX_QUANTITY).
        { unfold n in *. unfold Cart.MAX_QUANTITY in *. lia. }
        destruct Hn as [Hn Hlt].
        destruct (ProductAPI.getProductById products productId) as [p|] eqn:Hp.
        -- destruct (Z_lt_le_dec q (Product.stock p)) as [Hroom | Hfull].
           ++ destruct (String.eqb_spec productId "") as [-> | Hid].
              ** unfold Cart.updateItemQuantity. cbn [String.eqb orb].
                 rewrite (afterCart_same m : CartManager.afterCart c m = m). cbn [CartManager.showNotification
                   CartManager.cart].
                 split; [exact Hok|]. split; [reflexivity|].
                 split; [reflexivity|]. split; [congruence|].
                 split; [congruence|]. intros _ Hid. congruence.
              ** assert (Hup := updateItemQuantity_sets products now productId n c i
                                  Hid ltac:(unfold Cart.MAX_QUANTITY in *; lia) Hi
                                  ltac:(intros p' Hp'; rewrite Hp in Hp'; injection Hp' as <-; lia)).
                 rewrite Hup.
                 destruct (Hset n i x eq_refl Hx Hup) as (S1 & S2 & S3 & S4 & S5).
                 split; [exact S1|]. split; [exact S2|]. split; [exact S3|].
                 split; [congruence|]. split; [congruence|].
                 intros _ _. split; [congruence|]. split.
                 --- intros _ _. split; [rewrite S4; lia | exact S5].
                 --- intros _ _ p' [= <-] Hle. lia.
           ++ destruct (String.eqb_spec productId "") as [-> | Hid].
              ** unfold Cart.updateItemQuantity. cbn [String.eqb orb].
                 rewrite (afterCart_same m : CartManager.afterCart c m = m). cbn [CartManager.showNotification
                   CartManager.cart].
                 split; [exact Hok|]. split; [reflexivity|].
                 split; [reflexivity|]. split; [congruence|].
                 split; [congruence|]. intros _ Hid. congruence.
              ** rewrite (updateItemQuantity_over products now productId n c i p
                            Hid ltac:(unfold Cart.MAX_QUANTITY in *; lia) Hi Hp
                            ltac:(lia)).
                 rewrite (afterCart_same m : CartManager.afterCart c m = m).
                 cbn [CartManager.showNotification CartManager.cart
                      CartManager.shown].
                 split; [exact Hok|]. split; [reflexivity|].
                 split; [reflexivity|]. split; [congruence|].
                 split; [congruence|].
                 intros _ _. split; [congruence|]. split.
                 --- intros _ Hroom. specialize (Hroom p eq_refl). lia.
                 --- intros _ _ p' [= <-] _. split; reflexivity.
        -- destruct (String.eqb_spec productId "") as [-> | Hid].
           ++ unfold Cart.updateItemQuantity. cbn [String.eqb orb].
              rewrite (afterCart_same m : CartManager.afterCart c m = m). cbn [CartManager.showNotification
                CartManager.cart].
              split; [exact Hok|]. split; [reflexivity|].
              split; [reflexivity|]. split; [congruence|].
              split; [congruence|]. intros _ Hid. congruence.
           ++ assert (Hup := updateItemQuantity_sets products now productId n c i
                               Hid ltac:(unfold Cart.MAX_QUANTITY in *; lia) Hi
                               ltac:(intros p' Hp'; rewrite Hp in Hp'; discriminate)).
              rewrite Hup.
              destruct (Hset n i x eq_refl Hx Hup) as (S1 & S2 & S3 & S4 & S5).
              split; [exact S1|]. split; [exact S2|]. split; [exact S3|].
              split; [congruence|]. split; [congruence|].
              intros _ _. split; [congruence|]. split.
              ** intros _ _. split; [rewrite S4; lia | exact S5].
              ** intros _ _ p' [=].
      * (* decrease *)
        assert (Hn : n = q - 1 /\ 2 <= q).
        { assert (Hn' : n = Z.max (q - 1) 1) by reflexivity. lia. }
        destruct Hn as [Hn Hge].
        destruct (String.eqb_spec productId "") as [-> | Hid].
        -- unfold Cart.updateItemQuantity. cbn [String.eqb orb].
           rewrite (afterCart_same m : CartManager.afterCart c m = m). cbn [CartManager.showNotification
             CartManager.cart].
           split; [exact Hok|]. split; [reflexivity|].
           split; [reflexivity|]. split; [congruence|].
           split; [congruence|]. intros _ Hid. congruence.
        -- assert (Hup := updateItemQuantity_sets products now productId n c i
                            Hid ltac:(unfold Cart.MAX_QUANTITY in *; lia) Hi
                            ltac:(intros p' Hp'; specialize (Hstock p' Hp'); lia)).
           rewrite Hup.
           destruct (Hset n i x eq_refl Hx Hup) as (S1 & S2 & S3 & S4 & S5).
           split; [exact S1|]. split; [exact S2|]. split; [exact S3|].
           split; [congruence|]. split; [congruence|].
           intros _ _. split; [|split].
           ++ intros _. split; [rewrite S4; lia | exact S5].
           ++ congruence.
           ++ congruence.
  - (* the cart does not have the product *)
    assert (Hhas : Cart.hasItem c productId = false)
      by (rewrite hasItem_findIndex, Hi; reflexivity).
    assert (Hq : q = 0) by (apply getItemQuantity_absent; exact Hi).
    destruct (Z.eqb_spec n q) as [Hnq | Hnq]; cbn [negb].
    + split; [exact Hok|]. split; [reflexivity|]. split; [reflexivity|].
      split; [reflexivity|]. split; [|congruence].
      intros _ [-> | ->]; unfold n in Hnq; cbn in Hnq;
        unfold Cart.MAX_QUANTITY in *; lia.
    + destruct (updateItemQuantity_absent products now productId n c Hi)
        as (e & He).
      rewrite He, (afterCart_same m : CartManager.afterCart c m = m).
      cbn [CartManager.showNotification CartManager.cart CartManager.shown].
      split; [exact Hok|]. split; [reflexivity|]. split; [reflexivity|].
      split; [|split; [|congruence]].
      * intros H1 H2. unfold n in Hnq.
        apply String.eqb_neq in H1, H2. rewrite H1, H2 in Hnq. congruence.
      * intros _ _. split; [reflexivity|]. now exists e.
Qed.

Lemma handleQuantityChange_steps_witness :
  let ps := [product "p1" 10%float 5] in
  let m := CartManager.mk (cartOf [line "p1" 1]) true [] in
  cartOk ps
    (Cart.items
       (CartManager.cart (CartManager.handleQuantityChange ps 3 "p1" "decrease" m))).
Proof.
  cbv zeta.
  refine (proj1 (handleQuantityChange_steps [product "p1" 10%float 5] 3 "p1"
                   "decrease" (CartManager.mk (cartOf [line "p1" 1]) true []) _)).
  split.
  - constructor; [|constructor].
    split; [cbn; unfold Cart.MAX_QUANTITY; lia|].
    intros p Hp. cbn in Hp. injection Hp as <-. cbn. lia.
  - cbn. constructor; [intros [] | constructor].
Defined.

(** The minus button stops at 1: the line stays.  The plus button stops at
    the stock, with the error, and at 10 without one. *)
Example handleQuantityChange_stops :
  let ps := [product "p1" 10%float 2; product "p2" 10%float 50] in
  let m := CartManager.mk (cartOf [line "p1" 1; line "p2" 10]) true [] in
  let quantities m :=
    map (fun i => (CartItem.id i, CartItem.quantity i))
      (Cart.items (CartManager.cart m)) in
  let once := CartManager.handleQuantityChange ps 1 "p1" "increase" m in
  let twice := CartManager.handleQuantityChange ps 2 "p1" "increase" once in
  CartManager.handleQuantityChange ps 1 "p1" "decrease" m = m
  /\ CartManager.handleQuantityChange ps 1 "p2" "increase" m = m
  /\ quantities once = [("p1", 2); ("p2", 10)]
  /\ quantities twice = [("p1", 2); ("p2", 10)]
  /\ CartManager.shown twice = [errorShown (Cart.StockExceededError 2)].
Proof. repeat split. Qed.

(* ================================================================= *)
(** ** What the manager announces *)

Lemma announced_length {A : Type} (before after type : string) (l : list A) :
  (if (0 <? List.length l)%nat
   then [Shown.mk (OfCount before (Z.of_nat (List.length l)) after) type]
   else [])
  = announced before (Z.of_nat (List.length l)) after type.
Proof.
  unfold announced. destruct l; reflexivity.
Qed.

(** X21.  [initialize] validates the cart before it registers the
    manager's listener: whatever that validation removes, nothing is
    announced, and a second [initialize] does nothing.  At checkout, on a
    cart that is not empty, an initialized manager announces a validation
    that drops a line: the number of lines removed for a missing product,
    the number removed for lack of stock and the number of quantities
    lowered, in that order, each only when it is not 0.  A validation that
    only lowers quantities announces nothing, and so does a manager that
    was not initialized. *)
Theorem validation_is_announced (products : list Product.t) (now : Z)
    (m : CartManager.t) :
  let lines := Cart.items (CartManager.cart m) in
  let started := CartManager.initialize products now m in
  CartManager.shown started = CartManager.shown m
  /\ CartManager.isInitialized started = true
  /\ (CartManager.isInitialized m = false ->
      CartManager.cart started
      = snd (Cart.validateCart products now (CartManager.cart m)))
  /\ (forall now', CartManager.initialize products now' started = started)
  /\ (lines <> [] ->
      CartManager.shown (fst (fst (UIManager.handleCheckout products now m)))
      = CartManager.shown m
        ++ (if CartManager.isInitialized m
               && negb (forallb (keepable products) lines)
           then
             announced "" (linesThat (missing products) lines)
               " item(s) removed from cart (no longer available)" "warning"
             ++ announced "" (linesThat (soldOut products) lines)
                  " item(s) removed from cart (out of stock)" "warning"
             ++ announced "Quantities updated for "
                  (linesThat (fun i => keepable products i && overStock products i)
                     lines)
                  " item(s) due to stock limitations" "info"
           else [])).
Proof.
  cbv zeta. split; [|split; [|split; [|split]]].
  - unfold CartManager.initialize.
    destruct (CartManager.isInitialized m); [reflexivity|].
    now destruct (Cart.validateCart products now (CartManager.cart m)).
  - unfold CartManager.initialize.
    destruct (CartManager.isInitialized m) eqn:Hi; [exact Hi|].
    now destruct (Cart.validateCart products now (CartManager.cart m)).
  - intros Hi. unfold CartManager.initialize. rewrite Hi.
    now destruct (Cart.validateCart products now (CartManager.cart m)).
  - intros now'. unfold CartManager.initialize at 1.
    assert (Hi : CartManager.isInitialized (CartManager.initialize products now m)
                 = true).
    { unfold CartManager.initialize.
      destruct (CartManager.isInitialized m) eqn:Hi; [exact Hi|].
      now destruct (Cart.validateCart products now (CartManager.cart m)). }
    now rewrite Hi.
  - intros Hne. unfold UIManager.handleCheckout, Cart.isEmpty.
    destruct (Cart.items (CartManager.cart m)) as [|x l] eqn:Hitems; [congruence|].
    cbn [List.length Nat.eqb].
    pose proof (validateCart_verdict products now (CartManager.cart m)) as Hv.
    pose proof (validateCart_events products now (CartManager.cart m)) as He.
    pose proof (validateCart_report products now (CartManager.cart m))
      as (R1 & R2 & R3).
    destruct (Cart.validateCart products now (CartManager.cart m)) as [v c'].
    cbn [fst snd] in Hv, He, R1, R2, R3. rewrite Hitems in Hv, R1, R2, R3.
    assert (Hshown : CartManager.shown (CartManager.afterCart c' m)
                     = CartManager.shown m
                       ++ (if CartManager.isInitialized m
                           then flat_map CartManager.handleCartEvent
                                  (if Validation.isValid v then []
                                   else [Cart.ValidationFailed v])
                           else [])).
    { unfold CartManager.afterCart. cbn [CartManager.shown]. now rewrite He. }
    assert (Hsame : CartManager.shown
                      (fst (fst (if negb (Validation.isValid v)
                                 then (CartManager.afterCart c' m, [reviewToast], false)
                                 else (CartManager.afterCart c' m,
                                       [Shown.mk (Text "Proceeding to checkout...")
                                          "success"], true))))
                    = CartManager.shown (CartManager.afterCart c' m))
      by now destruct (Validation.isValid v).
    unfold reviewToast in Hsame. rewrite Hsame, Hshown, Hv.
    destruct (CartManager.isInitialized m); [|reflexivity].
    destruct (forallb (keepable products) (x :: l)); [reflexivity|].
    cbn [andb negb flat_map CartManager.handleCartEvent].
    rewrite app_nil_r. unfold CartManager.handleValidationResults.
    rewrite R1, R2, R3, !announced_length, !length_map. reflexivity.
Qed.

Lemma validation_is_announced_witness :
  let ps := [product "p1" 10%float 3; product "p2" 20%float 0] in
  let m := CartManager.mk (cartOf [line "p1" 7; line "p2" 1; line "ghost" 2])
             true [] in
  CartManager.shown (fst (fst (UIManager.handleCheckout ps 1 m)))
  = [Shown.mk (OfCount "" 1 " item(s) removed from cart (no longer available)")
       "warning";
     Shown.mk (OfCount "" 1 " item(s) removed from cart (out of stock)") "warning";
     Shown.mk (OfCount "Quantities updated for " 1
                 " item(s) due to stock limitations") "info"].
Proof.
  cbv zeta.
  destruct (validation_is_announced
              [product "p1" 10%float 3; product "p2" 20%float 0] 1
              (CartManager.mk (cartOf [line "p1" 7; line "p2" 1; line "ghost" 2])
                 true []))
    as (_ & _ & _ & _ & H).
  apply H. discriminate.
Defined.

(** What the first validation removes at start-up is not announced, and a
    quantity lowered to the stock is not announced either. *)
Example silent_validations :
  let ps := [product "p1" 10%float 3] in
  let started :=
    CartManager.initialize ps 1
      (CartManager.mk (cartOf [line "p1" 2; line "ghost" 2]) false []) in
  let clamped :=
    UIManager.handleCheckout ps 2
      (CartManager.mk (cartOf [line "p1" 7]) true []) in
  map CartItem.id (Cart.items (CartManager.cart started)) = ["p1"]
  /\ CartManager.shown started = []
  /\ CartManager.shown (fst (fst clamped)) = []
  /\ snd clamped = true
  /\ map CartItem.quantity (Cart.items (CartManager.cart (fst (fst clamped)))) = [3].
Proof. repeat split. Qed.

(* ================================================================= *)
(** ** The add-to-cart button *)

Lemma addItem_Thrown (products : list Product.t) (now : Z) (productId : string)
    (quantity : option Z) (c c' : Cart.t) (e : Cart.Error) :
  Cart.addItem products now productId quantity c = Cart.Thrown e c' -> c' = c.
Proof.
  unfold Cart.addItem. cbv zeta.
  repeat match goal with
         | |- context [if ?b then _ else _] => destruct b
         | |- context [match ?o with Some _ => _ | None => _ end] => destruct o
         end; congruence.
Qed.

Lemma addItem_quantity (products : list Product.t) (now : Z) (productId : string)
    (quantity : option Z) (c c' : Cart.t) (r : bool) :
  Cart.addItem products now productId quantity c = Cart.Returned r c' ->
  Cart.getItemQuantity c' productId
  = Cart.getItemQuantity c productId
    + match quantity with Some q => q | None => 1 end.
Proof.
  intros Hadd.
  destruct (addItem_Returned _ _ _ _ _ _ _ Hadd)
    as (_ & _ & _ & p & Hp & _ & _ & _ & Hc').
  pose proof (getProductById_id _ _ _ Hp) as Hpid.
  rewrite (getItemQuantity_stored c'), Hc'.
  cbn [Cart.items Cart.notifyListeners Cart.saveToStorage Cart.setItems].
  unfold storedQuantity.
  destruct (JS.findIndex (Cart.hasId productId) (Cart.items c)) as [i|] eqn:Hi.
  - destruct (findIndex_Some _ _ _ Hi) as (x & Hx & Hidx).
    rewrite find_update_at_first by (assumption || reflexivity).
    now rewrite find_findIndex, Hi, Hx.
  - rewrite find_snoc, (find_none_findIndex _ _ Hi).
    set (new := CartItem.mk _ _ _ _ _).
    assert (Hnew : Cart.hasId productId new = true) by (apply hasId_true; exact Hpid).
    rewrite Hnew. cbn. now rewrite (getItemQuantity_absent c productId Hi).
Qed.

(** X22.  [handleAddToCart] shows one toast.  It is the success toast
    exactly when the cart took the product: its stored quantity is then one
    more than before, the product is live and in stock, the new quantity is
    within its stock and within 10, and an initialized manager has
    announced the addition as well.  Otherwise the toast carries the error
    of [addItem] and nothing has changed. *)
Theorem handleAddToCart_feedback (products : list Product.t) (now : Z)
    (productId : string) (m : CartManager.t) :
  let r := GoogleStoreApp.handleAddToCart products now productId m in
  let q := Cart.getItemQuantity (CartManager.cart m) productId in
  (snd r = [Shown.mk (Text "Product added to cart") "success"]
   /\ Cart.getItemQuantity (CartManager.cart (fst r)) productId = q + 1
   /\ q + 1 <= Cart.MAX_QUANTITY
   /\ (exists p,
         ProductAPI.getProductById products productId = Some p
         /\ Product.inStock p = true /\ q + 1 <= Product.stock p)
   /\ CartManager.shown (fst r)
      = CartManager.shown m
        ++ (if CartManager.isInitialized m
            then [Shown.mk (Text "Item added to cart") "success"] else []))
  \/ (exists error,
        thrown (Cart.addItem products now productId (Some 1) (CartManager.cart m))
        = Some error
        /\ snd r = [errorShown error] /\ fst r = m).
Proof.
  cbv zeta. unfold GoogleStoreApp.handleAddToCart.
  destruct (Cart.addItem products now productId (Some 1) (CartManager.cart m))
    as [r c' | e c'] eqn:Hadd.
  - left. cbn [fst snd].
    pose proof (addItem_quantity _ _ _ _ _ _ _ Hadd) as Hq.
    destruct (addItem_Returned _ _ _ _ _ _ _ Hadd)
      as (_ & _ & _ & p & Hp & Hin & Hstock & Hmax & Hc').
    split; [reflexivity|]. split; [exact Hq|]. split; [exact Hmax|].
    split; [now exists p|].
    unfold CartManager.afterCart. cbn [CartManager.shown CartManager.cart].
    rewrite Hc', (eventsSince_notify now). cbn.
    reflexivity.
  - right. exists e. cbn [fst snd thrown]. split; [reflexivity|].
    split; [reflexivity|].
    apply addItem_Thrown in Hadd. subst c'. apply afterCart_same.
Qed.

(** The tenth press succeeds and the eleventh is refused. *)
Example handleAddToCart_limit :
  let ps := [product "p1" 10%float 50] in
  let m := CartManager.mk (cartOf [line "p1" 9]) true [] in
  let tenth := GoogleStoreApp.handleAddToCart ps 1 "p1" m in
  let eleventh := GoogleStoreApp.handleAddToCart ps 2 "p1" (fst tenth) in
  Cart.getItemQuantity (CartManager.cart (fst tenth)) "p1" = 10
  /\ snd eleventh = [errorShown Cart.QuantityLimitError]
  /\ fst eleventh = fst tenth.
Proof. repeat split. Qed.

(* ================================================================= *)
(** ** The handlers and the invariant *)

Lemma updateItemQuantity_keeps_ids (products : list Product.t) (now : Z)
    (productId : string) (q : Z) (c c' : Cart.t) (r : bool) :
  q <> 0 ->
  Cart.updateItemQuantity products now productId q c = Cart.Returned r c' ->
  map CartItem.id (Cart.items c') = map CartItem.id (Cart.items c).
Proof.
  intros Hq. unfold Cart.updateItemQuantity.
  destruct (String.eqb productId "" || (q <? 0)); [discriminate|].
  destruct (Cart.MAX_QUANTITY <? q); [discriminate|].
  destruct (JS.findIndex (Cart.hasId productId) (Cart.items c)) as [i|];
    [|discriminate].
  destruct (Z.eqb_spec q 0) as [|_]; [contradiction|].
  destruct (ProductAPI.getProductById products productId) as [p|];
    [destruct (Product.stock p <? q); [discriminate|]|];
    intros [= _ <-]; cbn; apply map_update_at; reflexivity.
Qed.

Lemma typedQuantity_not_zero (parsed : option Z) : typedQuantity parsed <> 0.
Proof.
  unfold typedQuantity. destruct parsed as [n|]; [|discriminate].
  destruct (Z.eqb_spec n 0); [discriminate | assumption].
Qed.

(** X23.  No handler breaks the invariant of the line items: after
    [initialize], after the listener of the quantity input (which passes
    [parseInt(value) || 1] to [handleQuantityUpdate]), after
    [handleItemRemove], [handleAddToCart] and [handleCheckout] the
    quantities are still within 1..10 and the stock, and the product ids
    distinct.  A removal that is not confirmed changes nothing.  Whatever
    is typed into the quantity input, no line is added or removed: a typed
    0 and a text that is no number are passed on as 1, and a quantity that
    [updateItemQuantity] refuses shows its error and changes nothing else.
    Only a direct call of [handleQuantityUpdate] with 0, which the listener
    never makes, does what a confirmed removal does. *)
Theorem handlers_keep_the_invariant (products : list Product.t) (now : Z)
    (m : CartManager.t) :
  cartOk products (Cart.items (CartManager.cart m)) ->
  let ok m' := cartOk products (Cart.items (CartManager.cart m')) in
  ok (CartManager.initialize products now m)
  /\ (forall productId parsed,
        ok (CartManager.quantityInputChanged products now productId parsed m))
  /\ (forall productId confirmed,
        ok (CartManager.handleItemRemove now productId confirmed m))
  /\ (forall productId,
        ok (fst (GoogleStoreApp.handleAddToCart products now productId m)))
  /\ ok (fst (fst (UIManager.handleCheckout products now m)))
  /\ (forall productId, CartManager.handleItemRemove now productId false m = m)
  /\ (forall productId parsed,
        CartManager.quantityInputChanged products now productId parsed m
        = CartManager.handleQuantityUpdate products now productId
            (typedQuantity parsed) m
        /\ typedQuantity parsed <> 0
        /\ (parsed = None \/ parsed = Some 0 -> typedQuantity parsed = 1)
        /\ map CartItem.id
             (Cart.items
                (CartManager.cart
                   (CartManager.quantityInputChanged products now productId
                      parsed m)))
           = map CartItem.id (Cart.items (CartManager.cart m)))
  /\ (forall productId parsed error,
        thrown (Cart.updateItemQuantity products now productId
                  (typedQuantity parsed) (CartManager.cart m)) = Some error ->
        CartManager.quantityInputChanged products now productId parsed m
        = CartManager.showNotification (OfError error) "error" m)
  /\ (forall productId,
        Cart.hasItem (CartManager.cart m) productId = true -> productId <> "" ->
        CartManager.handleQuantityUpdate products now productId 0 m
        = CartManager.handleItemRemove now productId true m).
Proof.
  intros Hok. cbv zeta.
  assert (Hlistener : forall productId parsed,
             CartManager.quantityInputChanged products now productId parsed m
             = CartManager.handleQuantityUpdate products now productId
                 (typedQuantity parsed) m) by reflexivity.
  split; [|split; [|split; [|split; [|split; [|split; [|split; [|split]]]]]]].
  - unfold CartManager.initialize.
    destruct (CartManager.isInitialized m); [exact Hok|].
    pose proof (validateCart_keeps_cartOk products now _ Hok) as H.
    now destruct (Cart.validateCart products now (CartManager.cart m)).
  - intros productId parsed. rewrite Hlistener.
    unfold CartManager.handleQuantityUpdate.
    destruct (Cart.updateItemQuantity products now productId (typedQuantity parsed)
                (CartManager.cart m)) as [r c' | e c'] eqn:Hup.
    + exact (updateItemQuantity_keeps_cartOk products now _ _ _ _ _ Hok Hup).
    + apply updateItemQuantity_Thrown in Hup. now subst c'.
  - intros productId [|]; [|exact Hok].
    apply (removeItem_keeps_cartOk products now productId None _ Hok). exact I.
  - intros productId. unfold GoogleStoreApp.handleAddToCart.
    destruct (Cart.addItem products now productId (Some 1) (CartManager.cart m))
      as [r c' | e c'] eqn:Hadd.
    + exact (addItem_keeps_cartOk products now _ _ _ _ _ Hok Hadd).
    + apply addItem_Thrown in Hadd. now subst c'.
  - unfold UIManager.handleCheckout.
    destruct (Cart.isEmpty (CartManager.cart m)); [exact Hok|].
    pose proof (validateCart_keeps_cartOk products now _ Hok) as H.
    destruct (Cart.validateCart products now (CartManager.cart m)) as [v c'].
    now destruct (negb (Validation.isValid v)).
  - reflexivity.
  - intros productId parsed. split; [apply Hlistener|].
    split; [apply typedQuantity_not_zero|]. split.
    + intros [-> | ->]; reflexivity.
    + rewrite Hlistener. unfold CartManager.handleQuantityUpdate.
      destruct (Cart.updateItemQuantity products now productId (typedQuantity parsed)
                  (CartManager.cart m)) as [r c' | e c'] eqn:Hup.
      * exact (updateItemQuantity_keeps_ids products now _ _ _ _ _
                 (typedQuantity_not_zero parsed) Hup).
      * apply updateItemQuantity_Thrown in Hup. now subst c'.
  - intros productId parsed error Hth. rewrite Hlistener.
    unfold CartManager.handleQuantityUpdate.
    destruct (Cart.updateItemQuantity products now productId (typedQuantity parsed)
                (CartManager.cart m)) as [r c' | e c'] eqn:Hup; [discriminate|].
    cbn in Hth. injection Hth as ->.
    apply updateItemQuantity_Thrown in Hup. subst c'.
    now rewrite afterCart_same.
  - intros productId Hhas Hid.
    rewrite hasItem_findIndex in Hhas.
    destruct (JS.findIndex (Cart.hasId productId) (Cart.items (CartManager.cart m)))
      as [i|] eqn:Hi; [|discriminate].
    destruct (stored_line products _ productId i Hok Hi)
      as (x & Hx & Hidx & Hq & [Hrange Hstock]).
    rewrite Hidx in Hstock.
    unfold CartManager.handleQuantityUpdate, CartManager.handleItemRemove,
      Cart.updateItemQuantity.
    apply String.eqb_neq in Hid. rewrite Hid. cbn [orb Z.ltb Z.compare].
    change (Cart.MAX_QUANTITY <? 0) with false. cbv iota. rewrite Hi.
    assert (Hnone : match ProductAPI.getProductById products productId with
                    | Some product =>
                        if Product.stock product <? 0
                        then Some (Product.stock product) else None
                    | None => None
                    end = None).
    { destruct (ProductAPI.getProductById products productId) as [p|];
        [|reflexivity].
      specialize (Hstock p eq_refl).
      destruct (Z.ltb_spec (Product.stock p) 0); [lia | reflexivity]. }
    rewrite Hnone. cbn [Z.eqb].
    now destruct (Cart.removeItem now productId None (CartManager.cart m)).
Qed.

Lemma handlers_keep_the_invariant_witness :
  let ps := [product "p1" 10%float 5] in
  let m := CartManager.mk (cartOf [line "p1" 1]) true [] in
  cartOk ps
    (Cart.items
       (CartManager.cart (CartManager.quantityInputChanged ps 3 "p1" (Some 4) m))).
Proof.
  cbv zeta.
  refine (proj1 (proj2 (handlers_keep_the_invariant [product "p1" 10%float 5] 3
                   (CartManager.mk (cartOf [line "p1" 1]) true []) _))
            "p1" (Some 4)).
  split.
  - constructor; [|constructor].
    split; [cbn; unfold Cart.MAX_QUANTITY; lia|].
    intros p Hp. cbn in Hp. injection Hp as <-. cbn. lia.
  - cbn. constructor; [intros [] | constructor].
Defined.

(** A typed 0 leaves the line with a quantity of 1; a typed 11 is refused;
    a direct call with 0 removes the line and the removal is announced. *)
Example quantityInputChanged_typed :
  let ps := [product "p1" 10%float 50] in
  let m := CartManager.mk (cartOf [line "p1" 2]) true [] in
  let zero := CartManager.quantityInputChanged ps 1 "p1" (Some 0) m in
  let eleven := CartManager.quantityInputChanged ps 1 "p1" (Some 11) m in
  let direct := CartManager.handleQuantityUpdate ps 1 "p1" 0 m in
  map (fun i => (CartItem.id i, CartItem.quantity i))
    (Cart.items (CartManager.cart zero)) = [("p1", 1)]
  /\ CartManager.shown zero = []
  /\ CartManager.cart eleven = CartManager.cart m
  /\ CartManager.shown eleven = [errorShown Cart.QuantityLimitError]
  /\ Cart.items (CartManager.cart direct) = []
  /\ CartManager.shown direct = [Shown.mk (Text "Item removed from cart") "info"].
Proof. repeat split. Qed.

(* ================================================================= *)
(** ** Loading the catalog *)

Lemma requests_dec (forceRefresh : bool) (now : Z) (api : ProductAPI.Instance.t) :
  requests forceRefresh now api ->
  negb forceRefresh && ProductAPI.isCacheValid now api = false.
Proof.
  intros [-> | ->]; [reflexivity | apply andb_false_r].
Qed.

(** X24.  Where [loadProducts] takes the products from.  With a valid
    cache and no forced refresh it answers from the cache of the instance,
    whatever the request would have brought, and writes nothing.
    Otherwise it makes the request; a body with products becomes the
    products of the instance and the stored cache entry, stamped with the
    time of arrival, while the cache of the instance stays as it was.  When
    the request fails, the products of the cache of the instance are
    returned however old they are; without such products the call throws,
    with the TypeError of reading [null] when the instance has no cache at
    all; the stored entry and [lastFetch] are untouched and the error is
    recorded.  [isLoading] is false afterwards in every case where a
    request was made. *)
Theorem loadProducts_sources (forceRefresh : bool) (now fetchedAt : Z)
    (fetched : ProductAPI.Fetched) (api : ProductAPI.Instance.t)
    (entry : ProductAPI.CacheEntry) :
  let r := ProductAPI.loadProducts forceRefresh now fetchedAt fetched api entry in
  (forceRefresh = false -> ProductAPI.isCacheValid now api = true ->
   (forall fetchedAt' fetched',
       ProductAPI.loadProducts false now fetchedAt' fetched' api entry = r)
   /\ entryOf r = entry
   /\ exists data,
        ProductAPI.Instance.cache api = Some data
        /\ loadedOf r = ProductAPI.Resolved (ProductAPI.CacheData.products data)
        /\ ProductAPI.Instance.products (instanceOf r)
           = ProductAPI.CacheData.products data)
  /\ (requests forceRefresh now api ->
      ProductAPI.Instance.isLoading (instanceOf r) = false
      /\ ProductAPI.Instance.cache (instanceOf r) = ProductAPI.Instance.cache api)
  /\ (requests forceRefresh now api ->
      forall processed categories,
        fetched = ProductAPI.Body (Some processed) categories ->
        loadedOf r = ProductAPI.Resolved (Some processed)
        /\ ProductAPI.Instance.products (instanceOf r) = Some processed
        /\ ProductAPI.Instance.error (instanceOf r) = None
        /\ ProductAPI.Instance.lastFetch (instanceOf r) = Some fetchedAt
        /\ entryOf r = writtenAt fetchedAt processed categories)
  /\ (requests forceRefresh now api -> requestFails fetched ->
      entryOf r = entry
      /\ ProductAPI.Instance.lastFetch (instanceOf r)
         = ProductAPI.Instance.lastFetch api
      /\ ProductAPI.Instance.error (instanceOf r) <> None
      /\ match ProductAPI.Instance.cache api with
         | None =>
             loadedOf r = ProductAPI.Threw ProductAPI.NullCacheError
             /\ ProductAPI.Instance.products (instanceOf r)
                = ProductAPI.Instance.products api
         | Some data =>
             match ProductAPI.CacheData.products data with
             | Some cached =>
                 loadedOf r = ProductAPI.Resolved (Some cached)
                 /\ ProductAPI.Instance.products (instanceOf r) = Some cached
             | None =>
                 ProductAPI.Instance.error (instanceOf r)
                 = match loadedOf r with
                   | ProductAPI.Threw error => Some error
                   | ProductAPI.Resolved _ => None
                   end
                 /\ ProductAPI.Instance.products (instanceOf r)
                    = ProductAPI.Instance.products api
             end
         end).
Proof.
  cbv zeta. unfold loadedOf, instanceOf, entryOf.
  split; [|split; [|split]].
  - intros -> Hvalid. unfold ProductAPI.loadProducts. cbn [negb andb].
    rewrite Hvalid.
    assert (Hc : exists data, ProductAPI.Instance.cache api = Some data).
    { unfold ProductAPI.isCacheValid in Hvalid.
      destruct (ProductAPI.Instance.cache api) as [d|]; [now exists d | discriminate]. }
    destruct Hc as (data & Hc). rewrite Hc. cbn [fst snd].
    split; [reflexivity|]. split; [reflexivity|].
    exists data. repeat split.
  - intros Hreq. unfold ProductAPI.loadProducts.
    rewrite (requests_dec _ _ _ Hreq).
    destruct fetched as [msg | status | [processed|] categories];
      cbn [fst snd]; try (split; reflexivity);
      unfold ProductAPI.loadFailed;
      destruct (ProductAPI.Instance.cache api) as [data|];
      try destruct (ProductAPI.CacheData.products data);
      split; reflexivity.
  - intros Hreq processed categories ->. unfold ProductAPI.loadProducts.
    rewrite (requests_dec _ _ _ Hreq). cbn. repeat split.
  - intros Hreq Hfail. unfold ProductAPI.loadProducts.
    rewrite (requests_dec _ _ _ Hreq).
    destruct fetched as [msg | status | [processed|] categories];
      try contradiction;
      cbn [fst snd]; unfold ProductAPI.loadFailed;
      destruct (ProductAPI.Instance.cache api) as [data|];
      try destruct (ProductAPI.CacheData.products data);
      cbn; repeat split; discriminate.
Qed.

Lemma loadProducts_sources_witness :
  loadedOf
    (ProductAPI.loadProducts false 100 200
       (ProductAPI.Body (Some sevenProducts) None)
       (fst (ProductAPI.create 100 ProductAPI.NoEntry)) ProductAPI.NoEntry)
  = ProductAPI.Resolved (Some sevenProducts).
Proof.
  refine (proj1 (proj1 (proj2 (proj2
    (loadProducts_sources false 100 200 (ProductAPI.Body (Some sevenProducts) None)
       (fst (ProductAPI.create 100 ProductAPI.NoEntry)) ProductAPI.NoEntry)))
    _ sevenProducts None eq_refl)).
  right. reflexivity.
Defined.

(* ================================================================= *)
(** ** The cache from one instance to the next *)

(** X25.  The entry a successful request writes at [fetchedAt] serves the
    instances constructed later.  One constructed at most 24 hours after
    keeps the entry and holds it as its cache; its [loadProducts],
    called less than 24 hours after [fetchedAt], returns the products that
    were written, whatever the request would bring, and leaves the entry
    alone.  One constructed more than 24 hours after removes the entry and
    has no cache.  At exactly 24 hours the entry is kept and held, but it
    no longer counts as valid. *)
Theorem cache_round_trip (fetchedAt : Z) (processed : list Product.t)
    (categories : option (list ProductAPI.Category.t)) (t : Z) :
  let written := writtenAt fetchedAt processed categories in
  let fresh := ProductAPI.create t written in
  (t - fetchedAt <= ProductAPI.CACHE_DURATION ->
   snd fresh = written
   /\ (forall t' fetchedAt' fetched,
         t' - fetchedAt < ProductAPI.CACHE_DURATION ->
         let r := ProductAPI.loadProducts false t' fetchedAt' fetched
                    (fst fresh) (snd fresh) in
         loadedOf r = ProductAPI.Resolved (Some processed)
         /\ ProductAPI.Instance.products (instanceOf r) = Some processed
         /\ entryOf r = written))
  /\ (ProductAPI.CACHE_DURATION < t - fetchedAt ->
      snd fresh = ProductAPI.NoEntry
      /\ ProductAPI.Instance.cache (fst fresh) = None
      /\ forall t', ProductAPI.isCacheValid t' (fst fresh) = false)
  /\ (t - fetchedAt = ProductAPI.CACHE_DURATION ->
      ProductAPI.Instance.cache (fst fresh) <> None
      /\ ProductAPI.isCacheValid t (fst fresh) = false).
Proof.
  cbv zeta. unfold ProductAPI.create, ProductAPI.loadCache, writtenAt.
  cbn [ProductAPI.CacheData.timestamp].
  destruct (Z.ltb_spec ProductAPI.CACHE_DURATION (t - fetchedAt)) as [Hold | Hnew];
    cbn [fst snd].
  - split; [lia|]. split; [|lia]. intros _. repeat split.
  - split; [|split; [lia|]].
    + intros _. split; [reflexivity|].
      intros t' fetchedAt' fetched Ht'.
      unfold ProductAPI.loadProducts, ProductAPI.isCacheValid, loadedOf,
        instanceOf, entryOf.
      cbn [ProductAPI.Instance.cache ProductAPI.CacheData.timestamp negb andb].
      destruct (Z.ltb_spec (t' - fetchedAt) ProductAPI.CACHE_DURATION); [|lia].
      repeat split.
    + intros Heq. split; [discriminate|].
      unfold ProductAPI.isCacheValid.
      cbn [ProductAPI.Instance.cache ProductAPI.CacheData.timestamp].
      destruct (Z.ltb_spec (t - fetchedAt) ProductAPI.CACHE_DURATION);
        [lia | reflexivity].
Qed.

Lemma cache_round_trip_witness :
  snd (ProductAPI.create 500 (writtenAt 200 sevenProducts None))
  = writtenAt 200 sevenProducts None.
Proof.
  refine (proj1 (proj1 (cache_round_trip 200 sevenProducts None 500) _)).
  unfold ProductAPI.CACHE_DURATION. lia.
Defined.

(** X26.  [loadProducts] never sets the cache of the instance: an
    instance constructed without a cache makes a request at every call,
    also right after a request that succeeded and wrote the entry, and when
    such a later request fails the call throws the TypeError although the
    instance still holds the products of the earlier one. *)
Theorem own_cache_is_never_set (forceRefresh : bool) (now fetchedAt : Z)
    (processed : list Product.t)
    (categories : option (list ProductAPI.Category.t))
    (api : ProductAPI.Instance.t) (entry : ProductAPI.CacheEntry) :
  ProductAPI.Instance.cache api = None ->
  let first :=
    ProductAPI.loadProducts forceRefresh now fetchedAt
      (ProductAPI.Body (Some processed) categories) api entry in
  loadedOf first = ProductAPI.Resolved (Some processed)
  /\ entryOf first = writtenAt fetchedAt processed categories
  /\ forall forceRefresh' now' fetchedAt' fetched,
       requests forceRefresh' now' (instanceOf first)
       /\ (requestFails fetched ->
           let second :=
             ProductAPI.loadProducts forceRefresh' now' fetchedAt' fetched
               (instanceOf first) (entryOf first) in
           loadedOf second = ProductAPI.Threw ProductAPI.NullCacheError
           /\ ProductAPI.Instance.products (instanceOf second) = Some processed
           /\ entryOf second = writtenAt fetchedAt processed categories).
Proof.
  intros Hnone. cbv zeta. unfold loadedOf, instanceOf, entryOf.
  assert (Hreq : negb forceRefresh && ProductAPI.isCacheValid now api = false).
  { unfold ProductAPI.isCacheValid. rewrite Hnone. apply andb_false_r. }
  assert (Hfirst :
            ProductAPI.loadProducts forceRefresh now fetchedAt
              (ProductAPI.Body (Some processed) categories) api entry
            = (ProductAPI.Resolved (Some processed),
               ProductAPI.Instance.mk (Some processed)
                 (Some match categories with Some l => l | None => [] end)
                 false None (Some fetchedAt) None,
               writtenAt fetchedAt processed categories)).
  { unfold ProductAPI.loadProducts. rewrite Hreq, Hnone. reflexivity. }
  rewrite Hfirst. cbn [fst snd].
  split; [reflexivity|]. split; [reflexivity|].
  intros forceRefresh' now' fetchedAt' fetched. split.
  - right. reflexivity.
  - intros Hfail. unfold ProductAPI.loadProducts, ProductAPI.isCacheValid.
    cbn [ProductAPI.Instance.cache]. rewrite andb_false_r.
    destruct fetched as [msg | status | [processed'|] categories'];
      try contradiction; repeat split.
Qed.

Lemma own_cache_is_never_set_witness :
  loadedOf
    (ProductAPI.loadProducts false 100 200
       (ProductAPI.Body (Some sevenProducts) None)
       (fst (ProductAPI.create 100 ProductAPI.Unparsable)) ProductAPI.Unparsable)
  = ProductAPI.Resolved (Some sevenProducts).
Proof.
  refine (proj1 (own_cache_is_never_set false 100 200 sevenProducts None
                   (fst (ProductAPI.create 100 ProductAPI.Unparsable))
                   ProductAPI.Unparsable _)).
  reflexivity.
Defined.

(** A text that is not JSON is never removed by the constructor; a second
    call a minute after a successful one, with the network down, throws. *)
Example loadProducts_after_success :
  let started := ProductAPI.create 100 ProductAPI.Unparsable in
  let first :=
    ProductAPI.loadProducts false 100 200
      (ProductAPI.Body (Some sevenProducts) None) (fst started) (snd started) in
  let second :=
    ProductAPI.loadProducts false 60200 60300 (ProductAPI.Rejected "offline")
      (instanceOf first) (entryOf first) in
  snd started = ProductAPI.Unparsable
  /\ loadedOf second = ProductAPI.Threw ProductAPI.NullCacheError
  /\ ProductAPI.Instance.error (instanceOf second)
     = Some (ProductAPI.FetchError "offline")
  /\ ProductAPI.Instance.isLoading (instanceOf second) = false.
Proof. repeat split. Qed.

(* ================================================================= *)
(** ** Paging through a search *)



